(** * Context Marketplace: the context store, the document generator
      and the publish workflow

    A shallow embedding of [src/app/models.py], [src/app/services.py] and
    of the routes of [src/app/main.py] over the context store, the
    contributor toggle and the pull-request publication, followed by the
    properties the specification states about them.

    Conventions of the embedding.
    - A Python [str] is a [string] (its UTF-8 bytes); [sorted] on [str]
      compares code points, which on UTF-8 text is the byte-wise
      lexicographic order [String.le].
    - A [datetime] is a [Z] (microseconds); [datetime.now()] and
      [uuid.uuid4()] are read from the environment: [clock n] is the value
      of the [n]-th call of [datetime.now()] and [uuid4 n] the value of the
      [n]-th call of [str(uuid.uuid4())]. The state counts the calls.
    - [self.contexts] is a [gmap] from context id to context. The objects
      the dictionary holds are mutated in place by the service; here every
      mutation writes the new value back under the same key. The order of
      insertion of the dictionary is not kept: a walk over it is a walk
      over [map_to_list], and what is stated of a walk is stated of the
      collection it yields.
    - The directory [contexts/] is a [gmap] from context id to the content
      of that directory: what [metadata.json] holds and the artifacts of
      [files/], keyed by the name of the entry in [files/]. The name of a
      file of a context is joined to [files/] as the source does, and need
      not name an entry of [files/] ([resolve] below).
    - The computations have no exceptions. Where [open] refuses a path
      within [_save_context], the source raises out of the calling method
      after the context has been changed in memory; the embedding ends the
      write there and goes on with the value the method returns when
      nothing is refused. What is stated of the directory after a write,
      and of the value returned with it, is stated for files of plain
      names ([plain_name]), for which nothing is refused. *)

From Stdlib Require Import ZArith Ascii.
From Stdlib Require DecimalString.
From stdpp Require Import base option list gmap strings sorting.

Open Scope Z_scope.

(** ** models.py *)

Inductive ContextFileType := STACK | BUSINESS | PEOPLE | GUIDELINES | CUSTOM.

Module ContextFile.
Record t := mk {
  name : string;
  file_type : ContextFileType;
  content : string;
  created_at : Z;
  updated_at : Z
}.
End ContextFile.

Module GitHubRepo.
Record t := mk {
  owner : string;
  name : string;
  full_name : string;
  description : option string;
  url : string;
  clone_url : string;
  default_branch : string;
  language : option string;
  languages : option (gmap string Z)
}.
End GitHubRepo.

Module GitHubContributor.
Record t := mk {
  login : string;
  id : Z;
  avatar_url : string;
  name : option string;
  email : option string;
  bio : option string;
  pronouns : option string;
  company : option string;
  website : option string;
  location : option string;
  twitter_username : option string;
  public_repos : option Z;
  followers : option Z;
  following : option Z;
  created_at : option string;
  hireable : option bool;
  contributions : Z;
  selected : bool
}.

(** [contrib.selected = b] *)
Definition set_selected (b : bool) (c : t) : t :=
  mk (login c) (id c) (avatar_url c) (name c) (email c) (bio c) (pronouns c)
     (company c) (website c) (location c) (twitter_username c)
     (public_repos c) (followers c) (following c) (created_at c)
     (hireable c) (contributions c) b.
End GitHubContributor.

Module Context.
Record t := mk {
  id : string;
  name : string;
  description : option string;
  owner_id : Z;
  owner_login : string;
  github_repo : option GitHubRepo.t;
  files : list ContextFile.t;
  contributors : list GitHubContributor.t;
  is_public : bool;
  created_at : Z;
  updated_at : Z
}.

Definition set_name (v : string) (c : t) : t :=
  mk (id c) v (description c) (owner_id c) (owner_login c) (github_repo c)
     (files c) (contributors c) (is_public c) (created_at c) (updated_at c).
Definition set_description (v : option string) (c : t) : t :=
  mk (id c) (name c) v (owner_id c) (owner_login c) (github_repo c)
     (files c) (contributors c) (is_public c) (created_at c) (updated_at c).
Definition set_github_repo (v : option GitHubRepo.t) (c : t) : t :=
  mk (id c) (name c) (description c) (owner_id c) (owner_login c) v
     (files c) (contributors c) (is_public c) (created_at c) (updated_at c).
Definition set_files (v : list ContextFile.t) (c : t) : t :=
  mk (id c) (name c) (description c) (owner_id c) (owner_login c)
     (github_repo c) v (contributors c) (is_public c) (created_at c)
     (updated_at c).
Definition set_contributors (v : list GitHubContributor.t) (c : t) : t :=
  mk (id c) (name c) (description c) (owner_id c) (owner_login c)
     (github_repo c) (files c) v (is_public c) (created_at c) (updated_at c).
Definition set_is_public (v : bool) (c : t) : t :=
  mk (id c) (name c) (description c) (owner_id c) (owner_login c)
     (github_repo c) (files c) (contributors c) v (created_at c)
     (updated_at c).
Definition set_updated_at (v : Z) (c : t) : t :=
  mk (id c) (name c) (description c) (owner_id c) (owner_login c)
     (github_repo c) (files c) (contributors c) (is_public c) (created_at c)
     v.
End Context.

Module CreateContextRequest.
Record t := mk {
  name : string;
  description : option string;
  github_repo_url : option string;
  is_public : bool
}.

(** The request as pydantic builds it from what the caller supplies:
    [description] and [github_repo_url] default to [None], [is_public]
    to [True]. *)
Definition make (name : string) (description github_repo_url : option string)
    (is_public : option bool) : t :=
  mk name description github_repo_url (default true is_public).
End CreateContextRequest.

Module UpdateContextRequest.
Record t := mk {
  name : option string;
  description : option string;
  is_public : option bool
}.
End UpdateContextRequest.

Module UpdateContextFileRequest.
Record t := mk { content : string }.
End UpdateContextFileRequest.

Module CreateContextFileRequest.
Record t := mk {
  name : string;
  file_type : ContextFileType;
  content : string
}.
End CreateContextFileRequest.

(** Truthiness of an [Optional[str]]: [None] and the empty string are
    false. *)
Definition truthy (o : option string) : bool :=
  match o with
  | Some s => negb (String.eqb s "")
  | None => false
  end.

(** The value of a truthy [Optional[str]], for [if x: ... x ...]. *)
Definition nonempty (o : option string) : option string :=
  match o with
  | Some s => if truthy o then Some s else None
  | None => None
  end.

(** [c in s], for a character [c]. *)
Fixpoint contains_char (c : ascii) (s : string) : bool :=
  match s with
  | EmptyString => false
  | String c' s => Ascii.eqb c c' || contains_char c s
  end.

(** The line feed, written [\n] in the source. *)
Definition LF : string := String (Ascii.ascii_of_nat 10) "".

(** [GitHubService]: the token it is built from; its requests are
    modelled with the publish workflow below. *)
Module GitHubService.
Record t := mk { access_token : string }.
End GitHubService.

(** ** The state of the process and of its surroundings *)

(** What a file on disk holds: the dump of a context,
    [context.model_dump_json(indent=2)], or the content of a file of a
    context, [file_obj.content]. *)
Inductive Text :=
  | model_dump_json (context : Context.t)
  | raw (content : string).

(** The directory [contexts/<id>/]: the file [metadata.json] and the
    regular files of [files/], by name. The service creates nothing else
    in it. *)
Record ContextDir := mkContextDir {
  metadata_json : Text;
  files_dir : gmap string string
}.

(** *** Where [open(files_dir / name, "w")] writes

    [files_dir / name] is [name] itself when [name] is absolute; otherwise
    [pathlib] joins the two and drops the empty and the [.] components of
    [name] (so [a], [./a] and [a/] are one path), and keeps [..]. The
    system then walks the components from [files/], whose parent is the
    directory of the context. *)

(** [name.split("/")] *)
Fixpoint components (name : string) : list string :=
  match name with
  | EmptyString => [EmptyString]
  | String c name =>
      if Ascii.eqb c "/" then EmptyString :: components name
      else match components name with
           | part :: parts => String c part :: parts
           | [] => [String c EmptyString]
           end
  end.

(** The components [pathlib] keeps. *)
Definition parts (name : string) : list string :=
  filter (λ part, part ≠ "" ∧ part ≠ ".") (components name).

Inductive Target :=
  | Artifact (n : string)  (* the regular file [files/n] *)
  | MetadataJson           (* the file [metadata.json] of the context *)
  | Refused                (* [open] raises *)
  | Beyond.                (* a path outside [metadata.json] and [files/] *)

(** A component longer than [NAME_MAX] is refused. *)
Definition NAME_MAX : nat := 255.

(** The walk from [files/]. A directory cannot be opened for writing;
    the entries of [files/] and [metadata.json] are regular files, and
    nothing can be opened below one, nor below a name that does not
    exist. A path that leaves the directory of the context, or names a new
    entry of it, is [Beyond]: the embedding does not follow it. *)
Fixpoint walk (parts : list string) : Target :=
  match parts with
  | [] => Refused
  | part :: rest =>
      if decide (part = "..") then
        match rest with
        | [] => Refused
        | part' :: rest' =>
            if decide (part' = "files") then walk rest'
            else if decide (part' = "..") then Beyond
            else if decide (part' = "metadata.json") then
              match rest' with [] => MetadataJson | _ => Refused end
            else
              match rest' with
              | [] => if (NAME_MAX <? String.length part')%nat
                      then Refused else Beyond
              | _ => Refused
              end
        end
      else
        match rest with
        | [] => if (NAME_MAX <? String.length part)%nat
                then Refused else Artifact part
        | _ => Refused
        end
  end.

(** A name with a NUL character is refused by [open] itself. *)
Definition resolve (name : string) : Target :=
  if contains_char (Ascii.ascii_of_nat 0) name then Refused
  else if String.prefix "/" name then Beyond
  else walk (parts name).

Record World := mkWorld {
  contexts : gmap string Context.t;
  disk : gmap string ContextDir;
  ticks : nat;
  draws : nat
}.

(** A process that has just started, in a working directory where it has
    not run before: the store is empty, and so is [contexts/]. *)
Definition init_world : World := mkWorld ∅ ∅ 0 0.

(** Computations of the service: a state monad over [World]. *)
Definition M (A : Type) : Type := World → A * World.

Definition ret {A} (a : A) : M A := λ w, (a, w).
Definition bind {A B} (m : M A) (k : A → M B) : M B :=
  λ w, let (a, w') := m w in k a w'.

Notation "'let*' x := m 'in' k" := (bind m (λ x, k))
  (at level 10, x name, m at level 100, k at level 200,
   format "'[' 'let*'  x  :=  m  'in' ']' '/' k").
Notation "m ;; k" := (bind m (λ _, k))
  (at level 100, k at level 200, right associativity).

Definition get_contexts : M (gmap string Context.t) := λ w, (contexts w, w).

(** Writes the (mutated) object back under the key it is held at. *)
Definition store_context (context_id : string) (c : Context.t) : M unit :=
  λ w, (tt, mkWorld (<[context_id := c]> (contexts w)) (disk w) (ticks w)
                    (draws w)).
Definition remove_context (context_id : string) : M unit :=
  λ w, (tt, mkWorld (delete context_id (contexts w)) (disk w) (ticks w)
                    (draws w)).
Definition modify_disk (f : gmap string ContextDir → gmap string ContextDir)
    : M unit :=
  λ w, (tt, mkWorld (contexts w) (f (disk w)) (ticks w) (draws w)).

(** ** services.py: ContextService *)

(** [ValueError], raised by [create_context]. *)
Inductive ValueError := mkValueError (msg : string).

Section ContextService.
(** [clock n]: what the [n]-th call of [datetime.now()] returns. *)
Variable clock : nat → Z.
(** [uuid4 n]: what the [n]-th call of [str(uuid.uuid4())] returns. *)
Variable uuid4 : nat → string.

Definition now : M Z :=
  λ w, (clock (ticks w),
        mkWorld (contexts w) (disk w) (S (ticks w)) (draws w)).

Definition fresh_uuid : M string :=
  λ w, (uuid4 (draws w),
        mkWorld (contexts w) (disk w) (ticks w) (S (draws w))).

(** [ContextFile(name=.., file_type=.., content=..)]: the two timestamps
    come from two calls of the default factory, in field order. *)
Definition new_ContextFile (name : string) (file_type : ContextFileType)
    (content : string) : M ContextFile.t :=
  let* created_at := now in
  let* updated_at := now in
  ret (ContextFile.mk name file_type content created_at updated_at).

(** [Context(id=.., name=.., description=.., owner_id=.., owner_login=..,
    is_public=..)]: the remaining fields take their defaults. *)
Definition new_Context (id name : string) (description : option string)
    (owner_id : Z) (owner_login : string) (is_public : bool)
    : M Context.t :=
  let* created_at := now in
  let* updated_at := now in
  ret (Context.mk id name description owner_id owner_login None [] []
                  is_public created_at updated_at).

(** [_save_context]: [metadata.json] is rewritten with the dump of the
    context, and the files of the context are written in order, each to
    the path its name resolves to; the loop ends at the first name that is
    refused. Artifacts already in [files/] under other names stay. *)
Fixpoint write_files (fs : list ContextFile.t) (dir : ContextDir)
    : ContextDir :=
  match fs with
  | [] => dir
  | file_obj :: fs =>
      match resolve (ContextFile.name file_obj) with
      | Artifact n =>
          write_files fs
            (mkContextDir (metadata_json dir)
               (<[n := ContextFile.content file_obj]> (files_dir dir)))
      | MetadataJson =>
          write_files fs
            (mkContextDir (raw (ContextFile.content file_obj))
                          (files_dir dir))
      | Refused => dir
      | Beyond => write_files fs dir
      end
  end.

Definition save_to_disk (context : Context.t) (dk : gmap string ContextDir)
    : gmap string ContextDir :=
  let old := match dk !! Context.id context with
             | Some dir => files_dir dir
             | None => ∅
             end in
  <[Context.id context :=
      write_files (Context.files context)
                  (mkContextDir (model_dump_json context) old)]> dk.

Definition _save_context (context : Context.t) : M unit :=
  modify_disk (save_to_disk context).

(** [_delete_context_files]: [shutil.rmtree] of the context's directory. *)
Definition _delete_context_files (context_id : string) : M unit :=
  modify_disk (delete context_id).

Definition get_context (context_id : string) : M (option Context.t) :=
  let* cs := get_contexts in ret (cs !! context_id).

Definition get_user_contexts (user_id : Z) : M (list Context.t) :=
  let* cs := get_contexts in
  ret (filter (λ ctx, Context.owner_id ctx = user_id)
              (snd <$> map_to_list cs)).

Definition get_public_contexts : M (list Context.t) :=
  let* cs := get_contexts in
  ret (filter (λ ctx, Context.is_public ctx = true)
              (snd <$> map_to_list cs)).

(** The test of the loop of [get_context_by_repo_url]. *)
Definition linked_to (user_id : Z) (repo_url : string) (context : Context.t)
    : Prop :=
  Context.owner_id context = user_id ∧
  ∃ repo, Context.github_repo context = Some repo ∧
          GitHubRepo.url repo = repo_url.

#[global] Instance linked_to_dec user_id repo_url context :
  Decision (linked_to user_id repo_url context).
Proof.
  unfold linked_to. destruct (Context.github_repo context) as [repo|].
  - destruct (decide (Context.owner_id context = user_id)) as [Ho|Ho];
      [|right; tauto].
    destruct (decide (GitHubRepo.url repo = repo_url)) as [Hu|Hu].
    + left. eauto.
    + right. intros [_ (r & [= <-] & ?)]. done.
  - right. intros [_ (r & [=] & _)].
Defined.

(** The first context the loop meets that passes the test. Python walks
    the dictionary in insertion order, the map in key order; the callers
    only test the result for presence. *)
Definition get_context_by_repo_url (user_id : Z) (repo_url : string)
    : M (option Context.t) :=
  let* cs := get_contexts in
  ret (snd <$> list_find (linked_to user_id repo_url)
                         (snd <$> map_to_list cs)).

Definition create_context (user_id : Z) (user_login : string)
    (request : CreateContextRequest.t) : M (ValueError + Context.t) :=
  let* existing_context :=
    match CreateContextRequest.github_repo_url request with
    | Some repo_url =>
        if truthy (Some repo_url)
        then get_context_by_repo_url user_id repo_url
        else ret None
    | None => ret None
    end in
  match existing_context with
  | Some _ =>
      ret (inl (mkValueError ("Context already exists for repository: "
                              +:+ CreateContextRequest.name request)))
  | None =>
      let* context_id := fresh_uuid in
      let* context :=
        new_Context context_id (CreateContextRequest.name request)
          (CreateContextRequest.description request) user_id user_login
          (CreateContextRequest.is_public request) in
      store_context context_id context ;;
      _save_context context ;;
      ret (inr context)
  end.

Definition update_context (context_id : string)
    (request : UpdateContextRequest.t) : M (option Context.t) :=
  let* cs := get_contexts in
  match cs !! context_id with
  | None => ret None
  | Some context =>
      let context :=
        match UpdateContextRequest.name request with
        | Some v => Context.set_name v context
        | None => context
        end in
      let context :=
        match UpdateContextRequest.description request with
        | Some v => Context.set_description (Some v) context
        | None => context
        end in
      let context :=
        match UpdateContextRequest.is_public request with
        | Some v => Context.set_is_public v context
        | None => context
        end in
      let* t := now in
      let context := Context.set_updated_at t context in
      store_context context_id context ;;
      _save_context context ;;
      ret (Some context)
  end.

Definition delete_context (context_id : string) : M bool :=
  let* cs := get_contexts in
  match cs !! context_id with
  | Some _ =>
      remove_context context_id ;;
      _delete_context_files context_id ;;
      ret true
  | None => ret false
  end.

Definition add_file_to_context (context_id : string)
    (request : CreateContextFileRequest.t) : M (option ContextFile.t) :=
  let* cs := get_contexts in
  match cs !! context_id with
  | None => ret None
  | Some context =>
      let* file_obj :=
        new_ContextFile (CreateContextFileRequest.name request)
          (CreateContextFileRequest.file_type request)
          (CreateContextFileRequest.content request) in
      (* Remove existing file with same name *)
      let files :=
        filter (λ f, ContextFile.name f ≠ CreateContextFileRequest.name request)
               (Context.files context) in
      let context := Context.set_files (files ++ [file_obj]) context in
      let* t := now in
      let context := Context.set_updated_at t context in
      store_context context_id context ;;
      _save_context context ;;
      ret (Some file_obj)
  end.

Definition update_context_file (context_id file_name : string)
    (request : UpdateContextFileRequest.t) : M (option ContextFile.t) :=
  let* cs := get_contexts in
  match cs !! context_id with
  | None => ret None
  | Some context =>
      match list_find (λ f, ContextFile.name f = file_name)
                      (Context.files context) with
      | Some (i, file_obj) =>
          let* t := now in
          let file_obj :=
            ContextFile.mk (ContextFile.name file_obj)
              (ContextFile.file_type file_obj)
              (UpdateContextFileRequest.content request)
              (ContextFile.created_at file_obj) t in
          let context :=
            Context.set_files (<[i := file_obj]> (Context.files context))
                              context in
          let* t := now in
          let context := Context.set_updated_at t context in
          store_context context_id context ;;
          _save_context context ;;
          ret (Some file_obj)
      | None => ret None
      end
  end.

Definition remove_file_from_context (context_id file_name : string)
    : M bool :=
  let* cs := get_contexts in
  match cs !! context_id with
  | None => ret false
  | Some context =>
      let original_count := length (Context.files context) in
      let context :=
        Context.set_files
          (filter (λ f, ContextFile.name f ≠ file_name)
                  (Context.files context)) context in
      store_context context_id context ;;
      if decide (length (Context.files context) < original_count)%nat then
        let* t := now in
        let context := Context.set_updated_at t context in
        store_context context_id context ;;
        _save_context context ;;
        ret true
      else ret false
  end.

Definition set_context_repo (context_id : string)
    (github_repo : GitHubRepo.t) : M (option Context.t) :=
  let* cs := get_contexts in
  match cs !! context_id with
  | None => ret None
  | Some context =>
      let context := Context.set_github_repo (Some github_repo) context in
      let* t := now in
      let context := Context.set_updated_at t context in
      store_context context_id context ;;
      _save_context context ;;
      ret (Some context)
  end.

Definition set_context_contributors (context_id : string)
    (contributors : list GitHubContributor.t) : M (option Context.t) :=
  let* cs := get_contexts in
  match cs !! context_id with
  | None => ret None
  | Some context =>
      let context := Context.set_contributors contributors context in
      let* t := now in
      let context := Context.set_updated_at t context in
      store_context context_id context ;;
      _save_context context ;;
      ret (Some context)
  end.

(** The object bound to [context] as it is now: it is the one the
    dictionary holds under [context_id], which the calls in between have
    mutated. *)
Definition current (context_id : string) (context : Context.t)
    : M Context.t :=
  let* cs := get_contexts in ret (default context (cs !! context_id)).

(** [sorted(d.keys())] *)
Definition sorted_keys (d : gmap string Z) : list string :=
  merge_sort String.le (fst <$> map_to_list d).

Definition _generate_stack_content (context : Context.t)
    (github_service : option GitHubService.t) : string :=
  let content := "# Technology Stack" +:+ LF +:+ LF in
  let content :=
    match Context.github_repo context with
    | Some github_repo =>
        match GitHubRepo.languages github_repo with
        | Some languages =>
            if decide (languages = ∅) then content else
            let content := content +:+ "## Languages" +:+ LF in
            let content :=
              foldl (λ content lang, content +:+ "- **" +:+ lang +:+ "**" +:+ LF)
                    content (sorted_keys languages) in
            content +:+ LF
        | None => content
        end
    | None => content
    end in
  let content := content +:+ "## Frameworks & Libraries" +:+ LF in
  let content :=
    content +:+ "_Add frameworks and libraries used in this project_"
            +:+ LF +:+ LF in
  let content := content +:+ "## Tools & Services" +:+ LF in
  let content :=
    content +:+ "_Add development tools, CI/CD, and services used_"
            +:+ LF +:+ LF in
  let content := content +:+ "## Architecture" +:+ LF in
  let content :=
    content +:+ "_Describe the high-level architecture of the project_"
            +:+ LF in
  content.

Definition _generate_business_content (context : Context.t) : string :=
  let content := "# Business Logic" +:+ LF +:+ LF in
  let content :=
    match Context.github_repo context with
    | Some github_repo =>
        match nonempty (GitHubRepo.description github_repo) with
        | Some description =>
            content +:+ "## Project Description" +:+ LF +:+ description
                    +:+ LF +:+ LF
        | None => content
        end
    | None => content
    end in
  let content := content +:+ "## Core Features" +:+ LF in
  let content :=
    content +:+ "_List the main features and functionality_" +:+ LF +:+ LF in
  let content := content +:+ "## Business Rules" +:+ LF in
  let content :=
    content +:+ "_Document important business rules and constraints_"
            +:+ LF +:+ LF in
  let content := content +:+ "## User Stories" +:+ LF in
  let content := content +:+ "_Add key user stories and use cases_" +:+ LF in
  content.

(** The body of the loop of [_generate_people_content]. *)
Definition people_loop_body (content : string)
    (contrib : GitHubContributor.t) : string :=
  if GitHubContributor.selected contrib then
    let content :=
      content +:+ "### "
        +:+ default (GitHubContributor.login contrib)
                    (nonempty (GitHubContributor.name contrib))
        +:+ LF in
    let content :=
      content +:+ "- **GitHub**: [@" +:+ GitHubContributor.login contrib
        +:+ "](https://github.com/" +:+ GitHubContributor.login contrib
        +:+ ")" +:+ LF in
    let content :=
      match nonempty (GitHubContributor.pronouns contrib) with
      | Some pronouns => content +:+ "- **Pronouns**: " +:+ pronouns +:+ LF
      | None => content
      end in
    let content :=
      match nonempty (GitHubContributor.bio contrib) with
      | Some bio => content +:+ "- **Bio**: " +:+ bio +:+ LF
      | None => content
      end in
    let content :=
      match nonempty (GitHubContributor.company contrib) with
      | Some company => content +:+ "- **Company**: " +:+ company +:+ LF
      | None => content
      end in
    let content :=
      match nonempty (GitHubContributor.location contrib) with
      | Some location => content +:+ "- **Location**: " +:+ location +:+ LF
      | None => content
      end in
    let content :=
      match nonempty (GitHubContributor.website contrib) with
      | Some contrib_website =>
          (* Clean up the website URL *)
          let website := contrib_website in
          let website :=
            if negb (String.prefix "http://" website
                     || String.prefix "https://" website)
            then "https://" +:+ website
            else website in
          content +:+ "- **Website**: [" +:+ contrib_website +:+ "]("
                  +:+ website +:+ ")" +:+ LF
      | None => content
      end in
    let content :=
      match nonempty (GitHubContributor.email contrib) with
      | Some email => content +:+ "- **Email**: " +:+ email +:+ LF
      | None => content
      end in
    let content :=
      match nonempty (GitHubContributor.twitter_username contrib) with
      | Some twitter_username =>
          content +:+ "- **Twitter**: [@" +:+ twitter_username
                  +:+ "](https://twitter.com/" +:+ twitter_username +:+ ")"
                  +:+ LF
      | None => content
      end in
    let content :=
      match GitHubContributor.hireable contrib with
      | Some true => content +:+ "- **Available for hire**: Yes" +:+ LF
      | _ => content
      end in
    content +:+ LF
  else content.

Definition _generate_people_content (context : Context.t) : string :=
  let content := "# People" +:+ LF +:+ LF in
  let content :=
    match Context.contributors context with
    | [] => content
    | contributors =>
        let content := content +:+ "## Contributors" +:+ LF in
        foldl people_loop_body content contributors
    end in
  let content := content +:+ "## Team Roles" +:+ LF in
  let content :=
    content +:+ "_Define roles and responsibilities_" +:+ LF +:+ LF in
  let content := content +:+ "## Contact Information" +:+ LF in
  let content := content +:+ "_Add relevant contact information_" +:+ LF in
  content.

Definition _generate_guidelines_content (context : Context.t)
    (github_service : option GitHubService.t) : string :=
  let content := "# Development Guidelines" +:+ LF +:+ LF in
  (* Try to get CONTRIBUTING.md from the repository *)
  let contributing_content :=
    match Context.github_repo context, github_service with
    | Some _, Some _ => Some "# See CONTRIBUTING.md in the repository"
    | _, _ => None
    end in
  match nonempty contributing_content with
  | Some contributing_content =>
      let content := content +:+ "## Contributing Guidelines" +:+ LF in
      content +:+ contributing_content +:+ LF +:+ LF
  | None =>
      let content := content +:+ "## Code Style" +:+ LF in
      let content :=
        content +:+ "_Define coding standards and style guidelines_"
                +:+ LF +:+ LF in
      let content := content +:+ "## Development Workflow" +:+ LF in
      let content :=
        content +:+ "_Describe the development process and workflow_"
                +:+ LF +:+ LF in
      let content := content +:+ "## Testing Guidelines" +:+ LF in
      let content :=
        content +:+ "_Document testing requirements and practices_"
                +:+ LF +:+ LF in
      let content := content +:+ "## Review Process" +:+ LF in
      content +:+ "_Define the code review process_" +:+ LF
  end.

Definition generate_default_files (context_id : string)
    (github_service : option GitHubService.t) : M (option Context.t) :=
  let* cs := get_contexts in
  match cs !! context_id with
  | None => ret None
  | Some context =>
      (* Generate stack.md *)
      let stack_content := _generate_stack_content context github_service in
      add_file_to_context context_id
        (CreateContextFileRequest.mk "stack.md" STACK stack_content) ;;
      let* context := current context_id context in
      (* Generate business.md *)
      let business_content := _generate_business_content context in
      add_file_to_context context_id
        (CreateContextFileRequest.mk "business.md" BUSINESS business_content) ;;
      let* context := current context_id context in
      (* Generate people.md *)
      let people_content := _generate_people_content context in
      add_file_to_context context_id
        (CreateContextFileRequest.mk "people.md" PEOPLE people_content) ;;
      let* context := current context_id context in
      (* Generate guidelines.md *)
      let guidelines_content :=
        _generate_guidelines_content context github_service in
      add_file_to_context context_id
        (CreateContextFileRequest.mk "guidelines.md" GUIDELINES
                                     guidelines_content) ;;
      get_context context_id
  end.
End ContextService.

(** ** main.py: the contributor toggle *)

Module HTTPException.
Record t := mk { status_code : Z; detail : string }.
End HTTPException.

Record ToggleResponse := mkToggleResponse {
  tr_context : option Context.t;
  tr_updated_file : option ContextFile.t;
  tr_contributor_login : string;
  tr_contributor_selected : bool
}.

Section Toggle.
Variable clock : nat → Z.

(** The loop that finds and toggles the contributor: the first one whose
    login is [login] has its flag negated; [None] when there is none. *)
Definition toggle_first (login : string)
    (contributors : list GitHubContributor.t)
    : option (list GitHubContributor.t) :=
  match list_find (λ c, GitHubContributor.login c = login) contributors with
  | Some (i, contrib) =>
      Some (<[i := GitHubContributor.set_selected
                      (negb (GitHubContributor.selected contrib)) contrib]>
              contributors)
  | None => None
  end.

Definition toggle_contributor_selection (context_id login : string)
    (user_id : Z) : M (HTTPException.t + ToggleResponse) :=
  let* context := get_context context_id in
  match context with
  | None => ret (inl (HTTPException.mk 404 "Context not found"))
  | Some context =>
      if decide (user_id ≠ Context.owner_id context)
      then ret (inl (HTTPException.mk 403 "Access denied"))
      else
        (* Find and toggle the contributor *)
        match toggle_first login (Context.contributors context) with
        | None => ret (inl (HTTPException.mk 404 "Contributor not found"))
        | Some contributors =>
            let context := Context.set_contributors contributors context in
            store_context context_id context ;;
            (* Save the context with updated contributor selection *)
            _save_context context ;;
            (* Regenerate people.md in real-time *)
            let people_content := _generate_people_content context in
            let* updated_file :=
              update_context_file clock context_id "people.md"
                (UpdateContextFileRequest.mk people_content) in
            let* updated_context := get_context context_id in
            ret (inr (mkToggleResponse updated_context updated_file login
              (default false
                 (GitHubContributor.selected <$>
                    (snd <$> list_find
                       (λ c, GitHubContributor.login c = login)
                       (from_option Context.contributors [] updated_context))))))
        end
  end.
End Toggle.

(** ** services.py: GitHubService, and main.py: the publish route

    The requests the service sends to [https://api.github.com], by
    endpoint, with the JSON they carry. *)
Inductive HttpRequest :=
  (** [GET /repos/{owner}/{repo}] *)
  | GetRepo (owner repo : string)
  (** [GET /repos/{owner}/{repo}/languages] *)
  | GetLanguages (owner repo : string)
  (** [GET /repos/{owner}/{repo}/git/ref/heads/{branch}] *)
  | GetRef (owner repo branch : string)
  (** [POST /repos/{owner}/{repo}/git/refs] with [ref] and [sha] *)
  | PostRef (owner repo ref sha : string)
  (** [PUT /repos/{owner}/{repo}/contents/{path}] with [message],
      [content] and [branch] *)
  | PutContents (owner repo path message content branch : string)
  (** [POST /repos/{owner}/{repo}/pulls] with [title], [body], [head] and
      [base] *)
  | PostPull (owner repo title body head base : string).

(** What [resp.json()] holds, as far as the service reads it: the object
    of a repository, of a language breakdown, of a ref, of a pull request,
    or an object with at most a [message]; [Unusable] stands for a body
    that cannot be decoded ([resp.json()] raises). Reading a key that the
    object does not have raises too. *)
Inductive JsonBody :=
  | RepoData (owner_login name full_name : string)
             (description : option string)
             (html_url clone_url default_branch : string)
             (language : option string)
  | LanguagesData (languages : gmap string Z)
  | RefData (object_sha : string)
  | PullData (html_url : string)
  | MessageData (message : option string)
  | Unusable.

Record HttpResponse := mkHttpResponse {
  status_code : Z;
  json : JsonBody
}.

(** The exceptions of the workflow. [Raised] is any exception raised below
    the service's own code (a transport error of [httpx], a [KeyError] on
    a body): only its text matters, and only to the messages. *)
Inductive Exc :=
  | Exception (msg : string)
  | HTTPError (e : HTTPException.t)
  | Raised (text : string).

(** One request, with the reply it got: a response, or an exception of the
    transport. *)
Definition Exchange : Type := HttpRequest * (string + HttpResponse).

(** Computations that talk to the API: the log of the exchanges so far is
    threaded, and a computation ends in a value or in an exception. *)
Definition H (A : Type) : Type := list Exchange → (Exc + A) * list Exchange.

Definition pure {A} (a : A) : H A := λ log, (inr a, log).
Definition raise {A} (e : Exc) : H A := λ log, (inl e, log).
Definition and_then {A B} (m : H A) (k : A → H B) : H B :=
  λ log, match m log with
         | (inr a, log') => k a log'
         | (inl e, log') => (inl e, log')
         end.
Definition try_except {A} (m : H A) (handler : Exc → H A) : H A :=
  λ log, match m log with
         | (inr a, log') => (inr a, log')
         | (inl e, log') => handler e log'
         end.

Notation "'do' x <- m ; k" := (and_then m (λ x, k))
  (at level 10, x name, m at level 100, k at level 200,
   format "'[' 'do'  x  <-  m ; ']' '/' k").

Section Publish.
(** The API: its reply to a request, given the exchanges before it. *)
Variable server : list Exchange → HttpRequest → string + HttpResponse.
(** [re.search(r'github\.com[:/]([^/]+)/([^/]+?)(?:\.git)?/?$', repo_url)]
    and its two groups. *)
Variable search_github_url : string → option (string * string).
(** [str.lower], [base64.b64encode(s.encode('utf-8')).decode('utf-8')],
    and [datetime.now().strftime('%Y%m%d-%H%M%S')] at the time of the
    call. *)
Variable lower : string → string.
Variable b64encode : string → string.
Variable strftime_now : string.
(** [str(e)] of an [HTTPException]. *)
Variable str_HTTPException : HTTPException.t → string.

Definition str (e : Exc) : string :=
  match e with
  | Exception msg => msg
  | HTTPError e => str_HTTPException e
  | Raised text => text
  end.

(** [await client.get(..)], [client.post(..)], [client.put(..)] *)
Definition send (req : HttpRequest) : H HttpResponse :=
  λ log, match server log req with
         | inr resp => (inr resp, log ++ [(req, inr resp)])
         | inl text => (inl (Raised text), log ++ [(req, inl text)])
         end.

Definition get_repo_info (repo_url : string) : H (option GitHubRepo.t) :=
  try_except
    ((* Parse GitHub URL to get owner/repo *)
     match search_github_url repo_url with
     | None => pure None
     | Some (owner, repo) =>
         (* Get repository details *)
         do repo_resp <- send (GetRepo owner repo);
         if decide (status_code repo_resp ≠ 200) then pure None else
         do repo_data <-
           match json repo_resp with
           | Unusable => raise (Raised "repo_data")
           | repo_data => pure repo_data
           end;
         (* Get languages *)
         do lang_resp <- send (GetLanguages owner repo);
         do languages <-
           (if decide (status_code lang_resp = 200) then
              match json lang_resp with
              | LanguagesData languages => pure languages
              | _ => raise (Raised "languages")
              end
            else pure ∅);
         match repo_data with
         | RepoData owner_login name full_name description html_url
                    clone_url default_branch language =>
             pure (Some (GitHubRepo.mk owner_login name full_name
                           description html_url clone_url default_branch
                           language (Some languages)))
         | _ => raise (Raised "repo_data")
         end
     end)
    (λ e, pure None).

(** [s.replace(' ', '-')] *)
Fixpoint replace_spaces (s : string) : string :=
  match s with
  | String c s' =>
      String (if Ascii.eqb c " "%char then "-"%char else c) (replace_spaces s')
  | EmptyString => EmptyString
  end.

(** [chr(10).join(lines)] *)
Fixpoint join_lines (lines : list string) : string :=
  match lines with
  | [] => ""
  | [l] => l
  | l :: ls => l +:+ LF +:+ join_lines ls
  end.

Definition pr_body (context : Context.t) (user_login : string) : string :=
  "This PR adds project context files from the Context Marketplace." +:+ LF
  +:+ LF
  +:+ "**Context:** " +:+ Context.name context +:+ LF
  +:+ match nonempty (Context.description context) with
      | Some description => "**Description:** " +:+ description
      | None => ""
      end +:+ LF
  +:+ LF
  +:+ "## Files Added:" +:+ LF
  +:+ join_lines ((λ file, "- `.context/" +:+ ContextFile.name file +:+ "`")
                    <$> Context.files context) +:+ LF
  +:+ LF
  +:+ "## What is this?" +:+ LF
  +:+ "These files contain project context information including:" +:+ LF
  +:+ "- Technology stack and architecture" +:+ LF
  +:+ "- Business logic and requirements  " +:+ LF
  +:+ "- Team information and contributors" +:+ LF
  +:+ "- Development guidelines and standards" +:+ LF
  +:+ LF
  +:+ "The `.context/` directory helps new contributors understand the project quickly and provides context for AI tools and code assistants."
  +:+ LF
  +:+ LF
  +:+ "---" +:+ LF
  +:+ "*Created by @" +:+ user_login +:+ " via [Context Marketplace]()*"
  +:+ LF.

(** The loop that creates each file in the [.context] directory: a
    refused file is only warned about. *)
Fixpoint put_files (owner repo branch_name : string)
    (files_to_create : list (string * string)) : H unit :=
  match files_to_create with
  | [] => pure tt
  | (path, content) :: rest =>
      let content_encoded := b64encode content in
      do create_file_resp <-
        send (PutContents owner repo path
                ("Add " +:+ path +:+ " from context marketplace")
                content_encoded branch_name);
      put_files owner repo branch_name rest
  end.

Definition create_context_pr (owner repo : string) (context : Context.t)
    (user_login : string) : H string :=
  try_except
    ((* Get the default branch *)
     do repo_resp <- send (GetRepo owner repo);
     if decide (status_code repo_resp ≠ 200)
     then raise (Exception "Could not access repository") else
     do default_branch <-
       match json repo_resp with
       | RepoData _ _ _ _ _ _ default_branch _ => pure default_branch
       | _ => raise (Raised "'default_branch'")
       end;
     (* Get the latest commit SHA from default branch *)
     do ref_resp <- send (GetRef owner repo default_branch);
     if decide (status_code ref_resp ≠ 200)
     then raise (Exception "Could not get default branch reference") else
     do latest_sha <-
       match json ref_resp with
       | RefData sha => pure sha
       | _ => raise (Raised "'object'")
       end;
     (* Create a new branch for the PR *)
     let branch_name :=
       "context-" +:+ replace_spaces (lower (Context.name context))
                  +:+ "-" +:+ strftime_now in
     do create_ref_resp <-
       send (PostRef owner repo ("refs/heads/" +:+ branch_name) latest_sha);
     if decide (status_code create_ref_resp ≠ 201)
     then raise (Exception "Could not create branch") else
     (* Create .context directory and files *)
     let files_to_create :=
       (λ file, (".context/" +:+ ContextFile.name file,
                 ContextFile.content file)) <$> Context.files context in
     do _u <- put_files owner repo branch_name files_to_create;
     (* Create the pull request *)
     let pr_title := "Add project context from " +:+ Context.name context in
     do pr_resp <-
       send (PostPull owner repo pr_title (pr_body context user_login)
                      branch_name default_branch);
     if decide (status_code pr_resp ≠ 201) then
       match json pr_resp with
       | MessageData message =>
           raise (Exception ("Could not create PR: "
                             +:+ default "Unknown error" message))
       | Unusable => raise (Raised "error_data")
       | _ => raise (Exception "Could not create PR: Unknown error")
       end
     else
       match json pr_resp with
       | PullData html_url => pure html_url
       | RepoData _ _ _ _ html_url _ _ _ => pure html_url
       | _ => raise (Raised "'html_url'")
       end)
    (λ e, raise (Exception ("Failed to create pull request: " +:+ str e))).

(** The route [POST /api/contexts/{context_id}/create-pr]. *)
Definition create_pull_request (contexts : gmap string Context.t)
    (context_id user_login : string) : H string :=
  match contexts !! context_id with
  | None => raise (HTTPError (HTTPException.mk 404 "Context not found"))
  | Some context =>
      match Context.github_repo context with
      | None =>
          raise (HTTPError (HTTPException.mk 400
                   "Context is not connected to a GitHub repository"))
      | Some github_repo =>
          (* Check if user has write access to the repository *)
          try_except
            (do repo_info <- get_repo_info (GitHubRepo.url github_repo);
             match repo_info with
             | None =>
                 raise (HTTPError (HTTPException.mk 404
                          "Repository not found or not accessible"))
             | Some repo_info =>
                 (* Create the PR using GitHub service *)
                 create_context_pr (GitHubRepo.owner repo_info)
                   (GitHubRepo.name repo_info) context user_login
             end)
            (λ e, raise (HTTPError (HTTPException.mk 500
                           ("Error creating pull request: " +:+ str e))))
      end
  end.
End Publish.

(** ** A sample environment and sample states, for the examples *)

(** A clock that advances by one microsecond at every reading. *)
Definition sample_clock (n : nat) : Z := Z.of_nat n.

(** Identifiers ["ctx-0"], ["ctx-1"], ... *)
Definition sample_uuid4 (n : nat) : string :=
  "ctx-" +:+ DecimalString.NilEmpty.string_of_uint (Nat.to_uint n).

Definition state_of {A} (m : M A) (w : World) : World := snd (m w).
Definition value_of {A} (m : M A) (w : World) : A := fst (m w).

(** Alice (user 1) has created the context ["Foo"]. *)
Definition world_created : World :=
  state_of (create_context sample_clock sample_uuid4 1 "alice"
              (CreateContextRequest.make "Foo" None None None)) init_world.

(** ... and has put two files of her own in it. *)
Definition world_two_files : World :=
  state_of (add_file_to_context sample_clock "ctx-0"
              (CreateContextFileRequest.mk "notes.md" CUSTOM "first") ;;
            add_file_to_context sample_clock "ctx-0"
              (CreateContextFileRequest.mk "todo.md" CUSTOM "second"))
           world_created.

(** Alice's context holds a file whose name leads from [files/] to
    [metadata.json]. *)
Definition context_traversal : Context.t :=
  Context.mk "ctx-0" "Foo" None 1 "alice" None
    [ContextFile.mk "notes.md" CUSTOM "first" 2 3;
     ContextFile.mk "../metadata.json" CUSTOM "second" 5 6] [] true 0 7.
Definition world_traversal : World :=
  state_of (add_file_to_context sample_clock "ctx-0"
              (CreateContextFileRequest.mk "notes.md" CUSTOM "first") ;;
            add_file_to_context sample_clock "ctx-0"
              (CreateContextFileRequest.mk "../metadata.json" CUSTOM
                 "second"))
           world_created.
Definition world_traversal_removed : World :=
  state_of (remove_file_from_context sample_clock "ctx-0" "notes.md")
           world_traversal.
Definition world_traversal_updated : World :=
  state_of (update_context sample_clock "ctx-0"
              (UpdateContextRequest.mk None None None))
           world_traversal.

Definition sample_repo (url : string) : GitHubRepo.t :=
  GitHubRepo.mk "alice" "foo" "alice/foo" None url
    "https://github.com/alice/foo.git" "main" (Some "Go")
    (Some {["Python" := 50; "Go" := 100]}).

(** Alice's context is linked to her repository. *)
Definition world_linked : World :=
  state_of (set_context_repo sample_clock "ctx-0"
              (sample_repo "https://github.com/alice/foo")) world_created.

(** Alice's context is linked to a descriptor whose URL is empty. *)
Definition world_linked_nowhere : World :=
  state_of (set_context_repo sample_clock "ctx-0" (sample_repo ""))
           world_created.

(** ** The operations of the store, as data

    One constructor per operation a client can start: the public methods
    of [ContextService] that write, and the contributor toggle. *)
Inductive Op :=
  | CreateContext (user_id : Z) (user_login : string)
                  (request : CreateContextRequest.t)
  | UpdateContext (context_id : string) (request : UpdateContextRequest.t)
  | DeleteContext (context_id : string)
  | AddFile (context_id : string) (request : CreateContextFileRequest.t)
  | UpdateFile (context_id file_name : string)
               (request : UpdateContextFileRequest.t)
  | RemoveFile (context_id file_name : string)
  | SetRepoLink (context_id : string) (github_repo : GitHubRepo.t)
  | SetContributors (context_id : string)
                    (contributors : list GitHubContributor.t)
  | GenerateDefaultFiles (context_id : string)
                         (github_service : option GitHubService.t)
  | ToggleContributor (context_id login : string) (user_id : Z).

Definition exec (clock : nat → Z) (uuid4 : nat → string) (op : Op) : M unit :=
  match op with
  | CreateContext user_id user_login request =>
      create_context clock uuid4 user_id user_login request ;; ret tt
  | UpdateContext context_id request =>
      update_context clock context_id request ;; ret tt
  | DeleteContext context_id => delete_context context_id ;; ret tt
  | AddFile context_id request =>
      add_file_to_context clock context_id request ;; ret tt
  | UpdateFile context_id file_name request =>
      update_context_file clock context_id file_name request ;; ret tt
  | RemoveFile context_id file_name =>
      remove_file_from_context clock context_id file_name ;; ret tt
  | SetRepoLink context_id github_repo =>
      set_context_repo clock context_id github_repo ;; ret tt
  | SetContributors context_id contributors =>
      set_context_contributors clock context_id contributors ;; ret tt
  | GenerateDefaultFiles context_id github_service =>
      generate_default_files clock context_id github_service ;; ret tt
  | ToggleContributor context_id login user_id =>
      toggle_contributor_selection clock context_id login user_id ;; ret tt
  end.

Fixpoint run (clock : nat → Z) (uuid4 : nat → string) (ops : list Op)
    : M unit :=
  match ops with
  | [] => ret tt
  | op :: ops => exec clock uuid4 op ;; run clock uuid4 ops
  end.

(** ** Notions the properties are stated with *)

Definition file_names (fs : list ContextFile.t) : list string :=
  ContextFile.name <$> fs.

(** No two files of a stored context share a name. *)
Definition files_unique (w : World) : Prop :=
  map_Forall (λ _ context, NoDup (file_names (Context.files context)))
             (contexts w).

(** A plain file name: one component, the name of an entry of [files/]. *)
Definition plain_name (name : string) : bool :=
  negb (String.eqb name "") && negb (String.eqb name ".")
  && negb (String.eqb name "..")
  && negb (contains_char "/" name)
  && negb (contains_char (Ascii.ascii_of_nat 0) name)
  && (String.length name <=? NAME_MAX)%nat.

Definition plain_names (context : Context.t) : Prop :=
  Forall (λ name, plain_name name = true)
         (file_names (Context.files context)).

(** The directory of a context holds the context as stored and, for each
    of its files, an artifact named after the file, with the content of
    the file. *)
Definition written_through (context : Context.t) (dir : ContextDir) : Prop :=
  metadata_json dir = model_dump_json context ∧
  ∀ f, f ∈ Context.files context →
       files_dir dir !! ContextFile.name f = Some (ContextFile.content f).

(** What a write-through of [context] makes of the disk [dk]: the
    directory of the context holds it, written through; the artifacts
    under other names are those it had; the other directories are as they
    were. *)
Definition persisted (context : Context.t) (dk dk' : gmap string ContextDir)
    : Prop :=
  (∃ dir, dk' !! Context.id context = Some dir ∧
          written_through context dir ∧
          ∀ n, n ∉ file_names (Context.files context) →
               files_dir dir !! n
               = dk !! Context.id context ≫= λ old, files_dir old !! n) ∧
  ∀ k, k ≠ Context.id context → dk' !! k = dk !! k.

(** What [update_context] makes of a context, given the reading [t] of the
    clock: a supplied field replaces the old one. *)
Definition updated_with (request : UpdateContextRequest.t) (t : Z)
    (context : Context.t) : Context.t :=
  Context.mk (Context.id context)
    (default (Context.name context) (UpdateContextRequest.name request))
    (match UpdateContextRequest.description request with
     | Some v => Some v
     | None => Context.description context
     end)
    (Context.owner_id context) (Context.owner_login context)
    (Context.github_repo context) (Context.files context)
    (Context.contributors context)
    (default (Context.is_public context)
             (UpdateContextRequest.is_public request))
    (Context.created_at context) t.

(** The request names a non-empty repository URL and the user already owns
    a context linked to a repository of that URL. *)
Definition duplicate_link (w : World) (user_id : Z)
    (request : CreateContextRequest.t) : Prop :=
  ∃ repo_url context_id context,
    CreateContextRequest.github_repo_url request = Some repo_url ∧
    repo_url ≠ "" ∧
    contexts w !! context_id = Some context ∧
    linked_to user_id repo_url context.


Definition bob : GitHubContributor.t :=
  GitHubContributor.mk "bob" 7 "https://avatars.githubusercontent.com/u/7"
    (Some "Bob") None None None None (Some "bob.example") None None None
    None None None None 42 false.




(** The requests of the publish workflow, by kind. *)
Definition is_repo_read (req : HttpRequest) : bool :=
  match req with GetRepo _ _ => true | _ => false end.

Definition is_branch_creation (req : HttpRequest) : bool :=
  match req with PostRef _ _ _ _ => true | _ => false end.

Definition is_RepoData (body : JsonBody) : bool :=
  match body with RepoData _ _ _ _ _ _ _ _ => true | _ => false end.

(** A read of the repository's metadata fails when the transport raises,
    when the status is not 200, or when the body is not that of a
    repository. *)
Definition repo_read_failed (reply : string + HttpResponse) : bool :=
  match reply with
  | inl _ => true
  | inr resp =>
      bool_decide (status_code resp ≠ 200) || negb (is_RepoData (json resp))
  end.

(** An API that serves the first read of the repository and refuses the
    later ones. *)
Definition sample_server (log : list Exchange) (req : HttpRequest)
    : string + HttpResponse :=
  match req with
  | GetRepo owner repo =>
      match log with
      | [] => inr (mkHttpResponse 200
                     (RepoData owner repo (owner +:+ "/" +:+ repo) None
                        ("https://github.com/" +:+ owner +:+ "/" +:+ repo)
                        ("https://github.com/" +:+ owner +:+ "/" +:+ repo +:+ ".git")
                        "main" None))
      | _ => inr (mkHttpResponse 404 (MessageData (Some "Not Found")))
      end
  | GetLanguages _ _ => inr (mkHttpResponse 200 (LanguagesData ∅))
  | GetRef _ _ _ => inr (mkHttpResponse 200 (RefData "0a1b2c"))
  | _ => inr (mkHttpResponse 201 (PullData "https://github.com/alice/foo/pull/1"))
  end.

Definition sample_search (repo_url : string) : option (string * string) :=
  if String.eqb repo_url "https://github.com/alice/foo"
  then Some ("alice", "foo") else None.

(** Alice publishes her linked context against that API. *)
Definition sample_publish : (Exc + string) * list Exchange :=
  create_pull_request sample_server sample_search id id "20240101-000000"
    (λ e, HTTPException.detail e) (contexts world_linked) "ctx-0" "alice" [].

(** The language map of the repository a context is linked to; empty when
    there is no repository or no map. *)
Definition language_map (context : Context.t) : gmap string Z :=
  match Context.github_repo context with
  | Some github_repo => default ∅ (GitHubRepo.languages github_repo)
  | None => ∅
  end.

(** The parts of the stack document, as the specification names them. *)
Definition stack_title : string := "# Technology Stack" +:+ LF +:+ LF.

Definition stack_bullet (lang : string) : string :=
  "- **" +:+ lang +:+ "**" +:+ LF.

Definition stack_language_section (langs : list string) : string :=
  "## Languages" +:+ LF
  +:+ foldr (λ lang rest, stack_bullet lang +:+ rest) "" langs +:+ LF.

Definition stack_placeholders : string :=
  "## Frameworks & Libraries" +:+ LF
  +:+ "_Add frameworks and libraries used in this project_" +:+ LF +:+ LF
  +:+ "## Tools & Services" +:+ LF
  +:+ "_Add development tools, CI/CD, and services used_" +:+ LF +:+ LF
  +:+ "## Architecture" +:+ LF
  +:+ "_Describe the high-level architecture of the project_" +:+ LF.

(** Alphabetical order, in the words of the specification: the order of
    a dictionary, in which a capital letter stands with its small
    letter. *)
Definition fold_case_ascii (c : ascii) : ascii :=
  let n := Ascii.nat_of_ascii c in
  if (65 <=? n)%nat && (n <=? 90)%nat then Ascii.ascii_of_nat (n + 32)
  else c.

Fixpoint fold_case (s : string) : string :=
  match s with
  | EmptyString => EmptyString
  | String c s => String (fold_case_ascii c) (fold_case s)
  end.

Definition alphabetical (langs : list string) : Prop :=
  StronglySorted (λ s1 s2, String.le (fold_case s1) (fold_case s2)) langs.

(** A context linked to a repository of scripts. *)
Definition context_scripts : Context.t :=
  Context.mk "ctx-0" "Foo" None 1 "alice"
    (Some (GitHubRepo.mk "alice" "foo" "alice/foo" None
             "https://github.com/alice/foo"
             "https://github.com/alice/foo.git" "main" (Some "Shell")
             (Some {["Shell" := 100; "awk" := 50]})))
    [] [] true 0 2.

(** A context linked to the sample repository. *)
Definition context_linked : Context.t :=
  Context.mk "ctx-0" "Foo" None 1 "alice"
    (Some (sample_repo "https://github.com/alice/foo")) [] [] true 0 2.

(** The parts of the people document, as the specification names them.
    [unlines] ends every line with a line feed. *)
Definition unlines (lines : list string) : string :=
  foldr (λ line rest, line +:+ LF +:+ rest) "" lines.

(** The line of an optional field: none when the field is empty. *)
Definition field_line (field : option string) (render : string → string)
    : list string :=
  match nonempty field with
  | Some value => [render value]
  | None => []
  end.

Definition has_scheme (website : string) : bool :=
  String.prefix "http://" website || String.prefix "https://" website.

(** The target of the website link. *)
Definition website_target (website : string) : string :=
  if has_scheme website then website else "https://" +:+ website.

Definition contributor_lines (contrib : GitHubContributor.t) : list string :=
  [ "### " +:+ default (GitHubContributor.login contrib)
                       (nonempty (GitHubContributor.name contrib));
    "- **GitHub**: [@" +:+ GitHubContributor.login contrib
      +:+ "](https://github.com/" +:+ GitHubContributor.login contrib +:+ ")" ]
  ++ field_line (GitHubContributor.pronouns contrib)
       (λ v, "- **Pronouns**: " +:+ v)
  ++ field_line (GitHubContributor.bio contrib) (λ v, "- **Bio**: " +:+ v)
  ++ field_line (GitHubContributor.company contrib)
       (λ v, "- **Company**: " +:+ v)
  ++ field_line (GitHubContributor.location contrib)
       (λ v, "- **Location**: " +:+ v)
  ++ field_line (GitHubContributor.website contrib)
       (λ v, "- **Website**: [" +:+ v +:+ "](" +:+ website_target v +:+ ")")
  ++ field_line (GitHubContributor.email contrib) (λ v, "- **Email**: " +:+ v)
  ++ field_line (GitHubContributor.twitter_username contrib)
       (λ v, "- **Twitter**: [@" +:+ v +:+ "](https://twitter.com/" +:+ v
             +:+ ")")
  ++ (if bool_decide (GitHubContributor.hireable contrib = Some true)
      then ["- **Available for hire**: Yes"] else [])
  ++ [""].

(** How many of the optional fields of a contributor are filled in. *)
Definition filled_fields (contrib : GitHubContributor.t) : nat :=
  length (filter (λ b, b = true)
    [truthy (GitHubContributor.pronouns contrib);
     truthy (GitHubContributor.bio contrib);
     truthy (GitHubContributor.company contrib);
     truthy (GitHubContributor.location contrib);
     truthy (GitHubContributor.website contrib);
     truthy (GitHubContributor.email contrib);
     truthy (GitHubContributor.twitter_username contrib);
     bool_decide (GitHubContributor.hireable contrib = Some true)]).

Definition people_title : string := "# People" +:+ LF +:+ LF.

Definition people_placeholders : string :=
  "## Team Roles" +:+ LF
  +:+ "_Define roles and responsibilities_" +:+ LF +:+ LF
  +:+ "## Contact Information" +:+ LF
  +:+ "_Add relevant contact information_" +:+ LF.

(** The subsections of the selected contributors, in the order of the
    collection. *)
Definition contributor_sections (contributors : list GitHubContributor.t)
    : string :=
  foldr (λ contrib rest,
           (if GitHubContributor.selected contrib
            then unlines (contributor_lines contrib) else "") +:+ rest)
        "" contributors.

(** Bob, selected. *)
Definition bob_selected : GitHubContributor.t :=
  GitHubContributor.set_selected true bob.

(** ** Further notions: the store and its directory *)

(** Alice creates a context, adds two files and removes the second. *)
Definition sample_ops : list Op :=
  [CreateContext 1 "alice" (CreateContextRequest.make "Foo" None None None);
   AddFile "ctx-0" (CreateContextFileRequest.mk "notes.md" CUSTOM "first");
   AddFile "ctx-0" (CreateContextFileRequest.mk "todo.md" CUSTOM "second");
   RemoveFile "ctx-0" "todo.md"].

(** The store holds each context under its own id, with files of plain
    names, and the directory of that id holds the context, written
    through. *)
Definition mirrored (w : World) : Prop :=
  ∀ k context, contexts w !! k = Some context →
    Context.id context = k ∧ plain_names context ∧
    ∃ dir, disk w !! k = Some dir ∧ written_through context dir.

(** The operations whose file names, where they bring one, are plain. *)
Definition plain_op (op : Op) : Prop :=
  match op with
  | AddFile _ request =>
      plain_name (CreateContextFileRequest.name request) = true
  | _ => True
  end.

(** ** services.py: the remaining lookups of ContextService *)

(** [get_contexts_for_repos]: the dictionary from repository URL to
    context id, built over the contexts in the order of the walk (a later
    context of the same URL replaces an earlier one). *)
Definition get_contexts_for_repos (user_id : Z) (repo_urls : list string)
    : M (gmap string string) :=
  let* cs := get_contexts in
  ret (foldl
         (λ (repo_contexts : gmap string string) context,
            match Context.github_repo context with
            | Some github_repo =>
                if decide (Context.owner_id context = user_id ∧
                           GitHubRepo.url github_repo ∈ repo_urls)
                then <[GitHubRepo.url github_repo := Context.id context]>
                       repo_contexts
                else repo_contexts
            | None => repo_contexts
            end)
         ∅ (snd <$> map_to_list cs)).

(** Bob (user 2) has a context of his own beside Alice's linked one. *)
Definition world_two_owners : World :=
  state_of (create_context sample_clock sample_uuid4 2 "bob"
              (CreateContextRequest.make "Bar" None None (Some false)))
           world_linked.

(** ** Further notions: the default documents *)

(** The names of the four documents [generate_default_files] writes. *)
Definition default_names : list string :=
  ["stack.md"; "business.md"; "people.md"; "guidelines.md"].

(** The four documents generated from [context], their timestamps read
    from the clock from its [t]-th reading on. *)
Definition default_files (clock : nat → Z) (t : nat) (context : Context.t)
    (github_service : option GitHubService.t) : list ContextFile.t :=
  [ ContextFile.mk "stack.md" STACK
      (_generate_stack_content context github_service)
      (clock t) (clock (1 + t)%nat);
    ContextFile.mk "business.md" BUSINESS (_generate_business_content context)
      (clock (3 + t)%nat) (clock (4 + t)%nat);
    ContextFile.mk "people.md" PEOPLE (_generate_people_content context)
      (clock (6 + t)%nat) (clock (7 + t)%nat);
    ContextFile.mk "guidelines.md" GUIDELINES
      (_generate_guidelines_content context github_service)
      (clock (9 + t)%nat) (clock (10 + t)%nat) ].

(** The parts of the business and of the guidelines documents. *)
Definition business_title : string := "# Business Logic" +:+ LF +:+ LF.

Definition business_description_section (description : string) : string :=
  "## Project Description" +:+ LF +:+ description +:+ LF +:+ LF.

Definition business_placeholders : string :=
  "## Core Features" +:+ LF
  +:+ "_List the main features and functionality_" +:+ LF +:+ LF
  +:+ "## Business Rules" +:+ LF
  +:+ "_Document important business rules and constraints_" +:+ LF +:+ LF
  +:+ "## User Stories" +:+ LF
  +:+ "_Add key user stories and use cases_" +:+ LF.

Definition guidelines_title : string :=
  "# Development Guidelines" +:+ LF +:+ LF.

Definition guidelines_pointer : string :=
  "## Contributing Guidelines" +:+ LF
  +:+ "# See CONTRIBUTING.md in the repository" +:+ LF +:+ LF.

Definition guidelines_placeholders : string :=
  "## Code Style" +:+ LF
  +:+ "_Define coding standards and style guidelines_" +:+ LF +:+ LF
  +:+ "## Development Workflow" +:+ LF
  +:+ "_Describe the development process and workflow_" +:+ LF +:+ LF
  +:+ "## Testing Guidelines" +:+ LF
  +:+ "_Document testing requirements and practices_" +:+ LF +:+ LF
  +:+ "## Review Process" +:+ LF
  +:+ "_Define the code review process_" +:+ LF.

(** The description of the linked repository, when there is a repository
    and its description is not empty. *)
Definition repo_description (context : Context.t) : option string :=
  Context.github_repo context ≫= λ github_repo,
    nonempty (GitHubRepo.description github_repo).

(** ** Further notions: the requests of a publication *)

(** The request that writes one file of the context on the branch. *)
Definition put_request (b64encode : string → string)
    (owner repo branch_name : string) (file : string * string) : HttpRequest :=
  PutContents owner repo (fst file)
    ("Add " +:+ fst file +:+ " from context marketplace")
    (b64encode (snd file)) branch_name.

(** The requests of a complete run of [create_context_pr], in order, given
    the default branch and the commit the API reports. *)
Definition publish_requests (lower b64encode : string → string)
    (strftime_now owner repo : string) (context : Context.t)
    (user_login default_branch sha : string) : list HttpRequest :=
  let branch_name :=
    "context-" +:+ replace_spaces (lower (Context.name context))
               +:+ "-" +:+ strftime_now in
  [GetRepo owner repo; GetRef owner repo default_branch;
   PostRef owner repo ("refs/heads/" +:+ branch_name) sha]
  ++ (put_request b64encode owner repo branch_name
        <$> ((λ file, (".context/" +:+ ContextFile.name file,
                       ContextFile.content file))
               <$> Context.files context))
  ++ [PostPull owner repo ("Add project context from " +:+ Context.name context)
        (pr_body context user_login) branch_name default_branch].

(** What the service reads in a body. *)
Definition default_branch_of (body : JsonBody) : option string :=
  match body with
  | RepoData _ _ _ _ _ _ default_branch _ => Some default_branch
  | _ => None
  end.

Definition sha_of (body : JsonBody) : option string :=
  match body with RefData sha => Some sha | _ => None end.

Definition html_url_of (body : JsonBody) : option string :=
  match body with
  | PullData html_url => Some html_url
  | RepoData _ _ _ _ html_url _ _ _ => Some html_url
  | _ => None
  end.

(** The default branch and the commit the API reports to a run of
    [create_context_pr] started at [log] (empty when it reports none). *)
Definition reported_branch
    (server : list Exchange → HttpRequest → string + HttpResponse)
    (owner repo : string) (log : list Exchange) : string :=
  match server log (GetRepo owner repo) with
  | inr resp => default "" (default_branch_of (json resp))
  | inl _ => ""
  end.

Definition reported_sha
    (server : list Exchange → HttpRequest → string + HttpResponse)
    (owner repo : string) (log : list Exchange) : string :=
  match server log (GetRepo owner repo) with
  | inr resp =>
      match server (log ++ [(GetRepo owner repo, inr resp)])
                   (GetRef owner repo (reported_branch server owner repo log))
      with
      | inr ref_resp => default "" (sha_of (json ref_resp))
      | inl _ => ""
      end
  | inl _ => ""
  end.

(** An API on which the publication of a context to [owner/repo] goes
    through: it serves the repository and the head of its default branch,
    accepts the branch and the pull request, and answers every write of a
    file with some response, whatever its status. *)
Definition serves_publication
    (server : list Exchange → HttpRequest → string + HttpResponse)
    (owner repo default_branch sha url : string) : Prop :=
  (∀ log, ∃ resp, server log (GetRepo owner repo) = inr resp ∧
                  status_code resp = 200 ∧
                  default_branch_of (json resp) = Some default_branch) ∧
  (∀ log, ∃ resp, server log (GetRef owner repo default_branch) = inr resp ∧
                  status_code resp = 200 ∧ sha_of (json resp) = Some sha) ∧
  (∀ log ref, ∃ resp, server log (PostRef owner repo ref sha) = inr resp ∧
                      status_code resp = 201) ∧
  (∀ log path message content branch,
     ∃ resp, server log (PutContents owner repo path message content branch)
             = inr resp) ∧
  (∀ log title body head,
     ∃ resp, server log (PostPull owner repo title body head default_branch)
             = inr resp ∧
             status_code resp = 201 ∧ html_url_of (json resp) = Some url).

(** An API that serves everything but refuses every write of a file. *)
Definition sample_server_refusing_files (log : list Exchange)
    (req : HttpRequest) : string + HttpResponse :=
  match req with
  | GetRepo owner repo =>
      inr (mkHttpResponse 200
             (RepoData owner repo (owner +:+ "/" +:+ repo) None
                ("https://github.com/" +:+ owner +:+ "/" +:+ repo)
                ("https://github.com/" +:+ owner +:+ "/" +:+ repo +:+ ".git")
                "main" None))
  | GetLanguages _ _ => inr (mkHttpResponse 200 (LanguagesData ∅))
  | GetRef _ _ _ => inr (mkHttpResponse 200 (RefData "0a1b2c"))
  | PostRef _ _ _ _ => inr (mkHttpResponse 201 (RefData "0a1b2c"))
  | PutContents _ _ _ _ _ _ =>
      inr (mkHttpResponse 500 (MessageData (Some "Server Error")))
  | PostPull _ _ _ _ _ _ =>
      inr (mkHttpResponse 201 (PullData "https://github.com/alice/foo/pull/1"))
  end.

(** An API that serves the reads but refuses the branch. *)
Definition sample_server_refusing_branch (log : list Exchange)
    (req : HttpRequest) : string + HttpResponse :=
  match req with
  | PostRef _ _ _ _ =>
      inr (mkHttpResponse 422 (MessageData (Some "Reference already exists")))
  | _ => sample_server_refusing_files log req
  end.

(** Alice's context with its two files, linked to her repository. *)
Definition context_two_files : Context.t :=
  Context.mk "ctx-0" "Foo Bar" None 1 "alice"
    (Some (sample_repo "https://github.com/alice/foo"))
    [ContextFile.mk "notes.md" CUSTOM "first" 2 3;
     ContextFile.mk "todo.md" CUSTOM "second" 5 6] [] true 0 7.

Definition sample_publication
    (server : list Exchange → HttpRequest → string + HttpResponse)
    : (Exc + string) * list Exchange :=
  create_context_pr server id id "20240101-000000"
    (λ e, HTTPException.detail e) "alice" "foo" context_two_files "alice" [].

(** ** main.py: the routes of the context API

    The user of a request is the id the session holds, [None] for an
    anonymous request. The routes that change a context are behind
    [require_auth]: they take the id of the authenticated user. *)

Definition not_found (detail : string) : HTTPException.t :=
  HTTPException.mk 404 detail.
Definition access_denied : HTTPException.t :=
  HTTPException.mk 403 "Access denied".



(** The guard the routes that change a context start with. *)
Definition owned_context (context_id : string) (user_id : Z)
    : M (HTTPException.t + Context.t) :=
  let* context := get_context context_id in
  match context with
  | None => ret (inl (not_found "Context not found"))
  | Some context =>
      if decide (user_id ≠ Context.owner_id context)
      then ret (inl access_denied)
      else ret (inr context)
  end.

Section Routes.
Variable clock : nat → Z.
Variable uuid4 : nat → string.

(** [PUT /api/contexts/{context_id}] *)
Definition update_context_route (context_id : string)
    (request : UpdateContextRequest.t) (user_id : Z)
    : M (HTTPException.t + option Context.t) :=
  let* guard := owned_context context_id user_id in
  match guard with
  | inl e => ret (inl e)
  | inr _ =>
      let* updated_context := update_context clock context_id request in
      ret (inr updated_context)
  end.

(** [DELETE /api/contexts/{context_id}] *)
Definition delete_context_route (context_id : string) (user_id : Z)
    : M (HTTPException.t + bool) :=
  let* guard := owned_context context_id user_id in
  match guard with
  | inl e => ret (inl e)
  | inr _ =>
      let* success := delete_context context_id in
      ret (inr success)
  end.

(** [POST /api/contexts/{context_id}/files] *)
Definition create_context_file_route (context_id : string)
    (request : CreateContextFileRequest.t) (user_id : Z)
    : M (HTTPException.t + option ContextFile.t) :=
  let* guard := owned_context context_id user_id in
  match guard with
  | inl e => ret (inl e)
  | inr _ =>
      let* file_obj := add_file_to_context clock context_id request in
      ret (inr file_obj)
  end.

(** [PUT /api/contexts/{context_id}/files/{file_name}] *)
Definition update_context_file_route (context_id file_name : string)
    (request : UpdateContextFileRequest.t) (user_id : Z)
    : M (HTTPException.t + ContextFile.t) :=
  let* guard := owned_context context_id user_id in
  match guard with
  | inl e => ret (inl e)
  | inr _ =>
      let* file_obj :=
        update_context_file clock context_id file_name request in
      match file_obj with
      | None => ret (inl (not_found "File not found"))
      | Some file_obj => ret (inr file_obj)
      end
  end.

(** [DELETE /api/contexts/{context_id}/files/{file_name}] *)
Definition delete_context_file_route (context_id file_name : string)
    (user_id : Z) : M (HTTPException.t + bool) :=
  let* guard := owned_context context_id user_id in
  match guard with
  | inl e => ret (inl e)
  | inr _ =>
      let* success :=
        remove_file_from_context clock context_id file_name in
      ret (inr success)
  end.

(** [POST /api/contexts]. The two awaited calls to GitHub never raise and
    do not touch the store; they are taken by their results: what
    [get_repo_info] returns for a URL, and what [get_contributors] returns
    for an owner and a name. *)
Variable fetched_repo : string → option GitHubRepo.t.
Variable fetched_contributors : string → string → list GitHubContributor.t.

Definition create_context_route (request : CreateContextRequest.t)
    (user_id : Z) (user_login : string) (github_service : GitHubService.t)
    : M (HTTPException.t + option Context.t) :=
  let* created :=
    create_context clock uuid4 user_id user_login request in
  match created with
  | inl (mkValueError msg) => ret (inl (HTTPException.mk 400 msg))
  | inr context =>
      (* If GitHub repo URL provided, fetch repo info *)
      match nonempty (CreateContextRequest.github_repo_url request) with
      | Some github_repo_url =>
          match fetched_repo github_repo_url with
          | Some repo_info =>
              set_context_repo clock (Context.id context) repo_info ;;
              (* Get contributors *)
              let contributors :=
                fetched_contributors (GitHubRepo.owner repo_info)
                                     (GitHubRepo.name repo_info) in
              set_context_contributors clock (Context.id context)
                                       contributors ;;
              ret tt
          | None => ret tt
          end
      | None => ret tt
      end ;;
      (* Generate default files *)
      generate_default_files clock (Context.id context)
                             (Some github_service) ;;
      let* result := get_context (Context.id context) in
      ret (inr result)
  end.
End Routes.



(** The repository a creation request gets linked to: the descriptor
    fetched for its URL, when it has one and the fetch succeeds. *)
Definition enrichment (fetched_repo : string → option GitHubRepo.t)
    (request : CreateContextRequest.t) : option GitHubRepo.t :=
  nonempty (CreateContextRequest.github_repo_url request) ≫= fetched_repo.

(** A fetch that answers with the canonical descriptor of Alice's
    repository, whatever spelling of its URL is asked for. *)
Definition sample_fetched_repo (repo_url : string) : option GitHubRepo.t :=
  if String.prefix "https://github.com/alice/foo" repo_url
  then Some (sample_repo "https://github.com/alice/foo") else None.

Definition sample_create_route (repo_url : string)
    : M (HTTPException.t + option Context.t) :=
  create_context_route sample_clock sample_uuid4 sample_fetched_repo
    (λ _ _, [bob])
    (CreateContextRequest.make "Foo" None (Some repo_url) None)
    1 "alice" (GitHubService.mk "token").

(** * Properties *)

(** ** Running a computation *)

Lemma bind_run {A B} (m : M A) (k : A → M B) (w w' : World) (a : A) :
  m w = (a, w') → bind m k w = k a w'.
Proof. unfold bind. by intros ->. Qed.

Lemma run_eta {A} (m : M A) (w : World) : m w = (value_of m w, state_of m w).
Proof. unfold value_of, state_of. by destruct (m w). Qed.

(** ** Lists of files *)

Lemma filter_other_names_id (n : string) (fs : list ContextFile.t) :
  (∀ f, f ∈ fs → ContextFile.name f ≠ n) →
  filter (λ f, ContextFile.name f ≠ n) fs = fs.
Proof.
  induction fs as [|f fs IH]; intros Hall; [done|].
  rewrite filter_cons_True; [|apply Hall; left].
  f_equal. apply IH. intros g Hg. apply Hall. by right.
Qed.

Lemma filter_other_names_shorter (n : string) (fs : list ContextFile.t) :
  (∃ f, f ∈ fs ∧ ContextFile.name f = n) →
  (length (filter (λ f, ContextFile.name f ≠ n) fs) < length fs)%nat.
Proof.
  intros (f & Hin & Hn).
  induction fs as [|g fs IH]; [by apply elem_of_nil in Hin|].
  destruct (decide (ContextFile.name g = n)) as [Hg|Hg].
  - rewrite filter_cons_False; [|by intros ?].
    pose proof (length_filter (λ f, ContextFile.name f ≠ n) fs). simpl. lia.
  - rewrite filter_cons_True; [|done]. simpl.
    apply elem_of_cons in Hin as [->|Hin]; [done|].
    specialize (IH Hin). lia.
Qed.

Lemma filter_other_names_spec (n : string) (fs : list ContextFile.t) f :
  f ∈ filter (λ f, ContextFile.name f ≠ n) fs ↔
  f ∈ fs ∧ ContextFile.name f ≠ n.
Proof. rewrite list_elem_of_filter. tauto. Qed.

Lemma file_names_filter_NoDup (n : string) (fs : list ContextFile.t) :
  NoDup (file_names fs) →
  NoDup (file_names (filter (λ f, ContextFile.name f ≠ n) fs)).
Proof.
  unfold file_names. induction fs as [|f fs IH]; [done|].
  rewrite fmap_cons, NoDup_cons. intros [Hnotin Hnd].
  destruct (decide (ContextFile.name f ≠ n)).
  - rewrite filter_cons_True by done. rewrite fmap_cons, NoDup_cons.
    split; [|by apply IH].
    intros (g & Hg & Hin)%list_elem_of_fmap.
    apply filter_other_names_spec in Hin as [Hin _].
    apply Hnotin, list_elem_of_fmap. eauto.
  - rewrite filter_cons_False by done. by apply IH.
Qed.

(** ** The directory of a context *)

Lemma prefix_cons_ne (c c' : ascii) (s s' : string) :
  Ascii.eqb c c' = false → String.prefix (String c s) (String c' s') = false.
Proof.
  intros Hne. simpl. destruct (ascii_dec c c') as [->|_]; [|done].
  by rewrite Ascii.eqb_refl in Hne.
Qed.

Lemma components_plain (name : string) :
  contains_char "/" name = false → components name = [name].
Proof.
  induction name as [|c name IH]; [done|].
  cbn [contains_char components]. intros [Hc Hname]%orb_false_elim.
  rewrite Ascii.eqb_sym, Hc. by rewrite (IH Hname).
Qed.

Lemma resolve_plain (name : string) :
  plain_name name = true → resolve name = Artifact name.
Proof.
  unfold plain_name. rewrite !andb_true_iff, !negb_true_iff.
  intros [[[[[Hne Hdot] Hdots] Hslash] Hnul] Hlen].
  unfold resolve, parts. rewrite Hnul.
  destruct name as [|c name]; [done|].
  cbn [contains_char] in Hslash. apply orb_false_elim in Hslash as [Hc Hname].
  rewrite (prefix_cons_ne "/" c "" name Hc).
  rewrite components_plain by (cbn [contains_char]; by rewrite Hc, Hname).
  apply String.eqb_neq in Hne, Hdot, Hdots.
  rewrite filter_cons_True by done. rewrite filter_nil.
  cbn [walk]. rewrite decide_False by done.
  apply Nat.leb_le in Hlen.
  by rewrite (proj2 (Nat.ltb_ge _ _) Hlen).
Qed.

Lemma write_files_plain (fs : list ContextFile.t) (dir : ContextDir) :
  Forall (λ name, plain_name name = true) (file_names fs) →
  write_files fs dir
  = mkContextDir (metadata_json dir)
      (foldl (λ d f, <[ContextFile.name f := ContextFile.content f]> d)
             (files_dir dir) fs).
Proof.
  revert dir. induction fs as [|f fs IH]; intros dir Hplain.
  - by destruct dir.
  - unfold file_names in Hplain. rewrite fmap_cons in Hplain.
    apply Forall_cons in Hplain as [Hf Hfs].
    cbn [write_files foldl]. rewrite (resolve_plain _ Hf).
    by rewrite (IH _ Hfs).
Qed.

Lemma insert_files_snoc (fs : list ContextFile.t) f (d : gmap string string) :
  foldl (λ d f, <[ContextFile.name f := ContextFile.content f]> d) d
        (fs ++ [f])
  = <[ContextFile.name f := ContextFile.content f]>
      (foldl (λ d f, <[ContextFile.name f := ContextFile.content f]> d) d fs).
Proof. by rewrite foldl_app. Qed.

Lemma insert_files_lookup_other (fs : list ContextFile.t)
    (d : gmap string string) n :
  n ∉ file_names fs →
  foldl (λ d f, <[ContextFile.name f := ContextFile.content f]> d) d fs !! n
  = d !! n.
Proof.
  induction fs as [|f fs IH] using rev_ind; [done|].
  unfold file_names. rewrite fmap_app, not_elem_of_app. simpl.
  intros [Hfs Hf]. rewrite insert_files_snoc.
  rewrite lookup_insert_ne; [by apply IH|].
  intros <-. apply Hf. left.
Qed.

Lemma insert_files_lookup (fs : list ContextFile.t) (d : gmap string string)
    f :
  NoDup (file_names fs) → f ∈ fs →
  foldl (λ d f, <[ContextFile.name f := ContextFile.content f]> d) d fs
    !! ContextFile.name f
  = Some (ContextFile.content f).
Proof.
  induction fs as [|g fs IH] using rev_ind; [by intros _ ?%elem_of_nil|].
  unfold file_names. rewrite fmap_app, NoDup_app. simpl.
  intros (Hnd & Hdisj & _) Hin. rewrite insert_files_snoc.
  apply elem_of_app in Hin as [Hin|Hin%list_elem_of_singleton].
  - rewrite lookup_insert_ne; [by apply IH|].
    intros Heq. apply (Hdisj (ContextFile.name f)).
    + apply list_elem_of_fmap. eauto.
    + rewrite Heq. left.
  - subst. apply lookup_insert_eq.
Qed.

Lemma save_to_disk_lookup_ne context dk k :
  k ≠ Context.id context → save_to_disk context dk !! k = dk !! k.
Proof. intros. unfold save_to_disk. by rewrite lookup_insert_ne. Qed.

(** With plain and pairwise distinct names the write-through is as the
    persistence policy has it. *)
Lemma save_to_disk_persisted context dk :
  plain_names context → NoDup (file_names (Context.files context)) →
  persisted context dk (save_to_disk context dk).
Proof.
  intros Hplain Hnodup. split; [|by intros; apply save_to_disk_lookup_ne].
  unfold save_to_disk. rewrite lookup_insert_eq.
  rewrite (write_files_plain _ _ Hplain). eexists. split; [done|].
  cbn [metadata_json files_dir]. split; [split; [done|]|].
  - intros f Hf. by apply insert_files_lookup.
  - intros n Hn. rewrite (insert_files_lookup_other _ _ _ Hn).
    by destruct (dk !! Context.id context).
Qed.

(** ** Removing a file *)

(** C9 as the specification states it. A removal does not always
    persist: [_save_context] opens [files_dir / name] for every remaining
    file, and a name such as [../metadata.json] leads to the metadata
    file, which then holds the content of that file in place of the
    context. *)
Lemma remove_file_from_context_not_persisted :
  ¬ (∀ (clock : nat → Z) (w : World) (context_id file_name : string)
       (context : Context.t),
       contexts w !! context_id = Some context →
       (∃ f, f ∈ Context.files context ∧ ContextFile.name f = file_name) →
       ∃ context' w',
         remove_file_from_context clock context_id file_name w = (true, w') ∧
         contexts w' !! context_id = Some context' ∧
         ∃ dir, disk w' !! context_id = Some dir ∧
                written_through context' dir).
Proof.
  intros Hpersists.
  destruct (Hpersists sample_clock world_traversal "ctx-0" "notes.md"
              context_traversal)
    as (context' & w' & Hrun & _ & dir & Hdir & Hmeta & _).
  - vm_compute. reflexivity.
  - eexists. split; [apply list_elem_of_here|reflexivity].
  - assert (w' = world_traversal_removed) as ->.
    { unfold world_traversal_removed, state_of. by rewrite Hrun. }
    assert (metadata_json <$> disk world_traversal_removed !! "ctx-0"
            = Some (raw "second")) as Hraw by (vm_compute; reflexivity).
    rewrite Hdir in Hraw. simpl in Hraw. rewrite Hmeta in Hraw.
    discriminate Hraw.
Qed.

(** C9. [remove_file_from_context] on an absent context, or on a name none
    of the context's files bears, returns [False] and changes nothing: the
    contexts (so every [updated_at]), the directories on disk and the
    clock are as before. On a name some file bears it drops the files of
    that name from the stored context and sets [updated_at] to a new
    reading of the clock; when the remaining files have plain and
    pairwise distinct names it returns [True] and the context is
    persisted: its directory holds the context and an artifact for each
    remaining file, the other artifacts and directories being as
    before. *)
Theorem remove_file_from_context_spec (clock : nat → Z) (w : World)
    (context_id file_name : string) :
  (contexts w !! context_id = None →
   remove_file_from_context clock context_id file_name w = (false, w)) ∧
  (∀ context,
     contexts w !! context_id = Some context →
     (∀ f, f ∈ Context.files context → ContextFile.name f ≠ file_name) →
     remove_file_from_context clock context_id file_name w = (false, w)) ∧
  (∀ context,
     contexts w !! context_id = Some context →
     (∃ f, f ∈ Context.files context ∧ ContextFile.name f = file_name) →
     let w' :=
       state_of (remove_file_from_context clock context_id file_name) w in
     ∃ context',
       contexts w' = <[context_id := context']> (contexts w) ∧
       (∀ f, f ∈ Context.files context' ↔
             f ∈ Context.files context ∧ ContextFile.name f ≠ file_name) ∧
       Context.updated_at context' = clock (ticks w) ∧
       ticks w' = S (ticks w) ∧
       Context.set_updated_at (Context.updated_at context)
         (Context.set_files (Context.files context) context')
       = context ∧
       (plain_names context' →
        NoDup (file_names (Context.files context')) →
        remove_file_from_context clock context_id file_name w = (true, w') ∧
        persisted context' (disk w) (disk w'))).
Proof.
  unfold state_of, remove_file_from_context, bind, ret, get_contexts,
    store_context, now, _save_context, modify_disk.
  split; [|split].
  - by intros ->.
  - intros context Hctx Hnone. rewrite Hctx. simpl.
    rewrite filter_other_names_id by done.
    rewrite decide_False by lia.
    destruct w as [cs dk t d], context; simpl in *. f_equal. f_equal.
    by apply insert_id.
  - intros context -> Hsome. simpl.
    rewrite decide_True by by apply filter_other_names_shorter.
    eexists. simpl.
    split; [by rewrite insert_insert_eq|].
    split; [intros f; apply filter_other_names_spec|].
    split; [done|]. split; [done|]. split; [by destruct context|].
    intros Hplain Hnodup. split; [done|].
    by apply save_to_disk_persisted.
Qed.

Lemma remove_file_from_context_example :
  (remove_file_from_context sample_clock "ctx-0" "notes.md" world_two_files
   = (true,
      state_of (remove_file_from_context sample_clock "ctx-0" "notes.md")
               world_two_files) ∧
   ∃ dir,
     disk (state_of (remove_file_from_context sample_clock "ctx-0" "notes.md")
                    world_two_files) !! "ctx-0" = Some dir ∧
     files_dir dir !! "todo.md" = Some "second") ∧
  value_of (remove_file_from_context sample_clock "ctx-0" "missing.md")
           world_two_files = false ∧
  value_of (remove_file_from_context sample_clock "ctx-9" "notes.md")
           world_two_files = false.
Proof.
  split; [|split].
  - destruct (remove_file_from_context_spec sample_clock world_two_files
                "ctx-0" "notes.md") as (_ & _ & Hpresent).
    destruct (Hpresent
      (Context.mk "ctx-0" "Foo" None 1 "alice" None
         [ContextFile.mk "notes.md" CUSTOM "first" 2 3;
          ContextFile.mk "todo.md" CUSTOM "second" 5 6] [] true 0 7))
      as (context' & Hcs & _ & _ & _ & _ & Hsaved).
    + vm_compute. reflexivity.
    + eexists. split; [apply list_elem_of_here|reflexivity].
    + assert (context'
              = Context.mk "ctx-0" "Foo" None 1 "alice" None
                  [ContextFile.mk "todo.md" CUSTOM "second" 5 6] [] true 0 8)
        as ->.
      { apply (f_equal (λ cs, cs !! "ctx-0")) in Hcs.
        rewrite lookup_insert_eq in Hcs. vm_compute in Hcs. congruence. }
      destruct Hsaved as [Hrun [(dir & Hdir & [_ Harts] & _) _]].
      * apply (bool_decide_unpack _). vm_compute. exact I.
      * apply (bool_decide_unpack _). vm_compute. exact I.
      * split; [exact Hrun|]. exists dir. split; [exact Hdir|].
        apply (Harts (ContextFile.mk "todo.md" CUSTOM "second" 5 6)).
        simpl. apply list_elem_of_here.
  - destruct (remove_file_from_context_spec sample_clock world_two_files
                "ctx-0" "missing.md") as (_ & Habsent & _).
    unfold value_of. erewrite Habsent; [reflexivity|vm_compute; reflexivity|].
    intros f Hf Hn. vm_compute in Hf.
    repeat (apply elem_of_cons in Hf as [->|Hf]; [discriminate Hn|]).
    by apply elem_of_nil in Hf.
  - destruct (remove_file_from_context_spec sample_clock world_two_files
                "ctx-9" "notes.md") as (Hnone & _ & _).
    unfold value_of. rewrite Hnone; [reflexivity|vm_compute; reflexivity].
Defined.

(** ** Updating a context *)

(** C10 as the specification states it. An update does not always leave
    the context in durable storage: with a file whose name leads to
    [metadata.json], the metadata file is rewritten with the context and
    then overwritten with the content of that file. *)
Lemma update_context_not_persisted :
  ¬ (∀ (clock : nat → Z) (w : World) (context_id : string)
       (request : UpdateContextRequest.t) (context : Context.t),
       contexts w !! context_id = Some context →
       ∃ context' w',
         update_context clock context_id request w = (Some context', w') ∧
         ∃ dir, disk w' !! context_id = Some dir ∧
                written_through context' dir).
Proof.
  intros Hpersists.
  destruct (Hpersists sample_clock world_traversal "ctx-0"
              (UpdateContextRequest.mk None None None) context_traversal)
    as (context' & w' & Hrun & dir & Hdir & Hmeta & _).
  - vm_compute. reflexivity.
  - assert (w' = world_traversal_updated) as ->.
    { unfold world_traversal_updated, state_of. by rewrite Hrun. }
    assert (metadata_json <$> disk world_traversal_updated !! "ctx-0"
            = Some (raw "second")) as Hraw by (vm_compute; reflexivity).
    rewrite Hdir in Hraw. simpl in Hraw. rewrite Hmeta in Hraw.
    discriminate Hraw.
Qed.

(** C10. On an existing context [update_context] replaces [name],
    [description] and [is_public] of the stored context where the request
    supplies them and keeps them where it does not; [id], [owner_id],
    [owner_login], [github_repo], [files], [contributors] and [created_at]
    are kept; [updated_at] is a new reading of the clock, whatever the
    request supplies: the empty request changes [updated_at] and nothing
    else. When the files of the context have plain and pairwise distinct
    names, the call returns the context and the context is persisted: its
    directory holds it and an artifact for each file, the other artifacts
    and directories being as before. *)
Theorem update_context_frame (clock : nat → Z) (w : World)
    (context_id : string) (request : UpdateContextRequest.t)
    (context : Context.t) :
  contexts w !! context_id = Some context →
  let context' := updated_with request (clock (ticks w)) context in
  let w' := state_of (update_context clock context_id request) w in
  contexts w' = <[context_id := context']> (contexts w) ∧
  ticks w' = S (ticks w) ∧
  draws w' = draws w ∧
  (request = UpdateContextRequest.mk None None None →
   context' = Context.set_updated_at (clock (ticks w)) context) ∧
  (plain_names context →
   NoDup (file_names (Context.files context)) →
   update_context clock context_id request w = (Some context', w') ∧
   persisted context' (disk w) (disk w')).
Proof.
  intros Hctx context' w'.
  assert (update_context clock context_id request w
          = (Some context',
             mkWorld (<[context_id := context']> (contexts w))
                     (save_to_disk context' (disk w)) (S (ticks w))
                     (draws w))) as Hrun.
  { unfold update_context, bind, ret, get_contexts, store_context, now,
      _save_context, modify_disk.
    rewrite Hctx. subst context'. unfold updated_with.
    destruct request as [[n|] [d|] [p|]]; reflexivity. }
  subst w'. unfold state_of. rewrite Hrun. cbn [snd contexts ticks draws disk].
  split; [done|]. split; [done|]. split; [done|].
  split; [by intros ->|].
  intros Hplain Hnodup. split; [done|].
  apply save_to_disk_persisted.
  - subst context'. unfold updated_with, plain_names.
    by destruct request as [[n|] [d|] [p|]].
  - subst context'. unfold updated_with.
    by destruct request as [[n|] [d|] [p|]].
Qed.

Lemma update_context_example :
  let w := state_of (update_context sample_clock "ctx-0"
                       (UpdateContextRequest.mk None None None))
                    world_two_files in
  (Context.updated_at <$> (contexts world_two_files !! "ctx-0") = Some 7 ∧
   Context.updated_at <$> (contexts w !! "ctx-0") = Some 8) ∧
  Context.files <$> (contexts w !! "ctx-0")
  = Context.files <$> (contexts world_two_files !! "ctx-0") ∧
  ∃ dir, disk w !! "ctx-0" = Some dir ∧
         files_dir dir !! "notes.md" = Some "first".
Proof.
  pose proof (update_context_frame sample_clock world_two_files "ctx-0"
    (UpdateContextRequest.mk None None None)
    (Context.mk "ctx-0" "Foo" None 1 "alice" None
       [ContextFile.mk "notes.md" CUSTOM "first" 2 3;
        ContextFile.mk "todo.md" CUSTOM "second" 5 6] [] true 0 7)
    ltac:(vm_compute; reflexivity)) as (Hcs & _ & _ & _ & Hsaved).
  destruct Hsaved as [_ [(dir & Hdir & [_ Harts] & _) _]].
  - apply (bool_decide_unpack _). vm_compute. exact I.
  - apply (bool_decide_unpack _). vm_compute. exact I.
  - cbv zeta. rewrite Hcs. split; [vm_compute; auto|].
    split; [vm_compute; reflexivity|].
    exists dir. split; [exact Hdir|].
    apply (Harts (ContextFile.mk "notes.md" CUSTOM "first" 2 3)).
    simpl. apply list_elem_of_here.
Defined.

(** ** Creating a context *)

Lemma truthy_Some (s : string) : truthy (Some s) = true ↔ s ≠ "".
Proof.
  simpl. destruct (String.eqb_spec s ""); simpl; split; congruence.
Qed.

Lemma get_context_by_repo_url_Some (w : World) user_id repo_url :
  is_Some (value_of (get_context_by_repo_url user_id repo_url) w) ↔
  ∃ context_id context,
    contexts w !! context_id = Some context ∧
    linked_to user_id repo_url context.
Proof.
  unfold value_of, get_context_by_repo_url, bind, ret, get_contexts. simpl.
  rewrite fmap_is_Some. split.
  - intros [[i c] (Hi & Hc & _)%list_find_Some].
    apply list_elem_of_lookup_2, list_elem_of_fmap in Hi as ([k c'] & -> & Hk).
    apply elem_of_map_to_list in Hk. eauto.
  - intros (k & c & Hk & Hc).
    apply (list_find_elem_of _ _ c); [|done].
    apply list_elem_of_fmap. exists (k, c). split; [done|].
    by apply elem_of_map_to_list.
Qed.

Lemma get_context_by_repo_url_state (w : World) user_id repo_url :
  state_of (get_context_by_repo_url user_id repo_url) w = w.
Proof. reflexivity. Qed.

(** The lookup that [create_context] starts with finds a context exactly
    when the request duplicates a link. *)
Lemma create_context_lookup (w : World) user_id request :
  let lookup :=
    match CreateContextRequest.github_repo_url request with
    | Some repo_url =>
        if truthy (Some repo_url)
        then get_context_by_repo_url user_id repo_url
        else ret None
    | None => ret None
    end in
  state_of lookup w = w ∧
  (is_Some (value_of lookup w) ↔ duplicate_link w user_id request).
Proof.
  unfold duplicate_link.
  destruct (CreateContextRequest.github_repo_url request) as [u|]; cbv zeta.
  - destruct (truthy (Some u)) eqn:Hu.
    + split; [done|]. rewrite get_context_by_repo_url_Some.
      apply truthy_Some in Hu. split.
      * intros (k & c & ? & ?). by exists u, k, c.
      * intros (u' & k & c & [= <-] & _ & ? & ?). eauto.
    + split; [done|]. split; [by intros [? [=]]|].
      intros (u' & k & c & [= <-] & Hne%truthy_Some & _). congruence.
  - split; [done|]. split; [by intros [? [=]]|].
    by intros (u' & k & c & [=] & _).
Qed.

Lemma create_context_cases clock uuid4 (w : World) user_id user_login request :
  (duplicate_link w user_id request ∧
   create_context clock uuid4 user_id user_login request w
   = (inl (mkValueError ("Context already exists for repository: "
                         +:+ CreateContextRequest.name request)), w)) ∨
  (¬ duplicate_link w user_id request ∧
   let context :=
     Context.mk (uuid4 (draws w)) (CreateContextRequest.name request)
       (CreateContextRequest.description request) user_id user_login None
       [] [] (CreateContextRequest.is_public request)
       (clock (ticks w)) (clock (S (ticks w))) in
   create_context clock uuid4 user_id user_login request w
   = (inr context,
      mkWorld (<[uuid4 (draws w) := context]> (contexts w))
              (save_to_disk context (disk w)) (S (S (ticks w)))
              (S (draws w)))).
Proof.
  pose proof (create_context_lookup w user_id request) as Hlookup.
  cbv zeta in Hlookup. unfold create_context.
  set (lookup := match CreateContextRequest.github_repo_url request with
                 | Some _ => _ | None => _ end) in *.
  destruct Hlookup as [Hstate Hdup].
  rewrite !(bind_run lookup _ w _ _ (run_eta lookup w)), Hstate.
  destruct (value_of lookup w) as [c|].
  - left. split; [apply Hdup; eauto|done].
  - right. split; [|reflexivity]. intros Hd. apply Hdup in Hd as [? [=]].
Qed.

(** C1 as the specification states it. The two timestamps of a new context
    are not always equal: they differ as soon as the clock advances
    between the two readings. *)
Lemma create_context_timestamps_differ :
  ¬ (∀ (clock : nat → Z) (uuid4 : nat → string) (w : World) (user_id : Z)
       (user_login : string) (request : CreateContextRequest.t)
       (context : Context.t) (w' : World),
       create_context clock uuid4 user_id user_login request w
       = (inr context, w') →
       Context.created_at context = Context.updated_at context).
Proof.
  intros Hequal.
  specialize (Hequal sample_clock sample_uuid4 init_world 1 "alice"
                (CreateContextRequest.make "Foo" None None None) _ _ eq_refl).
  vm_compute in Hequal. discriminate Hequal.
Qed.

(** C1, amended. A create request that duplicates no link returns a
    context whose id is the next identifier drawn from the generator,
    whose [created_at] and [updated_at] are the next two readings of the
    clock, in this order (hence equal only if the clock stands still in
    between, and ordered on a clock that does not go back), whose [files]
    and [contributors] are empty, whose [github_repo] is absent and whose
    [is_public] is the value supplied, [True] when none is. The context
    is stored under its id; when the identifier drawn is new to the store
    (and the stored contexts sit under their ids), no other stored context
    bears it. *)
Theorem create_context_fresh (clock : nat → Z) (uuid4 : nat → string)
    (w : World) (user_id : Z) (user_login name : string)
    (description github_repo_url : option string) (is_public : option bool) :
  let request :=
    CreateContextRequest.make name description github_repo_url is_public in
  ¬ duplicate_link w user_id request →
  ∃ context w',
    create_context clock uuid4 user_id user_login request w
    = (inr context, w') ∧
    Context.id context = uuid4 (draws w) ∧
    draws w' = S (draws w) ∧
    Context.created_at context = clock (ticks w) ∧
    Context.updated_at context = clock (S (ticks w)) ∧
    (clock (ticks w) ≤ clock (S (ticks w)) →
     Context.created_at context ≤ Context.updated_at context) ∧
    Context.files context = [] ∧
    Context.contributors context = [] ∧
    Context.github_repo context = None ∧
    Context.is_public context = default true is_public ∧
    contexts w' !! Context.id context = Some context ∧
    (contexts w !! uuid4 (draws w) = None →
     (∀ k c, contexts w !! k = Some c → Context.id c = k) →
     ∀ k c, contexts w' !! k = Some c →
            Context.id c = Context.id context → k = Context.id context ∧ c = context).
Proof.
  intros request Hnodup.
  destruct (create_context_cases clock uuid4 w user_id user_login request)
    as [[Hdup _]|[_ Hrun]]; [done|].
  cbv zeta in Hrun. eexists _, _. split; [exact Hrun|]. simpl.
  split_and!; try done.
  - apply lookup_insert_eq.
  - intros Hnew Hkeys k c Hk Hid.
    destruct (decide (k = uuid4 (draws w))) as [->|Hne].
    + rewrite lookup_insert_eq in Hk. by injection Hk as <-.
    + rewrite lookup_insert_ne in Hk by done.
      apply Hkeys in Hk. congruence.
Qed.

Lemma create_context_fresh_example :
  ∃ context w',
    create_context sample_clock sample_uuid4 2 "bob"
      (CreateContextRequest.make "Bar" None None None) world_two_files
    = (inr context, w') ∧
    Context.id context = "ctx-1" ∧
    Context.created_at context = 8 ∧ Context.updated_at context = 9 ∧
    Context.is_public context = true.
Proof.
  destruct (create_context_fresh sample_clock sample_uuid4 world_two_files 2
              "bob" "Bar" None None None)
    as (context & w' & Hrun & Hid & _ & Hc & Hu & _ & _ & _ & _ & Hp & _).
  - intros (u & _ & _ & Hu & _). discriminate Hu.
  - exists context, w'. split; [exact Hrun|].
    rewrite Hid, Hc, Hu, Hp. vm_compute. auto.
Defined.

(** C2 as the specification states it. A supplied URL that the owner has
    already linked does not always make the creation fail: the guard of
    [create_context] takes the empty URL for an absent one. *)
Lemma create_context_empty_url_not_refused :
  ¬ (∀ (clock : nat → Z) (uuid4 : nat → string) (w : World) (user_id : Z)
       (user_login : string) (request : CreateContextRequest.t),
       (∃ e w', create_context clock uuid4 user_id user_login request w
                = (inl e, w')) ↔
       (∃ repo_url context_id context,
          CreateContextRequest.github_repo_url request = Some repo_url ∧
          contexts w !! context_id = Some context ∧
          linked_to user_id repo_url context)).
Proof.
  intros Hequal.
  destruct (Hequal sample_clock sample_uuid4 world_linked_nowhere 1 "alice"
              (CreateContextRequest.make "Again" None (Some "") None))
    as [_ Hfail].
  destruct Hfail as (e & w' & Hrun).
  - exists "", "ctx-0". eexists. split; [reflexivity|].
    split; [vm_compute; reflexivity|].
    split; [reflexivity|]. eexists. split; reflexivity.
  - vm_compute in Hrun. discriminate Hrun.
Qed.

(** C2, amended. [create_context] raises its [ValueError] exactly when the
    request supplies a non-empty repository URL and the same owner already
    has a context whose repository descriptor carries that URL; the state
    is then left as it was. In every other case the creation succeeds,
    whatever contexts other owners have linked to the URL. *)
Theorem create_context_duplicate_link (clock : nat → Z) (uuid4 : nat → string)
    (w : World) (user_id : Z) (user_login : string)
    (request : CreateContextRequest.t) :
  ((∃ e w', create_context clock uuid4 user_id user_login request w
            = (inl e, w')) ↔
   duplicate_link w user_id request) ∧
  (duplicate_link w user_id request →
   ∃ e, create_context clock uuid4 user_id user_login request w = (inl e, w)) ∧
  (¬ duplicate_link w user_id request →
   ∃ context w', create_context clock uuid4 user_id user_login request w
                 = (inr context, w')).
Proof.
  destruct (create_context_cases clock uuid4 w user_id user_login request)
    as [[Hdup Hrun]|[Hnodup Hrun]]; cbv zeta in Hrun.
  - split_and!.
    + split; [done|]. intros _. eauto.
    + intros _. eauto.
    + done.
  - split_and!.
    + split; [|done]. intros (e & w' & He). congruence.
    + done.
    + intros _. eauto.
Qed.

Lemma create_context_duplicate_link_example :
  (∃ e, create_context sample_clock sample_uuid4 1 "alice"
          (CreateContextRequest.make "Again" None
             (Some "https://github.com/alice/foo") None) world_linked
        = (inl e, world_linked)) ∧
  (∃ context w',
     create_context sample_clock sample_uuid4 2 "bob"
       (CreateContextRequest.make "Mine" None
          (Some "https://github.com/alice/foo") None) world_linked
     = (inr context, w')).
Proof.
  split.
  - apply (create_context_duplicate_link sample_clock sample_uuid4
             world_linked 1 "alice").
    exists "https://github.com/alice/foo", "ctx-0". eexists.
    split; [reflexivity|]. split; [discriminate|].
    split; [vm_compute; reflexivity|].
    split; [reflexivity|]. eexists. split; reflexivity.
  - apply (create_context_duplicate_link sample_clock sample_uuid4
             world_linked 2 "bob").
    intros (u & k & c & _ & _ & Hk & Ho & _).
    refine (map_Forall_lookup_1 (λ _ c, Context.owner_id c ≠ 2) _ k c _ Hk Ho).
    apply (bool_decide_unpack _). vm_compute. exact I.
Defined.

(** ** No two files of a context share a name *)

Lemma state_of_bind {A B} (m : M A) (k : A → M B) (w : World) :
  state_of (bind m k) w = state_of (k (value_of m w)) (state_of m w).
Proof. unfold state_of, value_of, bind. by destruct (m w). Qed.

Lemma value_of_bind {A B} (m : M A) (k : A → M B) (w : World) :
  value_of (bind m k) w = value_of (k (value_of m w)) (state_of m w).
Proof. unfold state_of, value_of, bind. by destruct (m w). Qed.

Lemma files_unique_lookup (w : World) context_id context :
  files_unique w → contexts w !! context_id = Some context →
  NoDup (file_names (Context.files context)).
Proof. intros Hw Hc. exact (Hw _ _ Hc). Qed.

Lemma files_unique_store (w : World) context_id context dk t d :
  files_unique w → NoDup (file_names (Context.files context)) →
  files_unique (mkWorld (<[context_id := context]> (contexts w)) dk t d).
Proof. intros Hw Hc. by apply map_Forall_insert_2. Qed.

Lemma files_unique_contexts (w w' : World) :
  contexts w' = contexts w → files_unique w → files_unique w'.
Proof. unfold files_unique. by intros ->. Qed.

Lemma file_names_replaced (n : string) (fs : list ContextFile.t) f :
  ContextFile.name f = n → NoDup (file_names fs) →
  NoDup (file_names (filter (λ f, ContextFile.name f ≠ n) fs ++ [f])).
Proof.
  intros Hf Hnd. unfold file_names. rewrite fmap_app. apply NoDup_app.
  split; [by apply file_names_filter_NoDup|]. split.
  - intros x (g & -> & Hg)%list_elem_of_fmap Hx.
    apply filter_other_names_spec in Hg as [_ Hne].
    apply list_elem_of_singleton in Hx. congruence.
  - apply NoDup_singleton.
Qed.

Lemma file_names_updated (fs : list ContextFile.t) i f f' :
  fs !! i = Some f → ContextFile.name f' = ContextFile.name f →
  file_names (<[i := f']> fs) = file_names fs.
Proof.
  intros Hi Hn. unfold file_names. rewrite list_fmap_insert, Hn.
  apply list_insert_id. by rewrite list_lookup_fmap, Hi.
Qed.

Lemma state_of_current context_id context (w : World) :
  state_of (current context_id context) w = w.
Proof. reflexivity. Qed.

Lemma state_of_get_context context_id (w : World) :
  state_of (get_context context_id) w = w.
Proof. reflexivity. Qed.

Section FilesUnique.
Variable clock : nat → Z.
Variable uuid4 : nat → string.

Ltac run_service :=
  unfold state_of, bind, ret, get_contexts, get_context, store_context,
    remove_context, now, fresh_uuid, new_Context, new_ContextFile,
    _save_context, _delete_context_files, modify_disk; simpl.

Lemma create_context_files_unique w user_id user_login request :
  files_unique w →
  files_unique (state_of (create_context clock uuid4 user_id user_login
                            request) w).
Proof.
  intros Hw.
  destruct (create_context_cases clock uuid4 w user_id user_login request)
    as [[_ Hrun]|[_ Hrun]]; cbv zeta in Hrun; unfold state_of;
    rewrite Hrun; simpl; [done|].
  apply files_unique_store; [done|]. apply NoDup_nil_2.
Qed.

Lemma update_context_files_unique w context_id request :
  files_unique w →
  files_unique (state_of (update_context clock context_id request) w).
Proof.
  intros Hw. unfold update_context. run_service.
  destruct (contexts w !! context_id) as [c|] eqn:Hc; simpl; [|done].
  apply files_unique_store; [done|].
  destruct request as [[n|] [d|] [p|]]; simpl;
    exact (files_unique_lookup w _ _ Hw Hc).
Qed.

Lemma delete_context_files_unique w context_id :
  files_unique w → files_unique (state_of (delete_context context_id) w).
Proof.
  intros Hw. unfold delete_context. run_service.
  destruct (contexts w !! context_id) as [c|] eqn:Hc; simpl; [|done].
  by apply map_Forall_delete.
Qed.

Lemma add_file_to_context_files_unique w context_id request :
  files_unique w →
  files_unique (state_of (add_file_to_context clock context_id request) w).
Proof.
  intros Hw. unfold add_file_to_context. run_service.
  destruct (contexts w !! context_id) as [c|] eqn:Hc; simpl; [|done].
  apply files_unique_store; [done|]. simpl.
  apply file_names_replaced; [done|].
  exact (files_unique_lookup w _ _ Hw Hc).
Qed.

Lemma update_context_file_files_unique w context_id file_name request :
  files_unique w →
  files_unique (state_of (update_context_file clock context_id file_name
                            request) w).
Proof.
  intros Hw. unfold update_context_file. run_service.
  destruct (contexts w !! context_id) as [c|] eqn:Hc; simpl; [|done].
  destruct (list_find _ (Context.files c)) as [[i f]|] eqn:Hfind; simpl;
    [|done].
  apply list_find_Some in Hfind as (Hi & _ & _).
  apply files_unique_store; [done|]. simpl.
  rewrite (file_names_updated _ _ f) by done.
  exact (files_unique_lookup w _ _ Hw Hc).
Qed.

Lemma remove_file_from_context_files_unique w context_id file_name :
  files_unique w →
  files_unique (state_of (remove_file_from_context clock context_id
                            file_name) w).
Proof.
  intros Hw. unfold remove_file_from_context. run_service.
  destruct (contexts w !! context_id) as [c|] eqn:Hc; simpl; [|done].
  pose proof (file_names_filter_NoDup file_name _
                (files_unique_lookup w _ _ Hw Hc)) as Hnd.
  case_decide; simpl.
  - rewrite insert_insert_eq. by apply files_unique_store.
  - by apply files_unique_store.
Qed.

Lemma set_context_repo_files_unique w context_id github_repo :
  files_unique w →
  files_unique (state_of (set_context_repo clock context_id github_repo) w).
Proof.
  intros Hw. unfold set_context_repo. run_service.
  destruct (contexts w !! context_id) as [c|] eqn:Hc; simpl; [|done].
  apply files_unique_store; [done|].
  exact (files_unique_lookup w _ _ Hw Hc).
Qed.

Lemma set_context_contributors_files_unique w context_id contributors :
  files_unique w →
  files_unique (state_of (set_context_contributors clock context_id
                            contributors) w).
Proof.
  intros Hw. unfold set_context_contributors. run_service.
  destruct (contexts w !! context_id) as [c|] eqn:Hc; simpl; [|done].
  apply files_unique_store; [done|].
  exact (files_unique_lookup w _ _ Hw Hc).
Qed.

Lemma generate_default_files_files_unique w context_id github_service :
  files_unique w →
  files_unique (state_of (generate_default_files clock context_id
                            github_service) w).
Proof.
  intros Hw. unfold generate_default_files.
  rewrite state_of_bind.
  change (state_of get_contexts w) with w.
  change (value_of get_contexts w) with (contexts w).
  destruct (contexts w !! context_id) as [c|]; [|done].
  rewrite !state_of_bind, state_of_get_context, !state_of_current.
  by repeat apply add_file_to_context_files_unique.
Qed.

Lemma toggle_contributor_selection_files_unique w context_id login user_id :
  files_unique w →
  files_unique (state_of (toggle_contributor_selection clock context_id
                            login user_id) w).
Proof.
  intros Hw. unfold toggle_contributor_selection.
  rewrite state_of_bind.
  change (state_of (get_context context_id) w) with w.
  change (value_of (get_context context_id) w) with (contexts w !! context_id).
  destruct (contexts w !! context_id) as [c|] eqn:Hc; [|done].
  case_decide; [done|].
  destruct (toggle_first login (Context.contributors c)) as [cs|]; [|done].
  rewrite !state_of_bind.
  change (state_of (get_context context_id) ?w') with w'.
  apply update_context_file_files_unique.
  apply files_unique_store; [done|].
  exact (files_unique_lookup w _ _ Hw Hc).
Qed.

Lemma exec_files_unique op w :
  files_unique w → files_unique (state_of (exec clock uuid4 op) w).
Proof.
  intros Hw. destruct op; simpl; rewrite state_of_bind;
    change (state_of (ret tt) ?w') with w'.
  - by apply create_context_files_unique.
  - by apply update_context_files_unique.
  - by apply delete_context_files_unique.
  - by apply add_file_to_context_files_unique.
  - by apply update_context_file_files_unique.
  - by apply remove_file_from_context_files_unique.
  - by apply set_context_repo_files_unique.
  - by apply set_context_contributors_files_unique.
  - by apply generate_default_files_files_unique.
  - by apply toggle_contributor_selection_files_unique.
Qed.

Lemma run_files_unique ops w :
  files_unique w → files_unique (state_of (run clock uuid4 ops) w).
Proof.
  revert w. induction ops as [|op ops IH]; intros w Hw; [done|].
  simpl. rewrite state_of_bind. by apply IH, exec_files_unique.
Qed.
End FilesUnique.

(** C3. Whatever operations of the store are run, in whatever order,
    starting from the empty store, no stored context ever has two files of
    the same name. *)
Theorem files_never_share_a_name (clock : nat → Z) (uuid4 : nat → string)
    (ops : list Op) (context_id : string) (context : Context.t) :
  contexts (state_of (run clock uuid4 ops) init_world) !! context_id
  = Some context →
  NoDup (ContextFile.name <$> Context.files context).
Proof.
  apply (files_unique_lookup (state_of (run clock uuid4 ops) init_world)).
  apply run_files_unique. apply map_Forall_empty.
Qed.

Lemma files_never_share_a_name_example :
  NoDup ["todo.md"; "notes.md"].
Proof.
  apply (files_never_share_a_name sample_clock sample_uuid4
           [CreateContext 1 "alice"
              (CreateContextRequest.make "Foo" None None None);
            AddFile "ctx-0" (CreateContextFileRequest.mk "notes.md" CUSTOM "first");
            AddFile "ctx-0" (CreateContextFileRequest.mk "todo.md" CUSTOM "second");
            AddFile "ctx-0" (CreateContextFileRequest.mk "notes.md" CUSTOM "third")]
           "ctx-0"
           (Context.mk "ctx-0" "Foo" None 1 "alice" None
              [ContextFile.mk "todo.md" CUSTOM "second" 5 6;
               ContextFile.mk "notes.md" CUSTOM "third" 8 9] [] true 0 10)).
  vm_compute. reflexivity.
Defined.

(** ** Adding a file under a name already taken *)

Lemma filter_other_names_length (n : string) (fs : list ContextFile.t) :
  NoDup (file_names fs) → n ∈ file_names fs →
  S (length (filter (λ f, ContextFile.name f ≠ n) fs)) = length fs.
Proof.
  unfold file_names. induction fs as [|f fs IH]; [by intros _ ?%elem_of_nil|].
  rewrite fmap_cons, NoDup_cons. intros [Hnotin Hnd] Hin.
  destruct (decide (ContextFile.name f = n)) as [Hf|Hf].
  - rewrite filter_cons_False by (by intros ?). simpl. f_equal.
    rewrite filter_other_names_id; [done|].
    intros g Hg Hgn. apply Hnotin. rewrite Hf, <- Hgn.
    apply list_elem_of_fmap. eauto.
  - rewrite filter_cons_True by done. simpl. f_equal.
    apply elem_of_cons in Hin as [Hin|Hin]; [congruence|]. by apply IH.
Qed.

(** C4. When the context has a file of the name requested (and, as in
    every state the store reaches, no two files of one name),
    [add_file_to_context] replaces it in the stored context: the files
    become the files of other names, in their order, followed by the new
    file at the end; there are as many files as before; the new file
    carries the content requested and timestamps read from the clock
    during the call; the context's [updated_at] is a later reading of the
    clock. When the names of the files are then plain, the call returns
    the new file and the context is persisted. *)
Theorem add_file_to_context_replaces (clock : nat → Z) (w : World)
    (context_id : string) (request : CreateContextFileRequest.t)
    (context : Context.t) :
  contexts w !! context_id = Some context →
  NoDup (ContextFile.name <$> Context.files context) →
  (∃ old, old ∈ Context.files context ∧
          ContextFile.name old = CreateContextFileRequest.name request) →
  let w' := state_of (add_file_to_context clock context_id request) w in
  ∃ file_obj context',
    contexts w' !! context_id = Some context' ∧
    Context.files context'
    = filter (λ f, ContextFile.name f ≠ CreateContextFileRequest.name request)
             (Context.files context) ++ [file_obj] ∧
    last (Context.files context') = Some file_obj ∧
    length (Context.files context') = length (Context.files context) ∧
    NoDup (ContextFile.name <$> Context.files context') ∧
    ContextFile.name file_obj = CreateContextFileRequest.name request ∧
    ContextFile.file_type file_obj = CreateContextFileRequest.file_type request ∧
    ContextFile.content file_obj = CreateContextFileRequest.content request ∧
    ContextFile.created_at file_obj = clock (ticks w) ∧
    ContextFile.updated_at file_obj = clock (S (ticks w)) ∧
    Context.updated_at context' = clock (S (S (ticks w))) ∧
    ticks w' = S (S (S (ticks w))) ∧
    (plain_names context' →
     add_file_to_context clock context_id request w = (Some file_obj, w') ∧
     persisted context' (disk w) (disk w')).
Proof.
  intros Hctx Hnd (old & Hold & Hname).
  unfold state_of, add_file_to_context, bind, ret, get_contexts,
    store_context, now, new_ContextFile, _save_context, modify_disk.
  rewrite Hctx. simpl.
  eexists _, _. simpl.
  rewrite lookup_insert_eq. split; [reflexivity|]. simpl.
  assert (NoDup (file_names
    (filter (λ f, ContextFile.name f ≠ CreateContextFileRequest.name request)
       (Context.files context) ++
     [ContextFile.mk (CreateContextFileRequest.name request)
        (CreateContextFileRequest.file_type request)
        (CreateContextFileRequest.content request)
        (clock (ticks w)) (clock (S (ticks w)))]))) as Hnd'.
  { by apply file_names_replaced. }
  split_and!; try done.
  - apply last_snoc.
  - rewrite length_app. simpl. rewrite Nat.add_1_r.
    apply filter_other_names_length; [done|].
    rewrite <- Hname. apply list_elem_of_fmap. eauto.
  - intros Hplain. split; [done|]. by apply save_to_disk_persisted.
Qed.

Lemma add_file_to_context_replaces_example :
  let w := state_of (add_file_to_context sample_clock "ctx-0"
                       (CreateContextFileRequest.mk "notes.md" CUSTOM "third"))
                    world_two_files in
  (ContextFile.name <$> from_option Context.files []
                          (contexts world_two_files !! "ctx-0")
   = ["notes.md"; "todo.md"]) ∧
  (λ f, (ContextFile.name f, ContextFile.content f))
    <$> from_option Context.files [] (contexts w !! "ctx-0")
  = [("todo.md", "second"); ("notes.md", "third")] ∧
  ∃ dir, disk w !! "ctx-0" = Some dir ∧
         files_dir dir !! "notes.md" = Some "third".
Proof.
  destruct (add_file_to_context_replaces sample_clock world_two_files "ctx-0"
    (CreateContextFileRequest.mk "notes.md" CUSTOM "third")
    (Context.mk "ctx-0" "Foo" None 1 "alice" None
       [ContextFile.mk "notes.md" CUSTOM "first" 2 3;
        ContextFile.mk "todo.md" CUSTOM "second" 5 6] [] true 0 7))
    as (file_obj & context' & Hctx' & _ & Hlast & _ & _ & _ & _ & _ & _ & _
        & _ & _ & Hsaved).
  - vm_compute. reflexivity.
  - apply (bool_decide_unpack _). vm_compute. exact I.
  - eexists. split; [apply list_elem_of_here|reflexivity].
  - assert (context'
            = Context.mk "ctx-0" "Foo" None 1 "alice" None
                [ContextFile.mk "todo.md" CUSTOM "second" 5 6;
                 ContextFile.mk "notes.md" CUSTOM "third" 8 9] [] true 0 10)
      as ->.
    { vm_compute in Hctx'. congruence. }
    assert (file_obj = ContextFile.mk "notes.md" CUSTOM "third" 8 9) as ->.
    { simpl in Hlast. congruence. }
    destruct Hsaved as [_ [(dir & Hdir & [_ Harts] & _) _]].
    + apply (bool_decide_unpack _). vm_compute. exact I.
    + split; [vm_compute; reflexivity|]. split; [vm_compute; reflexivity|].
      exists dir. split; [exact Hdir|].
      apply (Harts (ContextFile.mk "notes.md" CUSTOM "third" 8 9)).
      simpl. apply list_elem_of_further, list_elem_of_here.
Defined.

(** ** Toggling a contributor *)










(** ** Publishing

    The exchanges of a run are appended to the log; the lemmas below say
    which requests each part of the workflow can send. *)

Section PublishLog.
Variable server : list Exchange → HttpRequest → string + HttpResponse.
Variable search_github_url : string → option (string * string).
Variable lower : string → string.
Variable b64encode : string → string.
Variable strftime_now : string.
Variable str_HTTPException : HTTPException.t → string.

(** The loop over the files only sends [PUT .../contents/...]. *)
Lemma put_files_log owner repo branch_name files_to_create log :
  ∃ ex, snd (put_files server b64encode owner repo branch_name files_to_create log)
        = log ++ ex ∧
        Forall (λ e, is_repo_read (fst e) = false ∧
                     is_branch_creation (fst e) = false) ex.
Proof.
  revert log. induction files_to_create as [|[path content] rest IH]; intros log.
  - exists []. by rewrite app_nil_r.
  - simpl. unfold and_then, send.
    destruct (server log _) as [text|resp] eqn:Hreply.
    + eexists [_]. split; [reflexivity|]. by repeat constructor.
    + destruct (IH (log ++ [(PutContents owner repo path
                               ("Add " +:+ path +:+ " from context marketplace")
                               (b64encode content) branch_name, inr resp)]))
        as (ex & Hex & Hall).
      eexists (_ :: ex). rewrite Hex, <- app_assoc. split; [reflexivity|].
      constructor; [done|exact Hall].
Qed.

(** [get_repo_info] never raises, creates no branch, and returns [None]
    when its read of the repository fails. *)
Lemma get_repo_info_log repo_url log :
  ∃ info ex,
    get_repo_info server search_github_url repo_url log = (inr info, log ++ ex) ∧
    Forall (λ e, is_branch_creation (fst e) = false) ex ∧
    (∀ req reply, (req, reply) ∈ ex → is_repo_read req = true →
                  repo_read_failed reply = true → info = None).
Proof.
  unfold get_repo_info, try_except, and_then, send, pure, raise.
  destruct (search_github_url repo_url) as [[owner repo]|].
  2:{ exists None, []. rewrite app_nil_r. split; [done|]. split; [done|].
      by intros ?? ?%elem_of_nil. }
  destruct (server log (GetRepo owner repo)) as [text|resp] eqn:Hrepo.
  { exists None. eexists [_]. split; [reflexivity|]. split; [by repeat constructor|].
    done. }
  case_decide as Hstatus.
  { exists None. eexists [_]. split; [reflexivity|]. split; [by repeat constructor|].
    done. }
  assert (∀ req reply lang_reply,
            (req, reply) ∈ [(GetRepo owner repo, inr resp : string + HttpResponse);
                            (GetLanguages owner repo, lang_reply)] →
            is_repo_read req = true → repo_read_failed reply = true →
            is_RepoData (json resp) = false) as Hfailed.
  { intros req reply lang_reply Hin Hread Hfail.
    apply elem_of_cons in Hin as [[= -> ->]|Hin].
    - unfold repo_read_failed in Hfail. case_bool_decide; [done|].
      by apply negb_true_iff in Hfail.
    - apply list_elem_of_singleton in Hin as [= -> ->]. discriminate Hread. }
  destruct (json resp) eqn:Hbody; simpl;
    try (exists None; eexists [_]; split; [reflexivity|];
         split; [by repeat constructor|]; done);
    (destruct (server (log ++ [(GetRepo owner repo, inr resp)])
                      (GetLanguages owner repo)) as [text|lang_resp] eqn:Hlang;
     [exists None; eexists [_; _]; rewrite <- app_assoc;
      split; [reflexivity|]; split; [by repeat constructor|];
      intros req reply Hin Hread Hfail;
      try done; by specialize (Hfailed req reply _ Hin Hread Hfail)|]);
    rewrite <- !app_assoc; simpl;
    (destruct (decide (status_code lang_resp = 200)) as [Hl|Hl];
     [destruct (json lang_resp) eqn:Hlbody|]); simpl;
    eexists _, [_; _]; (split; [reflexivity|]);
    (split; [by repeat constructor|]);
    intros req reply Hin Hread Hfail;
    try done; by specialize (Hfailed req reply _ Hin Hread Hfail).
Qed.

(** [create_context_pr] starts with its read of the repository, the only
    one it does, and when that read fails it stops there with an
    exception. *)
Lemma create_context_pr_log owner repo context user_login log :
  ∃ result rest,
    create_context_pr server lower b64encode strftime_now str_HTTPException
      owner repo context user_login log
    = (result,
       log ++ (GetRepo owner repo, server log (GetRepo owner repo)) :: rest) ∧
    Forall (λ e, is_repo_read (fst e) = false) rest ∧
    (repo_read_failed (server log (GetRepo owner repo)) = true →
     rest = [] ∧ ∃ e, result = inl e).
Proof.
  unfold create_context_pr, try_except, and_then, send, pure, raise.
  destruct (server log (GetRepo owner repo)) as [text|resp] eqn:Hrepo.
  { eexists _, []. split; [reflexivity|]. split; [done|]. eauto. }
  case_decide as Hstatus.
  { eexists _, []. split; [reflexivity|]. split; [done|]. eauto. }
  destruct (json resp) as [? ? ? ? ? ? default_branch ?| | | | |] eqn:Hbody;
    try (eexists _, []; split; [reflexivity|]; split; [done|]; by eauto).
  assert (repo_read_failed (inr resp) = false) as Hok.
  { unfold repo_read_failed. rewrite Hbody. by case_bool_decide. }
  repeat match goal with
         | |- context [server ?l ?r] =>
             let H := fresh "Hreply" in
             destruct (server l r) as [?|?] eqn:H; simpl
         | |- context [decide ?P] => destruct (decide P); simpl
         | |- context [match json ?r with _ => _ end] =>
             destruct (json r); simpl
         | |- context [put_files ?a ?b ?c ?d ?e ?f ?l] =>
             let Hput := fresh "Hput" in
             let ex := fresh "ex" in
             destruct (put_files_log c d e f l) as (ex & Hput & ?);
             destruct (put_files a b c d e f l) as [[?|[]] ?];
             simpl in Hput; subst; simpl
         | |- context [(?l ++ ?a) ++ ?b] => rewrite <- (app_assoc l a b); simpl
         end.
  all: eexists _, _; (split; [reflexivity|]);
    (split; [|intros Hf; exfalso; revert Hf;
              change (repo_read_failed (inr resp) = true → False);
              by rewrite Hok]).
  all: repeat first [ apply Forall_nil_2
                    | apply Forall_cons_2; [reflexivity|]
                    | apply Forall_app_2 ].
  all: eapply Forall_impl; [eassumption|]; by intros ? [? _].
Qed.
End PublishLog.

(** C6. In a run of the publish route, if a read of the linked
    repository's metadata fails (the transport raises, the status is not
    200 as with a 404, or the body is not a repository's), the route ends
    in an exception and no request of the run creates a branch. Likewise
    [create_context_pr] on its own: when its read of the repository fails
    it raises, having sent nothing but that read. *)
Theorem publish_stops_before_branch_creation
    (server : list Exchange → HttpRequest → string + HttpResponse)
    (search_github_url : string → option (string * string))
    (lower b64encode : string → string) (strftime_now : string)
    (str_HTTPException : HTTPException.t → string)
    (contexts : gmap string Context.t) (context_id user_login : string)
    (owner repo : string) (context : Context.t) (log : list Exchange) :
  let route :=
    create_pull_request server search_github_url lower b64encode strftime_now
      str_HTTPException contexts context_id user_login [] in
  let service :=
    create_context_pr server lower b64encode strftime_now str_HTTPException
      owner repo context user_login log in
  ((∃ req reply, (req, reply) ∈ snd route ∧ is_repo_read req = true ∧
                 repo_read_failed reply = true) →
   (∃ e, fst route = inl e) ∧
   Forall (λ e, is_branch_creation (fst e) = false) (snd route)) ∧
  (repo_read_failed (server log (GetRepo owner repo)) = true →
   (∃ e, fst service = inl e) ∧
   snd service = log ++ [(GetRepo owner repo, server log (GetRepo owner repo))]).
Proof.
  intros route service. split.
  - subst route service. unfold create_pull_request.
    destruct (contexts !! context_id) as [c|];
      [|intros _; split; [by eexists|done]].
    destruct (Context.github_repo c) as [github_repo|];
      [|intros _; split; [by eexists|done]].
    unfold try_except, and_then.
    destruct (get_repo_info_log server search_github_url
                (GitHubRepo.url github_repo) [])
      as (info & ex & -> & Hex & Hnone).
    simpl. destruct info as [repo_info|].
    + destruct (create_context_pr_log server lower b64encode strftime_now
                  str_HTTPException (GitHubRepo.owner repo_info)
                  (GitHubRepo.name repo_info) c user_login ex)
        as (result & rest & -> & Hrest & Hfailed).
      set (reply := server ex (GetRepo (GitHubRepo.owner repo_info)
                                 (GitHubRepo.name repo_info))) in *.
      intros (req & reply' & Hin & Hread & Hfail).
      assert (snd (match result with
                   | inl e => raise (HTTPError (HTTPException.mk 500
                       ("Error creating pull request: "
                        +:+ str str_HTTPException e)))
                         (ex ++ (GetRepo (GitHubRepo.owner repo_info)
                                   (GitHubRepo.name repo_info), reply) :: rest)
                   | inr a => (inr a, ex ++ (GetRepo (GitHubRepo.owner repo_info)
                                   (GitHubRepo.name repo_info), reply) :: rest)
                   end : (Exc + string) * list Exchange)
              = ex ++ (GetRepo (GitHubRepo.owner repo_info)
                         (GitHubRepo.name repo_info), reply) :: rest) as Hlog.
      { by destruct result. }
      rewrite Hlog in Hin |- *.
      apply elem_of_app in Hin as [Hin|Hin].
      { by specialize (Hnone req reply' Hin Hread Hfail). }
      apply elem_of_cons in Hin as [[= -> ->]|Hin].
      * destruct (Hfailed Hfail) as (-> & e & ->). split; [by eexists|].
        apply Forall_app_2; [done|]. by repeat constructor.
      * rewrite Forall_forall in Hrest. specialize (Hrest _ Hin).
        simpl in Hrest. congruence.
    + intros _. split; [by eexists|done].
  - subst route service. intros Hfail.
    destruct (create_context_pr_log server lower b64encode strftime_now
                str_HTTPException owner repo context user_login log)
      as (result & rest & -> & _ & Hfailed).
    simpl. destruct (Hfailed Hfail) as (-> & e & ->). split; [by eexists|done].
Qed.

Lemma publish_stops_before_branch_creation_example :
  (∃ e, fst sample_publish = inl e) ∧
  fst <$> snd sample_publish
  = [GetRepo "alice" "foo"; GetLanguages "alice" "foo"; GetRepo "alice" "foo"].
Proof.
  assert (fst <$> snd sample_publish
          = [GetRepo "alice" "foo"; GetLanguages "alice" "foo";
             GetRepo "alice" "foo"]) as Hlog by (vm_compute; reflexivity).
  split; [|exact Hlog].
  apply (publish_stops_before_branch_creation sample_server sample_search id
           id "20240101-000000" (λ e, HTTPException.detail e)
           (contexts world_linked) "ctx-0" "alice" "alice" "foo"
           (Context.mk "" "" None 0 "" None [] [] true 0 0) []).
  exists (GetRepo "alice" "foo"),
         (inr (mkHttpResponse 404 (MessageData (Some "Not Found")))).
  split; [|split; reflexivity].
  vm_compute. apply list_elem_of_further, list_elem_of_further, list_elem_of_here.
Defined.

(** ** Strings *)

Lemma string_app_cons (c : ascii) (s1 s2 : string) :
  String c s1 +:+ s2 = String c (s1 +:+ s2).
Proof. reflexivity. Qed.

Lemma string_app_assoc (s1 s2 s3 : string) :
  (s1 +:+ s2) +:+ s3 = s1 +:+ (s2 +:+ s3).
Proof.
  induction s1 as [|c s1 IH]; [done|]. by rewrite !string_app_cons, IH.
Qed.

Lemma string_app_nil_r (s : string) : s +:+ "" = s.
Proof.
  induction s as [|c s IH]; [done|]. by rewrite string_app_cons, IH.
Qed.

(** ** The stack document *)

Lemma stack_bullets_foldl (content : string) (langs : list string) :
  foldl (λ content lang, content +:+ "- **" +:+ lang +:+ "**" +:+ LF)
        content langs
  = content +:+ foldr (λ lang rest, stack_bullet lang +:+ rest) "" langs.
Proof.
  revert content. induction langs as [|lang langs IH]; intros content; simpl.
  - by rewrite string_app_nil_r.
  - rewrite IH. unfold stack_bullet. by rewrite string_app_assoc.
Qed.

Lemma sorted_keys_spec (d : gmap string Z) :
  StronglySorted String.le (sorted_keys d) ∧
  NoDup (sorted_keys d) ∧
  ∀ k, k ∈ sorted_keys d ↔ is_Some (d !! k).
Proof.
  unfold sorted_keys. split; [|split].
  - apply StronglySorted_merge_sort; apply _.
  - rewrite merge_sort_Permutation. apply NoDup_fst_map_to_list.
  - intros k. rewrite merge_sort_Permutation, list_elem_of_fmap. split.
    + intros ([k' v] & -> & Hin). apply elem_of_map_to_list in Hin. eauto.
    + intros [v Hv]. exists (k, v). split; [done|].
      by apply elem_of_map_to_list.
Qed.

(** C7 as the specification states it. The languages are not always in
    alphabetical order: [sorted] compares code points, and puts [Shell]
    before [awk]. *)
Lemma _generate_stack_content_not_alphabetical :
  ¬ (∀ (context : Context.t) (github_service : option GitHubService.t),
       language_map context ≠ ∅ →
       ∃ langs,
         alphabetical langs ∧
         NoDup langs ∧
         (∀ lang, lang ∈ langs ↔ is_Some (language_map context !! lang)) ∧
         _generate_stack_content context github_service
         = stack_title +:+ stack_language_section langs
           +:+ stack_placeholders).
Proof.
  intros Halpha.
  destruct (Halpha context_scripts None)
    as (langs & Hsorted & Hnodup & Hkeys & Hdoc).
  { apply (bool_decide_unpack _). vm_compute. exact I. }
  assert (∀ lang, lang ∈ langs → lang = "Shell" ∨ lang = "awk") as Hin.
  { intros lang [v Hv]%Hkeys.
    change (language_map context_scripts)
      with (<["Shell" := 100]> ({["awk" := 50]} : gmap string Z)) in Hv.
    apply lookup_insert_Some in Hv as [[<- _]|[_ Hv]]; [by left|].
    apply lookup_singleton_Some in Hv as [<- _]. by right. }
  assert ("Shell" ∈ langs) as Hshell.
  { apply Hkeys. exists 100. vm_compute. reflexivity. }
  assert ("awk" ∈ langs) as Hawk.
  { apply Hkeys. exists 50. vm_compute. reflexivity. }
  assert (langs = ["awk"; "Shell"]) as ->.
  { clear Hdoc. destruct langs as [|a [|b [|c langs]]].
    - destruct (proj1 (elem_of_nil _) Hshell).
    - apply list_elem_of_singleton in Hshell, Hawk. congruence.
    - apply StronglySorted_inv in Hsorted as [_ Hle].
      apply Forall_cons in Hle as [Hle _].
      destruct (Hin a) as [->| ->]; [left|..];
        (destruct (Hin b) as [->| ->]; [right; left|..]).
      + apply NoDup_cons in Hnodup as [Hab _].
        destruct Hab. left.
      + exfalso. revert Hle. apply (bool_decide_unpack _).
        vm_compute. exact I.
      + reflexivity.
      + apply NoDup_cons in Hnodup as [Hab _].
        destruct Hab. left.
    - apply NoDup_cons in Hnodup as [Hab Hnodup].
      apply NoDup_cons in Hnodup as [Hbc _].
      assert (a ≠ b) as Hab' by (intros ->; apply Hab; left).
      assert (a ≠ c) as Hac by (intros ->; apply Hab; right; left).
      assert (b ≠ c) as Hbc' by (intros ->; apply Hbc; left).
      clear Hab Hbc Hkeys Hshell Hawk Hsorted.
      destruct (Hin a) as [->| ->]; [left|..];
        (destruct (Hin b) as [->| ->]; [right; left|..]);
        (destruct (Hin c) as [->| ->]; [right; right; left|..]);
        congruence. }
  vm_compute in Hdoc. discriminate Hdoc.
Qed.

(** C7. The stack document is its title, then, when the linked
    repository has a non-empty language map, a language section with one
    bullet per key of the map, every key once, in the order of [sorted]
    (alphabetical in the sense of Python's order on strings, by code
    point), then the placeholder sections for frameworks and libraries,
    tools and services, and architecture. Without a repository, without a
    map or with an empty map there is no language section and the
    placeholder sections follow the title. *)
Theorem _generate_stack_content_spec (context : Context.t)
    (github_service : option GitHubService.t) :
  (language_map context = ∅ →
   _generate_stack_content context github_service
   = stack_title +:+ stack_placeholders) ∧
  (language_map context ≠ ∅ →
   ∃ langs,
     StronglySorted String.le langs ∧
     NoDup langs ∧
     (∀ lang, lang ∈ langs ↔ is_Some (language_map context !! lang)) ∧
     _generate_stack_content context github_service
     = stack_title +:+ stack_language_section langs +:+ stack_placeholders).
Proof.
  unfold _generate_stack_content, language_map.
  destruct (Context.github_repo context) as [github_repo|];
    [destruct (GitHubRepo.languages github_repo) as [languages|]|]; simpl.
  - case_decide as Hempty; (split; [intros He|intros Hne]); try done.
    destruct (sorted_keys_spec languages) as (Hsorted & Hnodup & Hkeys).
    exists (sorted_keys languages).
    split; [done|]. split; [done|]. split; [done|].
    rewrite stack_bullets_foldl.
    unfold stack_title, stack_language_section, stack_placeholders.
    by rewrite !string_app_assoc.
  - split; [reflexivity|done].
  - split; [reflexivity|done].
Qed.

Lemma _generate_stack_content_example :
  ∃ langs,
    _generate_stack_content context_linked None
    = stack_title +:+ stack_language_section langs +:+ stack_placeholders ∧
    StronglySorted String.le langs ∧
    sorted_keys (language_map context_linked) = ["Go"; "Python"].
Proof.
  destruct (_generate_stack_content_spec context_linked None) as [_ Hsome].
  destruct Hsome as (langs & Hsorted & _ & _ & Hcontent).
  - apply (bool_decide_unpack _). vm_compute. exact I.
  - exists langs. split; [exact Hcontent|]. split; [exact Hsorted|].
    vm_compute. reflexivity.
Defined.

(** ** The people document *)

Lemma string_app_nil_l (s : string) : "" +:+ s = s.
Proof. reflexivity. Qed.

Lemma nonempty_truthy (o : option string) :
  nonempty o = if truthy o then o else None.
Proof. destruct o as [s|]; [|done]. unfold nonempty. by destruct (truthy _). Qed.

Lemma website_target_has_scheme (website : string) :
  has_scheme (website_target website) = true.
Proof.
  unfold website_target. destruct (has_scheme website) eqn:Hs; [done|].
  by destruct website.
Qed.

Lemma unlines_app (l1 l2 : list string) :
  unlines (l1 ++ l2) = unlines l1 +:+ unlines l2.
Proof.
  induction l1 as [|l l1 IH]; [done|].
  cbn [app unlines foldr]. fold (unlines (l1 ++ l2)) (unlines l1).
  by rewrite IH, !string_app_assoc.
Qed.

(** One conditional step of the loop body appends the line of the field,
    if it has one. *)
Lemma field_step (field : option string) (render line : string → string)
    (content : string) :
  (∀ v, line v = render v +:+ LF) →
  match nonempty field with
  | Some v => content +:+ line v
  | None => content
  end = content +:+ unlines (field_line field render).
Proof.
  intros Hline. unfold field_line. destruct (nonempty field) as [v|].
  - by rewrite Hline.
  - by rewrite string_app_nil_r.
Qed.

Lemma people_loop_body_selected (content : string)
    (contrib : GitHubContributor.t) :
  GitHubContributor.selected contrib = true →
  people_loop_body content contrib
  = content +:+ unlines (contributor_lines contrib).
Proof.
  intros Hsel. unfold people_loop_body, contributor_lines.
  rewrite Hsel. rewrite !unlines_app.
  rewrite (field_step (GitHubContributor.pronouns contrib)
             (λ v, "- **Pronouns**: " +:+ v)
             (λ v, "- **Pronouns**: " +:+ v +:+ LF))
    by (intros v; by rewrite string_app_assoc).
  rewrite (field_step (GitHubContributor.bio contrib)
             (λ v, "- **Bio**: " +:+ v) (λ v, "- **Bio**: " +:+ v +:+ LF))
    by (intros v; by rewrite string_app_assoc).
  rewrite (field_step (GitHubContributor.company contrib)
             (λ v, "- **Company**: " +:+ v)
             (λ v, "- **Company**: " +:+ v +:+ LF))
    by (intros v; by rewrite string_app_assoc).
  rewrite (field_step (GitHubContributor.location contrib)
             (λ v, "- **Location**: " +:+ v)
             (λ v, "- **Location**: " +:+ v +:+ LF))
    by (intros v; by rewrite string_app_assoc).
  rewrite (field_step (GitHubContributor.website contrib)
             (λ v, "- **Website**: [" +:+ v +:+ "](" +:+ website_target v +:+ ")")
             (λ v, "- **Website**: [" +:+ v +:+ "]("
                   +:+ (if negb (String.prefix "http://" v
                                 || String.prefix "https://" v)
                        then "https://" +:+ v else v) +:+ ")" +:+ LF)).
  2:{ intros v. unfold website_target, has_scheme.
      destruct (_ || _); cbn [negb]; by rewrite !string_app_assoc. }
  rewrite (field_step (GitHubContributor.email contrib)
             (λ v, "- **Email**: " +:+ v) (λ v, "- **Email**: " +:+ v +:+ LF))
    by (intros v; by rewrite string_app_assoc).
  rewrite (field_step (GitHubContributor.twitter_username contrib)
             (λ v, "- **Twitter**: [@" +:+ v +:+ "](https://twitter.com/" +:+ v
                   +:+ ")")
             (λ v, "- **Twitter**: [@" +:+ v +:+ "](https://twitter.com/" +:+ v
                   +:+ ")" +:+ LF))
    by (intros v; by rewrite !string_app_assoc).
  destruct (GitHubContributor.hireable contrib) as [[|]|];
    cbn [bool_decide decide_rel unlines foldr];
    rewrite ?string_app_assoc, ?string_app_nil_l, ?string_app_nil_r;
    reflexivity.
Qed.

Lemma people_loop_body_foldl (content : string)
    (contributors : list GitHubContributor.t) :
  foldl people_loop_body content contributors
  = content +:+ contributor_sections contributors.
Proof.
  revert content.
  induction contributors as [|contrib contributors IH]; intros content.
  - by rewrite string_app_nil_r.
  - cbn [foldl contributor_sections foldr].
    fold (contributor_sections contributors). rewrite IH.
    destruct (GitHubContributor.selected contrib) eqn:Hsel.
    + by rewrite people_loop_body_selected, string_app_assoc.
    + unfold people_loop_body. by rewrite Hsel.
Qed.

Lemma field_line_length (field : option string) (render : string → string) :
  length (field_line field render) = if truthy field then 1%nat else 0%nat.
Proof.
  unfold field_line. rewrite nonempty_truthy.
  destruct (truthy field) eqn:Ht; [|done].
  destruct field; [done|discriminate Ht].
Qed.

Lemma field_line_filled (value : string) (render : string → string) :
  value ≠ "" → field_line (Some value) render = [render value].
Proof.
  intros Hne. unfold field_line. rewrite nonempty_truthy.
  by apply truthy_Some in Hne as ->.
Qed.

(** C8. The people document is its title, the subsections of the selected
    contributors under the contributors heading, and the placeholder
    sections. The subsection of a contributor is its heading, the profile
    link, one line for each of pronouns, bio, company, location, website,
    email, social handle and hireable flag that is filled in, and a blank
    line: a field that is absent or empty (a flag that is absent or false)
    contributes no line at all. The website line shows the raw value and
    links to it if it starts with [http://] or [https://], to the value
    prefixed with [https://] otherwise. *)
Theorem people_document_lines (context : Context.t)
    (contrib : GitHubContributor.t) :
  _generate_people_content context
  = people_title
    +:+ match Context.contributors context with
        | [] => ""
        | contributors =>
            "## Contributors" +:+ LF +:+ contributor_sections contributors
        end
    +:+ people_placeholders ∧
  length (contributor_lines contrib) = (3 + filled_fields contrib)%nat ∧
  (∀ render, field_line None render = [] ∧ field_line (Some "") render = []) ∧
  (∀ website,
     GitHubContributor.website contrib = Some website → website ≠ "" →
     ("- **Website**: [" +:+ website +:+ "](" +:+ website_target website +:+ ")")
       ∈ contributor_lines contrib ∧
     has_scheme (website_target website) = true ∧
     (has_scheme website = true → website_target website = website) ∧
     (has_scheme website = false →
      website_target website = "https://" +:+ website)).
Proof.
  split_and!.
  - unfold _generate_people_content, people_title, people_placeholders.
    destruct (Context.contributors context) as [|c cs].
    + reflexivity.
    + rewrite people_loop_body_foldl. by rewrite !string_app_assoc.
  - unfold contributor_lines, filled_fields.
    rewrite !length_app, !field_line_length.
    destruct (truthy (GitHubContributor.pronouns contrib)),
      (truthy (GitHubContributor.bio contrib)),
      (truthy (GitHubContributor.company contrib)),
      (truthy (GitHubContributor.location contrib)),
      (truthy (GitHubContributor.website contrib)),
      (truthy (GitHubContributor.email contrib)),
      (truthy (GitHubContributor.twitter_username contrib)),
      (bool_decide (GitHubContributor.hireable contrib = Some true));
      reflexivity.
  - done.
  - intros website Hweb Hne. split_and!.
    + unfold contributor_lines. rewrite Hweb, (field_line_filled website) by done.
      rewrite !elem_of_app. right. right. right. right. right. left.
      apply list_elem_of_here.
    + apply website_target_has_scheme.
    + unfold website_target. by intros ->.
    + unfold website_target. by intros ->.
Qed.

Lemma people_document_lines_example :
  contributor_lines bob_selected
  = ["### Bob"; "- **GitHub**: [@bob](https://github.com/bob)";
     "- **Website**: [bob.example](https://bob.example)"; ""] ∧
  "- **Website**: [bob.example](https://bob.example)"
    ∈ contributor_lines bob_selected.
Proof.
  split; [vm_compute; reflexivity|].
  destruct (people_document_lines context_linked bob_selected)
    as (_ & _ & _ & Hwebsite).
  destruct (Hwebsite "bob.example") as (Hline & _); [reflexivity|discriminate|].
  exact Hline.
Defined.

(** * Further properties of the store *)

(** ** Deleting a context *)

(** X1. [delete_context] on an id that is not stored returns [False] and
    changes nothing. On a stored id it returns [True], removes the context
    and its directory and nothing else, and reads neither the clock nor
    the generator; the file operations on that id then answer "not found"
    and leave the state alone. *)
Theorem delete_context_spec (clock : nat → Z) (w : World)
    (context_id : string) :
  (contexts w !! context_id = None →
   delete_context context_id w = (false, w)) ∧
  (is_Some (contexts w !! context_id) →
   ∃ w', delete_context context_id w = (true, w') ∧
         contexts w' = delete context_id (contexts w) ∧
         disk w' = delete context_id (disk w) ∧
         ticks w' = ticks w ∧ draws w' = draws w ∧
         get_context context_id w' = (None, w') ∧
         (∀ request, add_file_to_context clock context_id request w'
                     = (None, w')) ∧
         (∀ name request, update_context_file clock context_id name request w'
                          = (None, w')) ∧
         (∀ name, remove_file_from_context clock context_id name w'
                  = (false, w')) ∧
         delete_context context_id w' = (false, w')).
Proof.
  unfold delete_context, bind, ret, get_contexts, remove_context,
    _delete_context_files, modify_disk.
  split.
  - by intros ->.
  - intros [c Hc]. rewrite Hc. simpl. eexists. split; [reflexivity|]. simpl.
    split_and!; try done.
    + unfold get_context, bind, ret, get_contexts. simpl.
      by rewrite lookup_delete_eq.
    + intros request. unfold add_file_to_context, bind, ret, get_contexts.
      simpl. by rewrite lookup_delete_eq.
    + intros name request.
      unfold update_context_file, bind, ret, get_contexts.
      simpl. by rewrite lookup_delete_eq.
    + intros name. unfold remove_file_from_context, bind, ret, get_contexts.
      simpl. by rewrite lookup_delete_eq.
    + simpl. by rewrite lookup_delete_eq.
Qed.

Lemma delete_context_example :
  ∃ w', delete_context "ctx-0" world_two_files = (true, w') ∧
        contexts w' = ∅ ∧ disk w' = ∅.
Proof.
  destruct (delete_context_spec sample_clock world_two_files "ctx-0")
    as [_ Hstored].
  destruct Hstored as (w' & Hrun & Hcs & Hdk & _).
  - vm_compute. eauto.
  - exists w'. split; [exact Hrun|]. rewrite Hcs, Hdk.
    split; vm_compute; reflexivity.
Defined.

(** ** Updating a file *)

(** X2. [update_context_file] on an absent context, or on a name no file
    of the context bears, returns [None] and changes nothing. Otherwise it
    rewrites the first file of that name in place in the stored context:
    the file keeps its position, name, type and [created_at], takes the
    content requested and a new reading of the clock as [updated_at]; the
    other files, the number of files and the other fields of the context
    are as before; the context's [updated_at] is the next reading. When
    the files of the context have plain and pairwise distinct names, the
    call returns the rewritten file and the context is persisted: its
    directory holds it and an artifact for each file, the other artifacts
    and directories being as before. *)
Theorem update_context_file_spec (clock : nat → Z) (w : World)
    (context_id file_name : string) (request : UpdateContextFileRequest.t) :
  (contexts w !! context_id = None →
   update_context_file clock context_id file_name request w = (None, w)) ∧
  (∀ context,
     contexts w !! context_id = Some context →
     (∀ f, f ∈ Context.files context → ContextFile.name f ≠ file_name) →
     update_context_file clock context_id file_name request w = (None, w)) ∧
  (∀ context i f,
     contexts w !! context_id = Some context →
     list_find (λ f, ContextFile.name f = file_name) (Context.files context)
     = Some (i, f) →
     let file_obj :=
       ContextFile.mk (ContextFile.name f) (ContextFile.file_type f)
         (UpdateContextFileRequest.content request)
         (ContextFile.created_at f) (clock (ticks w)) in
     let context' :=
       Context.set_updated_at (clock (S (ticks w)))
         (Context.set_files (<[i := file_obj]> (Context.files context))
                            context) in
     let w' :=
       state_of (update_context_file clock context_id file_name request) w in
     contexts w' = <[context_id := context']> (contexts w) ∧
     ticks w' = S (S (ticks w)) ∧
     draws w' = draws w ∧
     Context.files context' !! i = Some file_obj ∧
     (∀ j, j ≠ i → Context.files context' !! j = Context.files context !! j) ∧
     length (Context.files context') = length (Context.files context) ∧
     ContextFile.name <$> Context.files context'
     = ContextFile.name <$> Context.files context ∧
     (plain_names context →
      NoDup (file_names (Context.files context)) →
      update_context_file clock context_id file_name request w
      = (Some file_obj, w') ∧
      persisted context' (disk w) (disk w'))).
Proof.
  unfold state_of, update_context_file, bind, ret, get_contexts,
    store_context, now, _save_context, modify_disk.
  split_and!.
  - by intros ->.
  - intros context -> Hnone. simpl.
    destruct (list_find _ (Context.files context)) as [[i f]|] eqn:Hfind;
      [|done].
    apply list_find_Some in Hfind as (Hi & Hname & _).
    destruct (Hnone f); [by eapply list_elem_of_lookup_2|done].
  - intros context i f -> Hfind. simpl. rewrite Hfind. simpl.
    pose proof Hfind as (Hi & Hname & _)%list_find_Some.
    assert (file_names
              (<[i := ContextFile.mk (ContextFile.name f)
                        (ContextFile.file_type f)
                        (UpdateContextFileRequest.content request)
                        (ContextFile.created_at f) (clock (ticks w))]>
                 (Context.files context))
            = file_names (Context.files context)) as Hnames.
    { by apply (file_names_updated _ _ f). }
    split_and!; try done.
    + apply list_lookup_insert_eq. by eapply lookup_lt_Some.
    + intros j Hj. by apply list_lookup_insert_ne.
    + apply length_insert.
    + intros Hplain Hnodup. split; [done|].
      apply save_to_disk_persisted.
      * unfold plain_names. simpl. by rewrite Hnames.
      * simpl. by rewrite Hnames.
Qed.

Lemma update_context_file_example :
  (update_context_file sample_clock "ctx-0" "notes.md"
     (UpdateContextFileRequest.mk "rewritten") world_two_files
   = (Some (ContextFile.mk "notes.md" CUSTOM "rewritten" 2 8),
      state_of (update_context_file sample_clock "ctx-0" "notes.md"
                  (UpdateContextFileRequest.mk "rewritten"))
               world_two_files) ∧
   ∃ dir,
     disk (state_of (update_context_file sample_clock "ctx-0" "notes.md"
                       (UpdateContextFileRequest.mk "rewritten"))
                    world_two_files) !! "ctx-0" = Some dir ∧
     files_dir dir !! "notes.md" = Some "rewritten") ∧
  value_of (update_context_file sample_clock "ctx-0" "missing.md"
              (UpdateContextFileRequest.mk "rewritten")) world_two_files
  = None.
Proof.
  destruct (update_context_file_spec sample_clock world_two_files "ctx-0"
              "notes.md" (UpdateContextFileRequest.mk "rewritten"))
    as (_ & _ & Hfound).
  destruct (update_context_file_spec sample_clock world_two_files "ctx-0"
              "missing.md" (UpdateContextFileRequest.mk "rewritten"))
    as (_ & Hmissing & _).
  split.
  - destruct (Hfound
      (Context.mk "ctx-0" "Foo" None 1 "alice" None
         [ContextFile.mk "notes.md" CUSTOM "first" 2 3;
          ContextFile.mk "todo.md" CUSTOM "second" 5 6] [] true 0 7)
      0%nat (ContextFile.mk "notes.md" CUSTOM "first" 2 3))
      as (_ & _ & _ & _ & _ & _ & _ & Hsaved);
      [vm_compute; reflexivity|reflexivity|].
    destruct Hsaved as [Hrun [(dir & Hdir & [_ Harts] & _) _]].
    + apply (bool_decide_unpack _). vm_compute. exact I.
    + apply (bool_decide_unpack _). vm_compute. exact I.
    + split; [etransitivity; [exact Hrun|vm_compute; reflexivity]|].
      exists dir. split; [exact Hdir|].
      apply (Harts (ContextFile.mk "notes.md" CUSTOM "rewritten" 2 8)).
      simpl. apply list_elem_of_here.
  - unfold value_of.
    rewrite (Hmissing
      (Context.mk "ctx-0" "Foo" None 1 "alice" None
         [ContextFile.mk "notes.md" CUSTOM "first" 2 3;
          ContextFile.mk "todo.md" CUSTOM "second" 5 6] [] true 0 7));
      [reflexivity|vm_compute; reflexivity|].
    intros f Hf Hn.
    repeat (apply elem_of_cons in Hf as [->|Hf]; [discriminate Hn|]).
    by apply elem_of_nil in Hf.
Defined.

(** ** The disk mirrors the store *)

Lemma filter_length_id {A} (P : A → Prop) `{∀ x, Decision (P x)}
    (l : list A) :
  ¬ (length (filter P l) < length l)%nat → filter P l = l.
Proof.
  induction l as [|x l IH]; [done|].
  destruct (decide (P x)).
  - rewrite filter_cons_True by done. simpl. intros Hlen. f_equal.
    apply IH. lia.
  - rewrite filter_cons_False by done. simpl. intros Hlen.
    pose proof (length_filter P l). lia.
Qed.

Lemma mirrored_update (w : World) k context t d :
  mirrored w → Context.id context = k →
  plain_names context →
  NoDup (file_names (Context.files context)) →
  mirrored (mkWorld (<[k := context]> (contexts w))
                    (save_to_disk context (disk w)) t d).
Proof.
  intros Hstored Hid Hplain Hnd k0 c0 Hk0. simpl in *.
  destruct (decide (k0 = k)) as [->|Hne].
  - rewrite lookup_insert_eq in Hk0. injection Hk0 as <-.
    split; [done|]. split; [done|].
    destruct (save_to_disk_persisted context (disk w) Hplain Hnd)
      as [(dir & Hdir & Hwt & _) _].
    exists dir. by rewrite <- Hid.
  - rewrite lookup_insert_ne in Hk0 by done.
    destruct (Hstored k0 c0 Hk0) as (Hid0 & Hplain0 & dir & Hdir & Hwt).
    split; [done|]. split; [done|]. exists dir. split; [|done].
    rewrite save_to_disk_lookup_ne; [done|congruence].
Qed.

Lemma mirrored_id (w : World) k context :
  mirrored w → contexts w !! k = Some context → Context.id context = k.
Proof. intros Hstored Hk. by destruct (Hstored k context Hk). Qed.

Lemma mirrored_plain (w : World) k context :
  mirrored w → contexts w !! k = Some context → plain_names context.
Proof.
  intros Hstored Hk. by destruct (Hstored k context Hk) as (_ & ? & _).
Qed.

Lemma plain_names_filter (P : ContextFile.t → Prop)
    `{∀ f, Decision (P f)} (fs : list ContextFile.t) :
  Forall (λ name, plain_name name = true) (file_names fs) →
  Forall (λ name, plain_name name = true) (file_names (filter P fs)).
Proof.
  unfold file_names. rewrite !Forall_fmap, !Forall_forall.
  intros Hfs f [_ Hf]%list_elem_of_filter. by apply Hfs.
Qed.

Lemma plain_names_replaced (n : string) (fs : list ContextFile.t) f :
  ContextFile.name f = n → plain_name n = true →
  Forall (λ name, plain_name name = true) (file_names fs) →
  Forall (λ name, plain_name name = true)
         (file_names (filter (λ g, ContextFile.name g ≠ n) fs ++ [f])).
Proof.
  intros Hf Hn Hfs. unfold file_names. rewrite fmap_app. apply Forall_app.
  split; [by apply plain_names_filter|].
  simpl. rewrite Hf. by repeat constructor.
Qed.

Section Mirrored.
Variable clock : nat → Z.
Variable uuid4 : nat → string.

Ltac run_store :=
  unfold state_of, bind, ret, get_contexts, get_context, store_context,
    remove_context, now, fresh_uuid, new_Context, new_ContextFile,
    _save_context, _delete_context_files, modify_disk; simpl.

Lemma create_context_mirrored w user_id user_login request :
  mirrored w →
  mirrored (state_of (create_context clock uuid4 user_id user_login request) w).
Proof.
  intros Hw.
  destruct (create_context_cases clock uuid4 w user_id user_login request)
    as [[_ Hrun]|[_ Hrun]]; cbv zeta in Hrun; unfold state_of;
    rewrite Hrun; simpl; [done|].
  apply mirrored_update; [done|done|apply Forall_nil_2|apply NoDup_nil_2].
Qed.

Lemma update_context_mirrored w context_id request :
  files_unique w → mirrored w →
  mirrored (state_of (update_context clock context_id request) w).
Proof.
  intros Hu Hw. unfold update_context. run_store.
  destruct (contexts w !! context_id) as [c|] eqn:Hc; simpl; [|done].
  pose proof (mirrored_id w _ _ Hw Hc) as Hid.
  pose proof (mirrored_plain w _ _ Hw Hc) as Hplain.
  pose proof (files_unique_lookup w _ _ Hu Hc) as Hnd.
  apply mirrored_update; [done|..];
    by destruct request as [[n|] [d|] [p|]].
Qed.

Lemma delete_context_mirrored w context_id :
  mirrored w → mirrored (state_of (delete_context context_id) w).
Proof.
  intros Hstored. unfold delete_context. run_store.
  destruct (contexts w !! context_id) as [c|] eqn:Hc; simpl; [|done].
  intros k c0 Hk. simpl in *. apply lookup_delete_Some in Hk as [Hne Hk].
  destruct (Hstored k c0 Hk) as (Hid & Hplain & dir & Hdir & Hwt).
  split; [done|]. split; [done|]. exists dir. by rewrite lookup_delete_ne.
Qed.

Lemma add_file_to_context_mirrored w context_id request :
  plain_name (CreateContextFileRequest.name request) = true →
  files_unique w → mirrored w →
  mirrored (state_of (add_file_to_context clock context_id request) w).
Proof.
  intros Hname Hu Hw. unfold add_file_to_context. run_store.
  destruct (contexts w !! context_id) as [c|] eqn:Hc; simpl; [|done].
  apply mirrored_update; [done|exact (mirrored_id w _ _ Hw Hc)|..]; simpl.
  - apply plain_names_replaced; [done|done|].
    exact (mirrored_plain w _ _ Hw Hc).
  - apply file_names_replaced; [done|].
    exact (files_unique_lookup w _ _ Hu Hc).
Qed.

Lemma update_context_file_mirrored w context_id file_name request :
  files_unique w → mirrored w →
  mirrored (state_of (update_context_file clock context_id file_name
                        request) w).
Proof.
  intros Hu Hw. unfold update_context_file. run_store.
  destruct (contexts w !! context_id) as [c|] eqn:Hc; simpl; [|done].
  destruct (list_find _ (Context.files c)) as [[i f]|] eqn:Hfind; simpl;
    [|done].
  apply list_find_Some in Hfind as (Hi & _ & _).
  apply mirrored_update; [done|exact (mirrored_id w _ _ Hw Hc)|..];
    unfold plain_names; simpl;
    rewrite (file_names_updated _ _ f) by done.
  - exact (mirrored_plain w _ _ Hw Hc).
  - exact (files_unique_lookup w _ _ Hu Hc).
Qed.

Lemma remove_file_from_context_mirrored w context_id file_name :
  files_unique w → mirrored w →
  mirrored (state_of (remove_file_from_context clock context_id file_name) w).
Proof.
  intros Hu Hw. unfold remove_file_from_context. run_store.
  destruct (contexts w !! context_id) as [c|] eqn:Hc; simpl; [|done].
  case_decide as Hlen; simpl.
  - rewrite insert_insert_eq.
    apply mirrored_update; [done|exact (mirrored_id w _ _ Hw Hc)|..]; simpl.
    + apply plain_names_filter. exact (mirrored_plain w _ _ Hw Hc).
    + apply file_names_filter_NoDup. exact (files_unique_lookup w _ _ Hu Hc).
  - rewrite (filter_length_id _ _ Hlen).
    replace (Context.set_files (Context.files c) c) with c by by destruct c.
    rewrite insert_id by done. by destruct w.
Qed.

Lemma set_context_repo_mirrored w context_id github_repo :
  files_unique w → mirrored w →
  mirrored (state_of (set_context_repo clock context_id github_repo) w).
Proof.
  intros Hu Hw. unfold set_context_repo. run_store.
  destruct (contexts w !! context_id) as [c|] eqn:Hc; simpl; [|done].
  apply mirrored_update; [done|exact (mirrored_id w _ _ Hw Hc)|..].
  - exact (mirrored_plain w _ _ Hw Hc).
  - exact (files_unique_lookup w _ _ Hu Hc).
Qed.

Lemma set_context_contributors_mirrored w context_id contributors :
  files_unique w → mirrored w →
  mirrored (state_of (set_context_contributors clock context_id
                        contributors) w).
Proof.
  intros Hu Hw. unfold set_context_contributors. run_store.
  destruct (contexts w !! context_id) as [c|] eqn:Hc; simpl; [|done].
  apply mirrored_update; [done|exact (mirrored_id w _ _ Hw Hc)|..].
  - exact (mirrored_plain w _ _ Hw Hc).
  - exact (files_unique_lookup w _ _ Hu Hc).
Qed.

Lemma generate_default_files_mirrored w context_id github_service :
  files_unique w → mirrored w →
  mirrored (state_of (generate_default_files clock context_id
                        github_service) w).
Proof.
  intros Hu Hw. unfold generate_default_files.
  rewrite state_of_bind.
  change (state_of get_contexts w) with w.
  change (value_of get_contexts w) with (contexts w).
  destruct (contexts w !! context_id) as [c|]; [|done].
  rewrite !state_of_bind, state_of_get_context, !state_of_current.
  repeat (apply add_file_to_context_mirrored;
          [reflexivity
          |by repeat apply add_file_to_context_files_unique|]).
  done.
Qed.

Lemma toggle_contributor_selection_mirrored w context_id login user_id :
  files_unique w → mirrored w →
  mirrored (state_of (toggle_contributor_selection clock context_id login
                        user_id) w).
Proof.
  intros Hu Hw. unfold toggle_contributor_selection.
  rewrite state_of_bind.
  change (state_of (get_context context_id) w) with w.
  change (value_of (get_context context_id) w) with (contexts w !! context_id).
  destruct (contexts w !! context_id) as [c|] eqn:Hc; [|done].
  case_decide; [done|].
  destruct (toggle_first login (Context.contributors c)) as [cs|]; [|done].
  rewrite !state_of_bind.
  change (state_of (get_context context_id) ?w') with w'.
  pose proof (files_unique_lookup w _ _ Hu Hc) as Hnd.
  change (state_of (_save_context ?c')
            (state_of (store_context context_id ?c') w))
    with (mkWorld (<[context_id := c']> (contexts w))
                  (save_to_disk c' (disk w)) (ticks w) (draws w)).
  apply update_context_file_mirrored.
  - by apply files_unique_store.
  - apply mirrored_update; [done|exact (mirrored_id w _ _ Hw Hc)|..];
      [exact (mirrored_plain w _ _ Hw Hc)|done].
Qed.

Lemma exec_mirrored op w :
  plain_op op →
  files_unique w → mirrored w → mirrored (state_of (exec clock uuid4 op) w).
Proof.
  intros Hop Hu Hw. destruct op; simpl; rewrite state_of_bind;
    change (state_of (ret tt) ?w') with w'.
  - by apply create_context_mirrored.
  - by apply update_context_mirrored.
  - by apply delete_context_mirrored.
  - by apply add_file_to_context_mirrored.
  - by apply update_context_file_mirrored.
  - by apply remove_file_from_context_mirrored.
  - by apply set_context_repo_mirrored.
  - by apply set_context_contributors_mirrored.
  - by apply generate_default_files_mirrored.
  - by apply toggle_contributor_selection_mirrored.
Qed.

Lemma run_mirrored ops w :
  Forall plain_op ops →
  files_unique w → mirrored w → mirrored (state_of (run clock uuid4 ops) w).
Proof.
  revert w. induction ops as [|op ops IH]; intros w Hops Hu Hw; [done|].
  apply Forall_cons in Hops as [Hop Hops].
  simpl. rewrite state_of_bind.
  apply IH; [done|by apply exec_files_unique|by apply exec_mirrored].
Qed.
End Mirrored.

(** X3. Write-through. A process starts with an empty store, whatever
    [contexts/] holds from earlier runs. Whatever operations it then runs,
    as long as the files it adds have plain names, the disk mirrors the
    store: every stored context sits under its own id, its files have
    plain names, and its directory holds the context exactly as stored
    and, for each of its files, an artifact named after the file with the
    file's content. *)
Theorem disk_mirrors_store (clock : nat → Z) (uuid4 : nat → string)
    (ops : list Op) (w : World) :
  contexts w = ∅ →
  Forall plain_op ops →
  mirrored (state_of (run clock uuid4 ops) w).
Proof.
  intros Hempty Hops. apply run_mirrored; [done|..].
  - unfold files_unique. rewrite Hempty. apply map_Forall_empty.
  - intros k c Hk. by rewrite Hempty, lookup_empty in Hk.
Qed.

Lemma disk_mirrors_store_example :
  ∃ dir,
    disk (state_of (run sample_clock sample_uuid4 sample_ops) init_world)
      !! "ctx-0" = Some dir ∧
    files_dir dir !! "notes.md" = Some "first".
Proof.
  destruct (disk_mirrors_store sample_clock sample_uuid4 sample_ops
              init_world eq_refl) with
    (k := "ctx-0")
    (context := Context.mk "ctx-0" "Foo" None 1 "alice" None
                  [ContextFile.mk "notes.md" CUSTOM "first" 2 3] [] true 0 8)
    as (_ & _ & dir & Hdir & _ & Harts).
  - repeat constructor.
  - vm_compute. reflexivity.
  - exists dir. split; [exact Hdir|].
    apply (Harts (ContextFile.mk "notes.md" CUSTOM "first" 2 3)).
    simpl. apply list_elem_of_here.
Defined.

(** ** Artifacts of removed files *)

(** X4. Removing a file does not delete its artifact: when the context
    has a file of the name, its directory holds an artifact under that
    name and the other files of the context have plain names, then after
    [remove_file_from_context] the context has no file of the name any
    more, but the directory still holds the artifact, unchanged. *)
Theorem removed_file_artifact_stays (clock : nat → Z) (w : World)
    (context_id file_name artifact : string) (context : Context.t)
    (dir : ContextDir) :
  contexts w !! context_id = Some context →
  (∃ f, f ∈ Context.files context ∧ ContextFile.name f = file_name) →
  (∀ f, f ∈ Context.files context → ContextFile.name f ≠ file_name →
        plain_name (ContextFile.name f) = true) →
  disk w !! Context.id context = Some dir →
  files_dir dir !! file_name = Some artifact →
  let w' := state_of (remove_file_from_context clock context_id file_name) w in
  (∃ context', contexts w' !! context_id = Some context' ∧
               file_name ∉ ContextFile.name <$> Context.files context') ∧
  (∃ dir', disk w' !! Context.id context = Some dir' ∧
           files_dir dir' !! file_name = Some artifact).
Proof.
  intros Hctx Hfile Hplain Hdir Hartifact.
  unfold remove_file_from_context, state_of, bind, ret, get_contexts,
    store_context, now, _save_context, modify_disk.
  rewrite Hctx. simpl.
  rewrite decide_True by by apply filter_other_names_shorter.
  simpl. rewrite lookup_insert_eq.
  assert (file_name ∉ file_names
            (filter (λ f, ContextFile.name f ≠ file_name)
                    (Context.files context))) as Hgone.
  { intros (g & -> & Hg)%list_elem_of_fmap.
    by apply filter_other_names_spec in Hg as [_ ?]. }
  split.
  - eexists. split; [reflexivity|]. exact Hgone.
  - unfold save_to_disk. simpl. rewrite lookup_insert_eq, Hdir.
    rewrite write_files_plain.
    + eexists. split; [reflexivity|]. simpl.
      by rewrite insert_files_lookup_other.
    + unfold file_names. rewrite Forall_fmap. apply Forall_forall.
      intros f [Hf Hname]%filter_other_names_spec. simpl. by apply Hplain.
Qed.

Lemma removed_file_artifact_stays_example :
  ∃ dir', disk (state_of (remove_file_from_context sample_clock "ctx-0"
                            "notes.md") world_two_files) !! "ctx-0"
          = Some dir' ∧
          files_dir dir' !! "notes.md" = Some "first".
Proof.
  assert (∃ dir, disk world_two_files !! "ctx-0" = Some dir ∧
                 files_dir dir !! "notes.md" = Some "first")
    as (dir & Hdir & Hartifact).
  { eexists. split; vm_compute; reflexivity. }
  apply (removed_file_artifact_stays sample_clock world_two_files "ctx-0"
           "notes.md" "first"
           (Context.mk "ctx-0" "Foo" None 1 "alice" None
              [ContextFile.mk "notes.md" CUSTOM "first" 2 3;
               ContextFile.mk "todo.md" CUSTOM "second" 5 6] [] true 0 7)
           dir).
  - vm_compute. reflexivity.
  - eexists. split; [apply list_elem_of_here|reflexivity].
  - clear Hdir Hartifact. intros f Hf Hname. simpl in Hf.
    apply elem_of_cons in Hf as [->|Hf]; [destruct (Hname eq_refl)|].
    apply elem_of_cons in Hf as [->|Hf]; [reflexivity|].
    destruct (proj1 (elem_of_nil f) Hf).
  - exact Hdir.
  - exact Hartifact.
Defined.

(** ** Linking a repository, setting the contributors *)





(** ** Looking contexts up by repository *)

Lemma get_contexts_for_repos_fold (user_id : Z) (repo_urls : list string)
    (l : list Context.t) (acc : gmap string string) (url : string) :
  let step := λ (repo_contexts : gmap string string) context,
    match Context.github_repo context with
    | Some github_repo =>
        if decide (Context.owner_id context = user_id ∧
                   GitHubRepo.url github_repo ∈ repo_urls)
        then <[GitHubRepo.url github_repo := Context.id context]> repo_contexts
        else repo_contexts
    | None => repo_contexts
    end in
  (∀ cid, foldl step acc l !! url = Some cid →
          acc !! url = Some cid ∨
          (url ∈ repo_urls ∧
           ∃ c, c ∈ l ∧ linked_to user_id url c ∧ Context.id c = cid)) ∧
  (is_Some (acc !! url) ∨
   (url ∈ repo_urls ∧ ∃ c, c ∈ l ∧ linked_to user_id url c) →
   is_Some (foldl step acc l !! url)).
Proof.
  intros step. revert acc.
  induction l as [|c l IH]; intros acc; simpl.
  { split; [auto|]. intros [?|(_ & c & []%elem_of_nil & _)]. done. }
  destruct (IH (step acc c)) as [IH1 IH2]. split.
  - intros cid Hcid. destruct (IH1 cid Hcid) as [Hstep|(Hin & c' & Hc' & Hl)].
    + unfold step in Hstep.
      destruct (Context.github_repo c) as [r|] eqn:Hr; [|by left].
      case_decide as Hd; [|by left].
      destruct (decide (GitHubRepo.url r = url)) as [<-|Hne].
      * rewrite lookup_insert_eq in Hstep. injection Hstep as <-.
        right. destruct Hd as [Ho Hu]. split; [done|].
        exists c. split; [left|]. split; [|done]. split; [done|]. eauto.
      * rewrite lookup_insert_ne in Hstep by done. by left.
    + right. split; [done|]. exists c'. split; [by right|done].
  - intros [Hacc|(Hin & c' & Hc' & Hl)].
    + apply IH2. left. unfold step.
      destruct (Context.github_repo c) as [r|]; [|done].
      case_decide; [|done].
      destruct (decide (GitHubRepo.url r = url)) as [<-|Hne].
      * rewrite lookup_insert_eq. eauto.
      * by rewrite lookup_insert_ne.
    + apply IH2. apply elem_of_cons in Hc' as [->|Hc'].
      * left. unfold step. destruct Hl as (Ho & r & -> & <-).
        rewrite decide_True by done. rewrite lookup_insert_eq. eauto.
      * right. eauto.
Qed.

(** X7. The dictionary [get_contexts_for_repos] returns has an entry for a
    URL exactly when the URL is among those asked for and the user owns a
    context whose descriptor carries it; the entry is then the id of such
    a context. The store is left alone. *)
Theorem get_contexts_for_repos_spec (w : World) (user_id : Z)
    (repo_urls : list string) (url : string) :
  let repo_contexts := value_of (get_contexts_for_repos user_id repo_urls) w in
  state_of (get_contexts_for_repos user_id repo_urls) w = w ∧
  (is_Some (repo_contexts !! url) ↔
   url ∈ repo_urls ∧
   ∃ k context, contexts w !! k = Some context ∧
                linked_to user_id url context) ∧
  (∀ cid, repo_contexts !! url = Some cid →
          ∃ k context, contexts w !! k = Some context ∧
                       linked_to user_id url context ∧
                       Context.id context = cid).
Proof.
  intros repo_contexts. split; [reflexivity|].
  subst repo_contexts.
  unfold value_of, get_contexts_for_repos, bind, ret, get_contexts. simpl.
  destruct (get_contexts_for_repos_fold user_id repo_urls
              (snd <$> map_to_list (contexts w)) ∅ url) as [H1 H2].
  cbv zeta in H1, H2.
  assert (∀ c, c ∈ snd <$> map_to_list (contexts w) ↔
               ∃ k, contexts w !! k = Some c) as Hvalues.
  { intros c. rewrite list_elem_of_fmap. split.
    - intros ([k c'] & -> & Hin). apply elem_of_map_to_list in Hin. eauto.
    - intros [k Hk]. exists (k, c). split; [done|].
      by apply elem_of_map_to_list. }
  split; [split|].
  - intros [cid Hcid]. destruct (H1 cid Hcid) as [Hempty|(Hin & c & Hc & Hl & _)].
    + by rewrite lookup_empty in Hempty.
    + split; [done|]. apply Hvalues in Hc as [k Hk]. eauto.
  - intros (Hin & k & c & Hk & Hl). apply H2. right. split; [done|].
    exists c. split; [|done]. apply Hvalues. eauto.
  - intros cid Hcid. destruct (H1 cid Hcid) as [Hempty|(Hin & c & Hc & Hl & Hid)].
    + by rewrite lookup_empty in Hempty.
    + apply Hvalues in Hc as [k Hk]. eauto.
Qed.

Lemma get_contexts_for_repos_example :
  value_of (get_contexts_for_repos 1
              ["https://github.com/alice/foo"; "https://github.com/alice/bar"])
           world_two_owners
  = {["https://github.com/alice/foo" := "ctx-0"]} ∧
  ∃ k context, contexts world_two_owners !! k = Some context ∧
               linked_to 1 "https://github.com/alice/foo" context ∧
               Context.id context = "ctx-0".
Proof.
  split; [vm_compute; reflexivity|].
  apply (get_contexts_for_repos_spec world_two_owners 1
           ["https://github.com/alice/foo"; "https://github.com/alice/bar"]
           "https://github.com/alice/foo").
  vm_compute. reflexivity.
Defined.

(** ** Listing contexts *)

Lemma stored_values_insert (cs : gmap string Context.t) k context :
  cs !! k = None →
  snd <$> map_to_list (<[k := context]> cs)
  ≡ₚ context :: (snd <$> map_to_list cs).
Proof. intros Hk. by rewrite map_to_list_insert. Qed.

(** X8. A context created under an id new to the store is found by
    [get_context] under that id, joins the listing of its owner and of no
    other user, and joins the public listing exactly when the request made
    it public; the listings are otherwise as before (as collections: their
    order is that of the walk). *)
Theorem create_context_listed (clock : nat → Z) (uuid4 : nat → string)
    (w w' : World) (user_id : Z) (user_login : string)
    (request : CreateContextRequest.t) (context : Context.t) :
  create_context clock uuid4 user_id user_login request w
  = (inr context, w') →
  contexts w !! Context.id context = None →
  value_of (get_context (Context.id context)) w' = Some context ∧
  (∀ u, value_of (get_user_contexts u) w'
        ≡ₚ (if decide (u = user_id) then [context] else [])
           ++ value_of (get_user_contexts u) w) ∧
  value_of get_public_contexts w'
  ≡ₚ (if CreateContextRequest.is_public request then [context] else [])
     ++ value_of get_public_contexts w.
Proof.
  intros Hrun Hnew.
  destruct (create_context_cases clock uuid4 w user_id user_login request)
    as [[_ Hrun']|[_ Hrun']]; cbv zeta in Hrun'; rewrite Hrun' in Hrun;
    [discriminate Hrun|].
  injection Hrun as <- <-. simpl in Hnew.
  unfold value_of, get_context, get_user_contexts, get_public_contexts, bind,
    ret, get_contexts. simpl.
  split_and!.
  - apply lookup_insert_eq.
  - intros u. rewrite stored_values_insert by done.
    rewrite filter_cons. simpl.
    destruct (decide (user_id = u)) as [->|Hne].
    + by rewrite decide_True.
    + by rewrite decide_False by congruence.
  - rewrite stored_values_insert by done. rewrite filter_cons. simpl.
    by destruct (CreateContextRequest.is_public request).
Qed.

Lemma create_context_listed_example :
  Context.name <$> value_of (get_user_contexts 2) world_two_owners = ["Bar"] ∧
  Context.name <$> value_of get_public_contexts world_two_owners = ["Foo"].
Proof.
  pose proof (create_context_listed sample_clock sample_uuid4 world_linked
                world_two_owners 2 "bob"
                (CreateContextRequest.make "Bar" None None (Some false))
                (Context.mk "ctx-1" "Bar" None 2 "bob" None [] [] false 3 4))
    as Hlisted.
  destruct Hlisted as (_ & Huser & Hpublic);
    [vm_compute; reflexivity|vm_compute; reflexivity|].
  split; vm_compute; reflexivity.
Defined.

(** * Further properties of the document generator *)

(** ** Generating the default documents *)

Lemma filter_default_names (fs : list ContextFile.t) :
  filter (λ f, ContextFile.name f ≠ "guidelines.md")
    (filter (λ f, ContextFile.name f ≠ "people.md")
       (filter (λ f, ContextFile.name f ≠ "business.md")
          (filter (λ f, ContextFile.name f ≠ "stack.md") fs)))
  = filter (λ f, ContextFile.name f ∉ default_names) fs.
Proof.
  rewrite !list_filter_filter. apply list_filter_iff. intros f.
  unfold default_names. rewrite !not_elem_of_cons.
  pose proof (not_elem_of_nil (ContextFile.name f)). tauto.
Qed.

Lemma generate_default_files_run (clock : nat → Z) (w : World)
    (context_id : string) (github_service : option GitHubService.t)
    (context : Context.t) :
  contexts w !! context_id = Some context →
  ∃ context' w',
    generate_default_files clock context_id github_service w
    = (Some context', w') ∧
    contexts w' !! context_id = Some context' ∧
    Context.files context'
    = filter (λ f, ContextFile.name f ∉ default_names)
             (Context.files context)
      ++ default_files clock (ticks w) context github_service ∧
    Context.github_repo context' = Context.github_repo context ∧
    Context.contributors context' = Context.contributors context ∧
    Context.updated_at context' = clock (11 + ticks w)%nat ∧
    ticks w' = (12 + ticks w)%nat ∧
    Context.id context' = Context.id context ∧
    ∃ dk, disk w' = save_to_disk context' dk.
Proof.
  intros Hctx.
  unfold generate_default_files, add_file_to_context, current, get_context,
    bind, ret, get_contexts, store_context, now, new_ContextFile,
    _save_context, modify_disk.
  repeat (first [rewrite Hctx | rewrite lookup_insert_eq];
          cbn -[_generate_stack_content _generate_business_content
                _generate_people_content _generate_guidelines_content
                filter save_to_disk]).
  eexists _, _. split; [reflexivity|].
  cbn -[_generate_stack_content _generate_business_content
        _generate_people_content _generate_guidelines_content filter
        save_to_disk].
  split; [apply lookup_insert_eq|].
  split_and!; try done.
  + rewrite <- filter_default_names. rewrite !filter_app.
    repeat (rewrite filter_cons_True by done). rewrite !filter_nil.
    rewrite <- !app_assoc. reflexivity.
  + eexists. reflexivity.
Qed.

Lemma default_files_added (clock : nat → Z) (t : nat) (context : Context.t)
    (github_service : option GitHubService.t) (fs : list ContextFile.t) :
  let fs' := filter (λ f, ContextFile.name f ∉ default_names) fs
             ++ default_files clock t context github_service in
  (Forall (λ name, plain_name name = true) (file_names fs) →
   Forall (λ name, plain_name name = true) (file_names fs')) ∧
  (NoDup (file_names fs) → NoDup (file_names fs')).
Proof.
  intros fs'. subst fs'. unfold file_names. rewrite fmap_app. split.
  - intros Hplain. apply Forall_app. split.
    + by apply plain_names_filter.
    + simpl. by repeat constructor.
  - intros Hnodup. apply NoDup_app. split_and!.
    + rewrite <- filter_default_names.
      by repeat apply file_names_filter_NoDup.
    + intros n (f & -> & [Hf _]%list_elem_of_filter)%list_elem_of_fmap Hn.
      apply Hf. exact Hn.
    + simpl. apply (bool_decide_unpack _). vm_compute. exact I.
Qed.

(** X9. [generate_default_files] on an absent context returns [None] and
    changes nothing. On a stored context whose files have plain names it
    leaves the files whose names are not those of the four default
    documents, in their order, and puts after them [stack.md],
    [business.md], [people.md] and [guidelines.md], in this order, each
    with the content its generator gives for the context; the repository
    and the contributors are untouched and the clock is read twelve
    times. When the names are also pairwise distinct, the directory of
    the context then holds the context as returned and an artifact for
    each of its files. *)
Theorem generate_default_files_spec (clock : nat → Z) (w : World)
    (context_id : string) (github_service : option GitHubService.t) :
  (contexts w !! context_id = None →
   generate_default_files clock context_id github_service w = (None, w)) ∧
  (∀ context,
     contexts w !! context_id = Some context →
     plain_names context →
     ∃ context' w',
       generate_default_files clock context_id github_service w
       = (Some context', w') ∧
       contexts w' !! context_id = Some context' ∧
       Context.files context'
       = filter (λ f, ContextFile.name f ∉ default_names)
                (Context.files context)
         ++ default_files clock (ticks w) context github_service ∧
       Context.github_repo context' = Context.github_repo context ∧
       Context.contributors context' = Context.contributors context ∧
       Context.updated_at context' = clock (11 + ticks w)%nat ∧
       ticks w' = (12 + ticks w)%nat ∧
       (NoDup (file_names (Context.files context)) →
        ∃ dir, disk w' !! Context.id context = Some dir ∧
               written_through context' dir)).
Proof.
  split.
  - intros Hnone. unfold generate_default_files, bind, ret, get_contexts.
    by rewrite Hnone.
  - intros context Hctx Hplain.
    destruct (generate_default_files_run clock w context_id github_service
                context Hctx)
      as (context' & w' & Hrun & Hctx' & Hfiles & Hrepo & Hcs & Hup & Hticks
          & Hid & dk & Hdisk).
    exists context', w'. split_and!; try done.
    intros Hnodup.
    destruct (default_files_added clock (ticks w) context github_service
                (Context.files context)) as [Hplain' Hnodup'].
    destruct (save_to_disk_persisted context' dk)
      as [(dir & Hdir & Hwt & _) _].
    + unfold plain_names. rewrite Hfiles. by apply Hplain'.
    + rewrite Hfiles. by apply Hnodup'.
    + exists dir. by rewrite Hdisk, <- Hid.
Qed.

Lemma generate_default_files_example :
  ∃ context',
    value_of (generate_default_files sample_clock "ctx-0" None) world_two_files
    = Some context' ∧
    ContextFile.name <$> Context.files context'
    = ["notes.md"; "todo.md"; "stack.md"; "business.md"; "people.md";
       "guidelines.md"] ∧
    ∃ dir,
      disk (state_of (generate_default_files sample_clock "ctx-0" None)
                     world_two_files) !! "ctx-0" = Some dir ∧
      files_dir dir !! "notes.md" = Some "first".
Proof.
  destruct (generate_default_files_spec sample_clock world_two_files "ctx-0"
              None) as [_ Hstored].
  destruct (Hstored
    (Context.mk "ctx-0" "Foo" None 1 "alice" None
       [ContextFile.mk "notes.md" CUSTOM "first" 2 3;
        ContextFile.mk "todo.md" CUSTOM "second" 5 6] [] true 0 7))
    as (c' & w' & Hrun & _ & Hfiles & _ & _ & _ & _ & Hsaved).
  - vm_compute. reflexivity.
  - apply (bool_decide_unpack _). vm_compute. exact I.
  - destruct Hsaved as (dir & Hdir & _ & Harts).
    { apply (bool_decide_unpack _). vm_compute. exact I. }
    exists c'. unfold value_of, state_of. rewrite Hrun.
    split; [reflexivity|].
    split; [rewrite Hfiles; vm_compute; reflexivity|].
    exists dir. split; [exact Hdir|].
    apply (Harts (ContextFile.mk "notes.md" CUSTOM "first" 2 3)).
    rewrite Hfiles. apply elem_of_app. left. simpl.
    rewrite filter_cons_True
      by (apply (bool_decide_unpack _); vm_compute; exact I).
    apply list_elem_of_here.
Defined.

Lemma filter_default_names_twice (fs : list ContextFile.t) :
  filter (λ f, ContextFile.name f ∉ default_names)
         (filter (λ f, ContextFile.name f ∉ default_names) fs)
  = filter (λ f, ContextFile.name f ∉ default_names) fs.
Proof. rewrite list_filter_filter. apply list_filter_iff. tauto. Qed.

Lemma generated_contents_same (c1 c2 : Context.t)
    (github_service : option GitHubService.t) :
  Context.github_repo c1 = Context.github_repo c2 →
  Context.contributors c1 = Context.contributors c2 →
  _generate_stack_content c1 github_service
  = _generate_stack_content c2 github_service ∧
  _generate_business_content c1 = _generate_business_content c2 ∧
  _generate_people_content c1 = _generate_people_content c2 ∧
  _generate_guidelines_content c1 github_service
  = _generate_guidelines_content c2 github_service.
Proof.
  intros Hrepo Hcs.
  unfold _generate_stack_content, _generate_business_content,
    _generate_people_content, _generate_guidelines_content.
  by rewrite Hrepo, Hcs.
Qed.

(** X10. Generating the default documents a second time changes no name,
    type or content of a file: the files of other names stay, and the four
    documents are written again with the same content (only timestamps
    change). *)
Theorem generate_default_files_twice (clock : nat → Z) (w : World)
    (context_id : string) (github_service : option GitHubService.t)
    (context : Context.t) :
  contexts w !! context_id = Some context →
  let generate := generate_default_files clock context_id github_service in
  ∃ context1 context2,
    contexts (state_of generate w) !! context_id = Some context1 ∧
    contexts (state_of generate (state_of generate w)) !! context_id
    = Some context2 ∧
    (λ f, (ContextFile.name f, ContextFile.file_type f, ContextFile.content f))
      <$> Context.files context2
    = (λ f, (ContextFile.name f, ContextFile.file_type f,
             ContextFile.content f))
        <$> Context.files context1.
Proof.
  intros Hctx generate. subst generate.
  destruct (generate_default_files_run clock w context_id github_service
              context Hctx)
    as (c1 & w1 & Hrun1 & Hc1 & Hfiles1 & Hrepo1 & Hcs1 & _).
  destruct (generate_default_files_run clock w1 context_id github_service
              c1 Hc1)
    as (c2 & w2 & Hrun2 & Hc2 & Hfiles2 & _).
  exists c1, c2. unfold state_of. rewrite Hrun1. simpl. rewrite Hrun2. simpl.
  split; [done|]. split; [done|].
  rewrite Hfiles2, Hfiles1, filter_app, filter_default_names_twice.
  destruct (generated_contents_same c1 context github_service Hrepo1 Hcs1)
    as (Hs & Hb & Hp & Hg).
  unfold default_files. rewrite Hs, Hb, Hp, Hg.
  repeat (rewrite filter_cons_False
            by (intros Hn; apply Hn; unfold default_names; set_solver)).
  rewrite filter_nil, app_nil_r, !fmap_app. reflexivity.
Qed.

Lemma generate_default_files_twice_example :
  ∃ context1 context2,
    contexts (state_of (generate_default_files sample_clock "ctx-0" None)
                world_two_files) !! "ctx-0" = Some context1 ∧
    contexts (state_of (generate_default_files sample_clock "ctx-0" None)
                (state_of (generate_default_files sample_clock "ctx-0" None)
                   world_two_files)) !! "ctx-0" = Some context2 ∧
    ContextFile.content <$> Context.files context2
    = ContextFile.content <$> Context.files context1.
Proof.
  destruct (generate_default_files_twice sample_clock world_two_files "ctx-0"
              None
              (Context.mk "ctx-0" "Foo" None 1 "alice" None
                 [ContextFile.mk "notes.md" CUSTOM "first" 2 3;
                  ContextFile.mk "todo.md" CUSTOM "second" 5 6] [] true 0 7))
    as (c1 & c2 & Hc1 & Hc2 & Hsame); [vm_compute; reflexivity|].
  exists c1, c2. split; [exact Hc1|]. split; [exact Hc2|].
  apply (f_equal (fmap snd)) in Hsame.
  by rewrite <- !list_fmap_compose in Hsame.
Defined.

(** ** The business and the guidelines documents *)

(** X11. The business document is its title, then the description of the
    linked repository under its heading when there is a repository with a
    non-empty description, and nothing in its place otherwise, then the
    placeholder sections for features, rules and user stories. *)
Theorem _generate_business_content_spec (context : Context.t) :
  (∀ description,
     repo_description context = Some description →
     _generate_business_content context
     = business_title +:+ business_description_section description
       +:+ business_placeholders) ∧
  (repo_description context = None →
   _generate_business_content context
   = business_title +:+ business_placeholders).
Proof.
  unfold _generate_business_content, repo_description, business_title,
    business_description_section, business_placeholders.
  destruct (Context.github_repo context) as [github_repo|]; simpl.
  - destruct (nonempty (GitHubRepo.description github_repo)) as [d|].
    + split; [|done]. intros ? [= <-]. by rewrite !string_app_assoc.
    + split; [done|]. intros _. reflexivity.
  - split; [done|]. intros _. reflexivity.
Qed.

Lemma _generate_business_content_example :
  _generate_business_content
    (Context.set_github_repo
       (Some (GitHubRepo.mk "alice" "foo" "alice/foo" (Some "A tool.")
                "https://github.com/alice/foo"
                "https://github.com/alice/foo.git" "main" None None))
       context_linked)
  = business_title +:+ business_description_section "A tool."
    +:+ business_placeholders ∧
  _generate_business_content context_linked
  = business_title +:+ business_placeholders.
Proof.
  split.
  - apply _generate_business_content_spec. reflexivity.
  - apply _generate_business_content_spec. reflexivity.
Defined.

(** X12. The guidelines document of a context that is linked to a
    repository, generated with a GitHub service at hand, is the title
    followed by a pointer to the repository's [CONTRIBUTING.md] and
    nothing else: the placeholder sections are left out, and the
    repository is not read. In every other case it is the title followed
    by the placeholder sections for code style, workflow, testing and
    review. *)
Theorem _generate_guidelines_content_spec (context : Context.t)
    (github_service : option GitHubService.t) :
  (is_Some (Context.github_repo context) → is_Some github_service →
   _generate_guidelines_content context github_service
   = guidelines_title +:+ guidelines_pointer) ∧
  (Context.github_repo context = None ∨ github_service = None →
   _generate_guidelines_content context github_service
   = guidelines_title +:+ guidelines_placeholders).
Proof.
  unfold _generate_guidelines_content, guidelines_title, guidelines_pointer,
    guidelines_placeholders.
  destruct (Context.github_repo context) as [github_repo|],
    github_service as [service|]; simpl; split;
    try (by intros [? [=]]); try (by intros _ [? [=]]);
    try (by intros [[=]|[=]]); intros; by rewrite ?string_app_assoc.
Qed.

Lemma _generate_guidelines_content_example :
  _generate_guidelines_content context_linked
    (Some (GitHubService.mk "token"))
  = guidelines_title +:+ guidelines_pointer ∧
  _generate_guidelines_content context_linked None
  = guidelines_title +:+ guidelines_placeholders.
Proof.
  split.
  - apply _generate_guidelines_content_spec; eauto.
  - apply _generate_guidelines_content_spec. by right.
Defined.

(** * Further properties of the publish workflow *)

Section PublishRequests.
Variable server : list Exchange → HttpRequest → string + HttpResponse.
Variable search_github_url : string → option (string * string).
Variable lower : string → string.
Variable b64encode : string → string.
Variable strftime_now : string.
Variable str_HTTPException : HTTPException.t → string.

(** The loop writes the files in order and stops only when the transport
    raises; the status of a reply is not looked at. *)
Lemma put_files_requests owner repo branch_name files_to_create log :
  ∃ result ex,
    put_files server b64encode owner repo branch_name files_to_create log
    = (result, log ++ ex) ∧
    fst <$> ex
      `prefix_of` (put_request b64encode owner repo branch_name
                     <$> files_to_create) ∧
    (result = inr tt →
     fst <$> ex = put_request b64encode owner repo branch_name
                    <$> files_to_create) ∧
    (∀ e, result = inl e → ∃ text, e = Raised text).
Proof.
  revert log.
  induction files_to_create as [|[path content] rest IH]; intros log.
  - exists (inr tt), []. rewrite app_nil_r. by split_and!.
  - simpl. unfold and_then, send.
    destruct (server log _) as [text|resp] eqn:Hreply.
    + eexists _, [_]. split; [reflexivity|]. split_and!.
      * apply prefix_cons, prefix_nil.
      * done.
      * intros e [= <-]. eauto.
    + destruct (IH (log ++ [(PutContents owner repo path
                               ("Add " +:+ path +:+ " from context marketplace")
                               (b64encode content) branch_name, inr resp)]))
        as (result & ex & -> & Hprefix & Hall & Hexc).
      eexists result, (_ :: ex). rewrite <- app_assoc.
      split; [reflexivity|]. split_and!.
      * by apply prefix_cons.
      * intros Hr. simpl. f_equal. by apply Hall.
      * done.
Qed.

(** X13. The requests of a run of [create_context_pr] are an initial part
    of the sequence of a complete run: the read of the repository, the
    read of the head of its default branch, the creation of the branch at
    that commit, one write per file of the context, in order, under
    [.context/] on the new branch, and the pull request from the new
    branch to the default branch. A run that returns a URL has sent the
    whole sequence; a run that fails ends with its last request and raises
    an exception whose message starts with [Failed to create pull
    request: ]. *)
Theorem create_context_pr_requests (owner repo : string)
    (context : Context.t) (user_login : string) (log : list Exchange) :
  let default_branch := reported_branch server owner repo log in
  let sha := reported_sha server owner repo log in
  ∃ result ex,
    create_context_pr server lower b64encode strftime_now str_HTTPException
      owner repo context user_login log = (result, log ++ ex) ∧
    fst <$> ex
      `prefix_of` publish_requests lower b64encode strftime_now owner repo
                    context user_login default_branch sha ∧
    ((∃ url, result = inr url) →
     fst <$> ex = publish_requests lower b64encode strftime_now owner repo
                    context user_login default_branch sha) ∧
    (∀ e, result = inl e →
          ∃ msg, e = Exception ("Failed to create pull request: " +:+ msg)).
Proof.
  unfold reported_sha, reported_branch, create_context_pr, publish_requests,
    try_except, and_then, send, pure, raise.
  set (files := (λ file, (".context/" +:+ ContextFile.name file,
                          ContextFile.content file))
                  <$> Context.files context).
  set (branch := "context-" +:+ replace_spaces (lower (Context.name context))
                 +:+ "-" +:+ strftime_now).
  destruct (server log (GetRepo owner repo)) as [text|resp] eqn:Hrepo.
  { eexists _, [_]. split; [rewrite app_nil_r || reflexivity|].
    split_and!; [apply prefix_cons, prefix_nil|by intros [? [=]]|].
    intros e [= <-]. eauto. }
  case_decide as Hstatus.
  { eexists _, [_]. split; [reflexivity|].
    split_and!; [apply prefix_cons, prefix_nil|by intros [? [=]]|].
    intros e [= <-]. eauto. }
  destruct (json resp) as [? ? ? ? ? ? default_branch ?| | | | |] eqn:Hbody;
    try (eexists _, [_]; split; [reflexivity|];
         split_and!; [apply prefix_cons, prefix_nil|by intros [? [=]]|];
         intros e [= <-]; by eauto).
  cbn [default_branch_of from_option id].
  destruct (server (log ++ [(GetRepo owner repo, inr resp)])
              (GetRef owner repo default_branch)) as [text|ref_resp] eqn:Href.
  { eexists _, [_; _]. rewrite <- app_assoc.
    split; [reflexivity|].
    split_and!; [do 2 apply prefix_cons; apply prefix_nil|by intros [? [=]]|].
    intros e [= <-]. eauto. }
  case_decide as Hrefstatus.
  { eexists _, [_; _]. rewrite <- app_assoc.
    split; [reflexivity|].
    split_and!; [do 2 apply prefix_cons; apply prefix_nil|by intros [? [=]]|].
    intros e [= <-]. eauto. }
  destruct (json ref_resp) as [| |sha| | |] eqn:Hrefbody;
    try (eexists _, [_; _]; rewrite <- app_assoc;
         split; [reflexivity|];
         split_and!;
           [do 2 apply prefix_cons; apply prefix_nil|by intros [? [=]]|];
         intros e [= <-]; by eauto).
  cbn [sha_of from_option id].
  rewrite <- (app_assoc log). simpl.
  destruct (server _ (PostRef owner repo ("refs/heads/" +:+ branch) sha))
    as [text|create_resp] eqn:Hcreate.
  { eexists _, [_; _; _]. rewrite <- app_assoc.
    split; [reflexivity|].
    split_and!; [do 3 apply prefix_cons; apply prefix_nil|by intros [? [=]]|].
    intros e [= <-]. eauto. }
  case_decide as Hcreatestatus.
  { eexists _, [_; _; _]. rewrite <- app_assoc.
    split; [reflexivity|].
    split_and!; [do 3 apply prefix_cons; apply prefix_nil|by intros [? [=]]|].
    intros e [= <-]. eauto. }
  rewrite <- (app_assoc log). simpl.
  match goal with
  | |- context [put_files _ _ _ _ _ _ ?l] =>
      destruct (put_files_requests owner repo branch files l)
        as (put_result & ex & -> & Hprefix & Hall & Hexc)
  end.
  rewrite <- (app_assoc log). simpl.
  destruct put_result as [e|[]].
  { eexists _, (_ :: _ :: _ :: ex).
    split; [reflexivity|].
    split_and!.
    - simpl. do 3 apply prefix_cons. by apply prefix_app_r.
    - by intros [? [=]].
    - intros e' [= <-]. eauto. }
  specialize (Hall eq_refl).
  destruct (server _ (PostPull _ _ _ _ _ _)) as [text|pr_resp] eqn:Hpr.
  { eexists _, (_ :: _ :: _ :: ex ++ [_]).
    rewrite <- (app_assoc log). 
    split; [reflexivity|]. split_and!.
    - simpl. rewrite fmap_app, Hall. reflexivity.
    - by intros [? [=]].
    - intros e' [= <-]. eauto. }
  case_decide as Hprstatus; destruct (json pr_resp); simpl;
    rewrite <- ?app_assoc; simpl;
    eexists _, (_ :: _ :: _ :: ex ++ [_]);
    (split; [reflexivity|]); simpl; rewrite fmap_app, Hall;
    (split_and!; [done|done|]); intros e' [= <-]; eauto.
Qed.

Lemma put_files_returns owner repo branch_name files_to_create log :
  (∀ log path message content branch,
     ∃ resp, server log (PutContents owner repo path message content branch)
             = inr resp) →
  ∃ log', put_files server b64encode owner repo branch_name files_to_create log
          = (inr tt, log').
Proof.
  intros Hput. revert log.
  induction files_to_create as [|[path content] rest IH]; intros log.
  - by eexists.
  - simpl. unfold and_then, send.
    destruct (Hput log path ("Add " +:+ path +:+ " from context marketplace")
                (b64encode content) branch_name) as [resp ->].
    apply IH.
Qed.

(** X14. A refused file does not stop the publication: on an API that
    serves the repository and its default branch and accepts the branch
    and the pull request, [create_context_pr] returns the URL of the pull
    request whatever status the writes of the files get. *)
Theorem create_context_pr_survives_refused_files (owner repo : string)
    (context : Context.t) (user_login default_branch sha url : string)
    (log : list Exchange) :
  serves_publication server owner repo default_branch sha url →
  fst (create_context_pr server lower b64encode strftime_now
         str_HTTPException owner repo context user_login log) = inr url.
Proof.
  intros (Hrepo & Href & Hcreate & Hput & Hpull).
  unfold create_context_pr, try_except, and_then, send, pure, raise.
  destruct (Hrepo log) as (resp & -> & Hstatus & Hbranch).
  rewrite decide_False by (by intros ?).
  destruct (json resp); try discriminate Hbranch.
  injection Hbranch as ->.
  match goal with
  | |- context [server ?l (GetRef owner repo default_branch)] =>
      destruct (Href l) as (ref_resp & -> & Hrefstatus & Hsha)
  end.
  rewrite decide_False by (by intros ?).
  destruct (json ref_resp); try discriminate Hsha.
  injection Hsha as ->.
  match goal with
  | |- context [server ?l (PostRef owner repo ?ref sha)] =>
      destruct (Hcreate l ref) as (create_resp & -> & Hcreatestatus)
  end.
  rewrite decide_False by (by intros ?).
  match goal with
  | |- context [put_files _ _ _ _ ?b ?fs ?l] =>
      destruct (put_files_returns owner repo b fs l Hput) as [log' ->]
  end.
  match goal with
  | |- context [server ?l (PostPull owner repo ?t ?b ?h default_branch)] =>
      destruct (Hpull l t b h) as (pr_resp & -> & Hprstatus & Hurl)
  end.
  rewrite decide_False by (by intros ?).
  destruct (json pr_resp); try discriminate Hurl; by injection Hurl as ->.
Qed.

(** X15. A refused branch stops the publication at once: when the API
    serves the repository and the head of its default branch but answers
    the creation of the branch with a status other than 201,
    [create_context_pr] raises [Failed to create pull request: Could not
    create branch] and has sent these three requests only: no file is
    written and no pull request opened. *)
Theorem create_context_pr_refused_branch (owner repo : string)
    (context : Context.t) (user_login default_branch sha : string)
    (log : list Exchange) :
  (∀ log, ∃ resp, server log (GetRepo owner repo) = inr resp ∧
                  status_code resp = 200 ∧
                  default_branch_of (json resp) = Some default_branch) →
  (∀ log, ∃ resp, server log (GetRef owner repo default_branch) = inr resp ∧
                  status_code resp = 200 ∧ sha_of (json resp) = Some sha) →
  (∀ log ref, ∃ resp, server log (PostRef owner repo ref sha) = inr resp ∧
                      status_code resp ≠ 201) →
  ∃ ex,
    create_context_pr server lower b64encode strftime_now str_HTTPException
      owner repo context user_login log
    = (inl (Exception
              "Failed to create pull request: Could not create branch"),
       log ++ ex) ∧
    fst <$> ex
    = [GetRepo owner repo; GetRef owner repo default_branch;
       PostRef owner repo
         ("refs/heads/context-"
          +:+ replace_spaces (lower (Context.name context))
          +:+ "-" +:+ strftime_now) sha].
Proof.
  intros Hrepo Href Hcreate.
  unfold create_context_pr, try_except, and_then, send, pure, raise.
  destruct (Hrepo log) as (resp & -> & Hstatus & Hbranch).
  rewrite decide_False by (by intros ?).
  destruct (json resp); try discriminate Hbranch.
  injection Hbranch as ->.
  match goal with
  | |- context [server ?l (GetRef owner repo default_branch)] =>
      destruct (Href l) as (ref_resp & -> & Hrefstatus & Hsha)
  end.
  rewrite decide_False by (by intros ?).
  destruct (json ref_resp); try discriminate Hsha.
  injection Hsha as ->.
  match goal with
  | |- context [server ?l (PostRef owner repo ?ref sha)] =>
      destruct (Hcreate l ref) as (create_resp & -> & Hcreatestatus)
  end.
  rewrite decide_True by done. simpl.
  eexists [_; _; _]. rewrite <- !app_assoc. split; reflexivity.
Qed.

(** X16. What the publish route answers. An unknown context gives 404 and
    an unlinked one 400, both without a request to the API. For a linked
    context every failure gives 500, with a detail that starts with
    [Error creating pull request: ]: so does a repository that cannot be
    read, whose own 404 is caught by the route's handler and only shows in
    the detail. *)
Theorem create_pull_request_errors (contexts : gmap string Context.t)
    (context_id user_login : string) (log : list Exchange) :
  let route :=
    create_pull_request server search_github_url lower b64encode strftime_now
      str_HTTPException contexts context_id user_login log in
  (contexts !! context_id = None →
   route = (inl (HTTPError (HTTPException.mk 404 "Context not found")), log)) ∧
  (∀ context,
     contexts !! context_id = Some context →
     Context.github_repo context = None →
     route = (inl (HTTPError (HTTPException.mk 400
                     "Context is not connected to a GitHub repository")),
              log)) ∧
  (∀ context github_repo,
     contexts !! context_id = Some context →
     Context.github_repo context = Some github_repo →
     (∀ e, fst route = inl e →
           ∃ detail, e = HTTPError (HTTPException.mk 500
                           ("Error creating pull request: " +:+ detail))) ∧
     (search_github_url (GitHubRepo.url github_repo) = None →
      route = (inl (HTTPError (HTTPException.mk 500
                      ("Error creating pull request: "
                       +:+ str_HTTPException
                             (HTTPException.mk 404
                                "Repository not found or not accessible")))),
               log))).
Proof.
  intros route. subst route. unfold create_pull_request. split_and!.
  - by intros ->.
  - by intros context -> ->.
  - intros context github_repo -> ->. split.
    + unfold try_except, and_then.
      destruct (get_repo_info _ _ _ log) as [[e|[info|]] log1];
        [intros ? [= <-]; eauto|..].
      * destruct (create_context_pr _ _ _ _ _ _ _ _ _ log1) as [[e|url] log2];
          [intros ? [= <-]; eauto|by intros ? [=]].
      * intros ? [= <-]. eauto.
    + intros Hsearch.
      unfold try_except, and_then, get_repo_info, pure, raise.
      by rewrite Hsearch.
Qed.

(** X17. [get_repo_info] never raises. It returns [None] without a request
    when the URL is not that of a repository, and after the one request
    when the repository is not served with status 200. When the repository
    is served, the descriptor is built from the body (its URL is the one
    the API reports, not the one asked for), with the language breakdown
    the API serves, or with an empty one when the breakdown is answered
    with another status; but when the transport raises on the breakdown
    the whole descriptor is lost. *)
Theorem get_repo_info_spec (repo_url : string) (log : list Exchange) :
  let run := get_repo_info server search_github_url repo_url log in
  (∃ info, fst run = inr info) ∧
  (search_github_url repo_url = None → run = (inr None, log)) ∧
  (∀ owner repo,
     search_github_url repo_url = Some (owner, repo) →
     (∀ resp, server log (GetRepo owner repo) = inr resp →
              status_code resp ≠ 200 →
              run = (inr None, log ++ [(GetRepo owner repo, inr resp)])) ∧
     (∀ resp owner_login name full_name description html_url clone_url
        default_branch language reply,
        server log (GetRepo owner repo) = inr resp →
        status_code resp = 200 →
        json resp = RepoData owner_login name full_name description html_url
                      clone_url default_branch language →
        server (log ++ [(GetRepo owner repo, inr resp)])
               (GetLanguages owner repo) = reply →
        let descriptor languages :=
          GitHubRepo.mk owner_login name full_name description html_url
            clone_url default_branch language (Some languages) in
        match reply with
        | inl _ => fst run = inr None
        | inr lang_resp =>
            (status_code lang_resp ≠ 200 →
             fst run = inr (Some (descriptor ∅))) ∧
            (∀ languages,
               status_code lang_resp = 200 →
               json lang_resp = LanguagesData languages →
               fst run = inr (Some (descriptor languages)))
        end)).
Proof.
  intros run. subst run. split_and!.
  - destruct (get_repo_info_log server search_github_url repo_url log)
      as (info & ex & -> & _). eauto.
  - intros Hsearch. unfold get_repo_info, try_except, pure. by rewrite Hsearch.
  - intros owner repo Hsearch.
    unfold get_repo_info, try_except, and_then, send, pure, raise.
    rewrite Hsearch. split.
    + intros resp -> Hstatus. by rewrite decide_True.
    + intros resp ????????? -> Hstatus Hbody <-.
      rewrite decide_False by (by intros ?). rewrite Hbody. simpl.
      destruct (server _ (GetLanguages owner repo)) as [text|lang_resp];
        [done|].
      split.
      * intros Hl. by rewrite decide_False by done.
      * intros languages Hl Hlbody. rewrite decide_True by done.
        by rewrite Hlbody.
Qed.
End PublishRequests.

Lemma create_context_pr_requests_example :
  fst <$> snd (sample_publication sample_server_refusing_files)
  = publish_requests id id "20240101-000000" "alice" "foo"
      context_two_files "alice" "main" "0a1b2c".
Proof.
  destruct (create_context_pr_requests sample_server_refusing_files id id
              "20240101-000000" (λ e, HTTPException.detail e) "alice" "foo"
              context_two_files "alice" [])
    as (result & ex & Hrun & _ & Hfull & _).
  unfold sample_publication. rewrite Hrun. simpl. apply Hfull.
  exists "https://github.com/alice/foo/pull/1".
  apply (f_equal fst) in Hrun. simpl in Hrun. rewrite <- Hrun.
  vm_compute. reflexivity.
Defined.

Lemma create_context_pr_survives_refused_files_example :
  fst (sample_publication sample_server_refusing_files)
  = inr "https://github.com/alice/foo/pull/1".
Proof.
  - apply (create_context_pr_survives_refused_files
             sample_server_refusing_files id id "20240101-000000"
             (λ e, HTTPException.detail e) "alice" "foo" context_two_files
             "alice" "main" "0a1b2c" "https://github.com/alice/foo/pull/1" []).
    unfold serves_publication. split_and!; intros; eexists; simpl; eauto.
Defined.

Lemma create_context_pr_refused_branch_example :
  ∃ ex, sample_publication sample_server_refusing_branch
        = (inl (Exception
                  "Failed to create pull request: Could not create branch"),
           ex) ∧
        length ex = 3%nat.
Proof.
  destruct (create_context_pr_refused_branch sample_server_refusing_branch id
              id "20240101-000000" (λ e, HTTPException.detail e) "alice" "foo"
              context_two_files "alice" "main" "0a1b2c" [])
    as (ex & Hrun & Hreqs).
  - intros log. eexists. simpl. eauto.
  - intros log. eexists. simpl. eauto.
  - intros log ref. eexists. simpl. split; [reflexivity|]. simpl. lia.
  - exists ex. split; [exact Hrun|].
    apply (f_equal length) in Hreqs. by rewrite length_fmap in Hreqs.
Defined.

Lemma create_pull_request_errors_example :
  ∃ detail,
    fst sample_publish
    = inl (HTTPError (HTTPException.mk 500
             ("Error creating pull request: " +:+ detail))).
Proof.
  destruct (create_pull_request_errors sample_server sample_search id id
              "20240101-000000" (λ e, HTTPException.detail e)
              (contexts world_linked) "ctx-0" "alice" [])
    as (_ & _ & Hlinked).
  destruct (Hlinked context_linked
              (sample_repo "https://github.com/alice/foo"))
    as [Hfailure _]; [vm_compute; reflexivity|reflexivity|].
  destruct (Hfailure
              (HTTPError (HTTPException.mk 500
                 "Error creating pull request: Failed to create pull request: Could not access repository")))
    as [detail Hdetail]; [vm_compute; reflexivity|].
  exists detail. rewrite <- Hdetail. vm_compute. reflexivity.
Defined.

Lemma get_repo_info_example :
  fst (get_repo_info sample_server sample_search
         "https://github.com/alice/foo" [])
  = inr (Some (GitHubRepo.mk "alice" "foo" "alice/foo" None
                 "https://github.com/alice/foo"
                 "https://github.com/alice/foo.git" "main" None (Some ∅))).
Proof.
  destruct (get_repo_info_spec sample_server sample_search
              "https://github.com/alice/foo" []) as (_ & _ & Hparsed).
  destruct (Hparsed "alice" "foo" eq_refl) as [_ Hserved].
  specialize (Hserved _ _ _ _ _ _ _ _ _ _ eq_refl eq_refl eq_refl eq_refl).
  simpl in Hserved. destruct Hserved as [_ Hlanguages].
  by apply Hlanguages.
Defined.

(** * Properties of the routes *)

(** ** Who may change a context *)

Lemma owned_context_refuses (w : World) context_id user_id :
  (contexts w !! context_id = None →
   owned_context context_id user_id w
   = (inl (not_found "Context not found"), w)) ∧
  (∀ context, contexts w !! context_id = Some context →
              user_id ≠ Context.owner_id context →
              owned_context context_id user_id w = (inl access_denied, w)).
Proof.
  unfold owned_context, get_context, bind, ret, get_contexts. split.
  - by intros ->.
  - intros context -> Hne. by rewrite decide_True.
Qed.

(** X18. The routes that change a context answer 404 for an unknown
    context and 403 for a user who is not its owner, public or not, and
    in both cases leave the store, the disk and the clock as they were:
    update and delete of the context, creation, update and deletion of a
    file, and the contributor toggle. *)
Theorem routes_refuse_non_owner (clock : nat → Z) (w : World)
    (context_id : string) (user_id : Z) :
  let refused (e : HTTPException.t) :=
    (∀ request, update_context_route clock context_id request user_id w
                = (inl e, w)) ∧
    delete_context_route context_id user_id w = (inl e, w) ∧
    (∀ request, create_context_file_route clock context_id request user_id w
                = (inl e, w)) ∧
    (∀ file_name request,
       update_context_file_route clock context_id file_name request user_id w
       = (inl e, w)) ∧
    (∀ file_name,
       delete_context_file_route clock context_id file_name user_id w
       = (inl e, w)) ∧
    (∀ login, toggle_contributor_selection clock context_id login user_id w
              = (inl e, w)) in
  (contexts w !! context_id = None →
   refused (HTTPException.mk 404 "Context not found")) ∧
  (∀ context, contexts w !! context_id = Some context →
              user_id ≠ Context.owner_id context →
              refused (HTTPException.mk 403 "Access denied")).
Proof.
  intros refused. subst refused.
  destruct (owned_context_refuses w context_id user_id) as [H404 H403].
  split.
  - intros Hnone. specialize (H404 Hnone).
    unfold update_context_route, delete_context_route,
      create_context_file_route, update_context_file_route,
      delete_context_file_route.
    split_and!; intros; try (by rewrite (bind_run _ _ _ _ _ H404)).
    unfold toggle_contributor_selection, get_context, bind, ret, get_contexts.
    by rewrite Hnone.
  - intros context Hctx Hne. specialize (H403 context Hctx Hne).
    unfold update_context_route, delete_context_route,
      create_context_file_route, update_context_file_route,
      delete_context_file_route.
    split_and!; intros; try (by rewrite (bind_run _ _ _ _ _ H403)).
    unfold toggle_contributor_selection, get_context, bind, ret, get_contexts.
    rewrite Hctx. by rewrite decide_True.
Qed.

Lemma routes_refuse_non_owner_example :
  delete_context_route "ctx-0" 2 world_two_owners
  = (inl (HTTPException.mk 403 "Access denied"), world_two_owners) ∧
  delete_context_route "ctx-7" 2 world_two_owners
  = (inl (HTTPException.mk 404 "Context not found"), world_two_owners).
Proof.
  destruct (routes_refuse_non_owner sample_clock world_two_owners "ctx-0" 2)
    as [_ H403].
  destruct (routes_refuse_non_owner sample_clock world_two_owners "ctx-7" 2)
    as [H404 _].
  split.
  - apply (H403 context_linked); [vm_compute; reflexivity|discriminate].
  - apply H404. vm_compute. reflexivity.
Defined.

(** ** Who may read a context *)



(** ** Creating a context through the API *)

Lemma add_file_to_context_frame (clock : nat → Z) (w : World) context_id
    request :
  draws (state_of (add_file_to_context clock context_id request) w) = draws w ∧
  ∀ k, k ≠ context_id →
       contexts (state_of (add_file_to_context clock context_id request) w) !! k
       = contexts w !! k.
Proof.
  unfold add_file_to_context, state_of, bind, ret, get_contexts, store_context,
    now, new_ContextFile, _save_context, modify_disk.
  destruct (contexts w !! context_id); simpl; [|done].
  split; [done|]. intros k Hk. by rewrite lookup_insert_ne.
Qed.

Lemma generate_default_files_frame (clock : nat → Z) (w : World) context_id
    github_service :
  draws (state_of (generate_default_files clock context_id github_service) w)
  = draws w ∧
  ∀ k, k ≠ context_id →
       contexts (state_of (generate_default_files clock context_id
                             github_service) w) !! k
       = contexts w !! k.
Proof.
  unfold generate_default_files.
  rewrite state_of_bind.
  change (state_of get_contexts w) with w.
  change (value_of get_contexts w) with (contexts w).
  destruct (contexts w !! context_id) as [c|]; [|done].
  rewrite !state_of_bind, state_of_get_context, !state_of_current.
  split.
  - by repeat rewrite (proj1 (add_file_to_context_frame _ _ _ _)).
  - intros k Hk.
    by repeat rewrite (proj2 (add_file_to_context_frame _ _ _ _) k Hk).
Qed.

Lemma generate_default_files_identity (clock : nat → Z) (w : World)
    context_id github_service (context context' : Context.t) :
  contexts w !! context_id = Some context →
  contexts (state_of (generate_default_files clock context_id github_service)
              w) !! context_id = Some context' →
  Context.id context' = Context.id context ∧
  Context.owner_id context' = Context.owner_id context ∧
  Context.owner_login context' = Context.owner_login context ∧
  Context.name context' = Context.name context ∧
  Context.is_public context' = Context.is_public context ∧
  Context.created_at context' = Context.created_at context.
Proof.
  intros Hctx.
  unfold generate_default_files, add_file_to_context, current, get_context,
    state_of, bind, ret, get_contexts, store_context, now, new_ContextFile,
    _save_context, modify_disk.
  repeat (first [rewrite Hctx | rewrite lookup_insert_eq];
          cbn -[_generate_stack_content _generate_business_content
                _generate_people_content _generate_guidelines_content
                filter save_to_disk]).
  by intros [= <-].
Qed.

Section CreateRoute.
Variable clock : nat → Z.
Variable uuid4 : nat → string.
Variable fetched_repo : string → option GitHubRepo.t.
Variable fetched_contributors : string → string → list GitHubContributor.t.

(** The enrichment step of the route, on the context just created. *)
Lemma enrichment_run (w : World) (request : CreateContextRequest.t)
    (context : Context.t) :
  contexts w !! Context.id context = Some context →
  let enrich :=
    match nonempty (CreateContextRequest.github_repo_url request) with
    | Some github_repo_url =>
        match fetched_repo github_repo_url with
        | Some repo_info =>
            set_context_repo clock (Context.id context) repo_info ;;
            set_context_contributors clock (Context.id context)
              (fetched_contributors (GitHubRepo.owner repo_info)
                                    (GitHubRepo.name repo_info)) ;;
            ret tt
        | None => ret tt
        end
    | None => ret tt
    end in
  ∃ context2,
    contexts (state_of enrich w) = <[Context.id context := context2]> (contexts w) ∧
    draws (state_of enrich w) = draws w ∧
    Context.id context2 = Context.id context ∧
    Context.owner_id context2 = Context.owner_id context ∧
    Context.files context2 = Context.files context ∧
    Context.github_repo context2
    = match enrichment fetched_repo request with
      | Some repo_info => Some repo_info
      | None => Context.github_repo context
      end ∧
    Context.contributors context2
    = match enrichment fetched_repo request with
      | Some repo_info =>
          fetched_contributors (GitHubRepo.owner repo_info)
                               (GitHubRepo.name repo_info)
      | None => Context.contributors context
      end.
Proof.
  intros Hctx enrich. subst enrich. unfold enrichment.
  destruct (nonempty (CreateContextRequest.github_repo_url request)) as [u|];
    simpl; [destruct (fetched_repo u) as [repo_info|]|].
  - unfold set_context_repo, set_context_contributors, state_of, bind, ret,
      get_contexts, store_context, now, _save_context, modify_disk.
    rewrite Hctx. simpl. rewrite lookup_insert_eq. simpl.
    eexists. rewrite insert_insert_eq. split; [reflexivity|]. by simpl.
  - exists context. rewrite insert_id by done. by split_and!.
  - exists context. rewrite insert_id by done. by split_and!.
Qed.

Lemma create_context_route_run (w : World) (request : CreateContextRequest.t)
    (user_id : Z) (user_login : string) (github_service : GitHubService.t) :
  ¬ duplicate_link w user_id request →
  ∃ context' w',
    create_context_route clock uuid4 fetched_repo fetched_contributors request
      user_id user_login github_service w = (inr (Some context'), w') ∧
    contexts w' !! uuid4 (draws w) = Some context' ∧
    (∀ k, k ≠ uuid4 (draws w) → contexts w' !! k = contexts w !! k) ∧
    draws w' = S (draws w) ∧
    Context.id context' = uuid4 (draws w) ∧
    Context.owner_id context' = user_id ∧
    Context.github_repo context' = enrichment fetched_repo request ∧
    Context.contributors context'
    = match enrichment fetched_repo request with
      | Some repo_info =>
          fetched_contributors (GitHubRepo.owner repo_info)
                               (GitHubRepo.name repo_info)
      | None => []
      end ∧
    (λ f, (ContextFile.name f, ContextFile.content f))
      <$> Context.files context'
    = [("stack.md", _generate_stack_content context' (Some github_service));
       ("business.md", _generate_business_content context');
       ("people.md", _generate_people_content context');
       ("guidelines.md",
        _generate_guidelines_content context' (Some github_service))].
Proof.
  intros Hnodup.
  destruct (create_context_cases clock uuid4 w user_id user_login request)
    as [[Hdup _]|[_ Hrun]]; [done|]. cbv zeta in Hrun.
  unfold create_context_route.
  rewrite (bind_run _ _ _ _ _ Hrun).
  set (context := Context.mk (uuid4 (draws w)) _ _ _ _ _ _ _ _ _ _) in *.
  set (w1 := mkWorld _ _ _ _).
  assert (contexts w1 !! Context.id context = Some context) as Hctx1
    by apply lookup_insert_eq.
  destruct (enrichment_run w1 request context Hctx1)
    as (c2 & Hcs2 & Hdraws2 & Hid2 & Ho2 & Hfiles2 & Hrepo2 & Hcontrib2).
  cbv zeta in Hcs2, Hdraws2.
  match goal with
  | |- context [bind ?m _ w1] =>
      rewrite (bind_run m _ w1 _ _ (run_eta m w1))
  end.
  set (w2 := state_of _ w1) in *.
  assert (contexts w2 !! Context.id context = Some c2) as Hctx2.
  { rewrite Hcs2. apply lookup_insert_eq. }
  destruct (generate_default_files_run clock w2 (Context.id context)
              (Some github_service) c2 Hctx2)
    as (c3 & w3 & Hrun3 & Hctx3 & Hfiles3 & Hrepo3 & Hcontrib3 & _).
  destruct (generate_default_files_frame clock w2 (Context.id context)
              (Some github_service)) as [Hdraws3 Hframe3].
  unfold state_of in Hdraws3, Hframe3. rewrite Hrun3 in Hdraws3, Hframe3.
  simpl in Hdraws3, Hframe3.
  rewrite (bind_run _ _ _ _ _ Hrun3).
  destruct (generate_default_files_identity clock w2 (Context.id context)
              (Some github_service) c2 c3 Hctx2) as (Hid3 & Ho3 & _).
  { unfold state_of. by rewrite Hrun3. }
  change (Context.id context) with (uuid4 (draws w)) in *.
  unfold get_context, bind, ret, get_contexts. simpl. rewrite Hctx3.
  exists c3, w3. split; [done|]. split; [done|].
  destruct (generated_contents_same c3 c2 (Some github_service))
    as (Hs & Hb & Hp & Hg); [done|done|].
  split_and!.
  - intros k Hk. rewrite Hframe3 by done. rewrite Hcs2.
    rewrite lookup_insert_ne by done. subst w1. simpl.
    by rewrite lookup_insert_ne.
  - by rewrite Hdraws3, Hdraws2.
  - by rewrite Hid3, Hid2.
  - by rewrite Ho3, Ho2.
  - rewrite Hrepo3, Hrepo2. by destruct (enrichment fetched_repo request).
  - rewrite Hcontrib3, Hcontrib2. by destruct (enrichment fetched_repo request).
  - rewrite Hfiles3, Hfiles2. simpl. by rewrite Hs, Hb, Hp, Hg.
Qed.

Lemma create_context_route_refused (w : World)
    (request : CreateContextRequest.t) (user_id : Z) (user_login : string)
    (github_service : GitHubService.t) :
  duplicate_link w user_id request →
  create_context_route clock uuid4 fetched_repo fetched_contributors request
    user_id user_login github_service w
  = (inl (HTTPException.mk 400
            ("Context already exists for repository: "
             +:+ CreateContextRequest.name request)), w).
Proof.
  intros Hdup.
  destruct (create_context_cases clock uuid4 w user_id user_login request)
    as [[_ Hrun]|[Hnodup _]]; [|done].
  unfold create_context_route. by rewrite (bind_run _ _ _ _ _ Hrun).
Qed.

(** X20. [POST /api/contexts]. A request that duplicates a link is
    answered 400 and changes nothing. Any other request creates the
    context under the next id and returns it as it is after enrichment
    and generation: linked to the descriptor fetched for its URL, if it
    has a URL and the fetch succeeds, and unlinked otherwise (a failed
    fetch is not an error); with the contributors fetched for that
    descriptor; and with exactly the four default documents, whose
    contents are those generated from the context as returned. The other
    stored contexts are untouched. *)
Theorem create_context_route_spec (w : World)
    (request : CreateContextRequest.t) (user_id : Z) (user_login : string)
    (github_service : GitHubService.t) :
  (duplicate_link w user_id request →
   create_context_route clock uuid4 fetched_repo fetched_contributors request
     user_id user_login github_service w
   = (inl (HTTPException.mk 400
             ("Context already exists for repository: "
              +:+ CreateContextRequest.name request)), w)) ∧
  (¬ duplicate_link w user_id request →
   ∃ context' w',
     create_context_route clock uuid4 fetched_repo fetched_contributors
       request user_id user_login github_service w
     = (inr (Some context'), w') ∧
     contexts w' !! uuid4 (draws w) = Some context' ∧
     (∀ k, k ≠ uuid4 (draws w) → contexts w' !! k = contexts w !! k) ∧
     Context.id context' = uuid4 (draws w) ∧
     Context.owner_id context' = user_id ∧
     Context.github_repo context' = enrichment fetched_repo request ∧
     Context.contributors context'
     = match enrichment fetched_repo request with
       | Some repo_info =>
           fetched_contributors (GitHubRepo.owner repo_info)
                                (GitHubRepo.name repo_info)
       | None => []
       end ∧
     (λ f, (ContextFile.name f, ContextFile.content f))
       <$> Context.files context'
     = [("stack.md", _generate_stack_content context' (Some github_service));
        ("business.md", _generate_business_content context');
        ("people.md", _generate_people_content context');
        ("guidelines.md",
         _generate_guidelines_content context' (Some github_service))]).
Proof.
  split.
  - apply create_context_route_refused.
  - intros Hnodup.
    destruct (create_context_route_run w request user_id user_login
                github_service Hnodup)
      as (c & w' & Hrun & Hc & Hframe & _ & Hid & Ho & Hrepo & Hcs & Hfiles).
    exists c, w'. repeat (split; [assumption|]). exact Hfiles.
Qed.

(** X21. The duplicate check compares the URL of the request with the URL
    of the stored descriptors, and the route stores the descriptor the
    API reports. So when the API reports the repository under another URL
    than the one asked for, the same request goes through a second time,
    and the owner ends up with two contexts linked to the same
    repository; when it reports the very URL asked for, the second
    request is answered 400. *)
Theorem create_context_route_twice (w : World) (name : string)
    (description : option string) (repo_url : string)
    (is_public : option bool) (user_id : Z) (user_login : string)
    (github_service : GitHubService.t) (repo_info : GitHubRepo.t) :
  let request :=
    CreateContextRequest.make name description (Some repo_url) is_public in
  let route :=
    create_context_route clock uuid4 fetched_repo fetched_contributors request
      user_id user_login github_service in
  repo_url ≠ "" →
  fetched_repo repo_url = Some repo_info →
  ¬ duplicate_link w user_id request →
  uuid4 (draws w) ≠ uuid4 (S (draws w)) →
  ∃ context1 w1,
    route w = (inr (Some context1), w1) ∧
    (GitHubRepo.url repo_info = repo_url →
     ∃ e, route w1 = (inl e, w1) ∧ HTTPException.status_code e = 400) ∧
    (GitHubRepo.url repo_info ≠ repo_url →
     ∃ context2 w2,
       route w1 = (inr (Some context2), w2) ∧
       Context.id context1 ≠ Context.id context2 ∧
       contexts w2 !! Context.id context1 = Some context1 ∧
       contexts w2 !! Context.id context2 = Some context2 ∧
       linked_to user_id (GitHubRepo.url repo_info) context1 ∧
       linked_to user_id (GitHubRepo.url repo_info) context2).
Proof.
  intros request route Hne Hfetch Hnodup Huuid. subst route.
  assert (enrichment fetched_repo request = Some repo_info) as Henrich.
  { unfold enrichment, request. simpl.
    apply truthy_Some in Hne. simpl in Hne. rewrite Hne. simpl. done. }
  destruct (create_context_route_run w request user_id user_login
              github_service Hnodup)
    as (c1 & w1 & Hrun1 & Hc1 & Hframe1 & Hdraws1 & Hid1 & Ho1 & Hrepo1 & _).
  rewrite Henrich in Hrepo1.
  exists c1, w1. split; [exact Hrun1|]. split.
  - intros Hsame.
    exists (HTTPException.mk 400
              ("Context already exists for repository: " +:+ name)).
    split; [|reflexivity].
    apply create_context_route_refused.
    exists repo_url, (uuid4 (draws w)), c1. split; [done|]. split; [done|].
    split; [done|]. split; [done|]. eauto.
  - intros Hdiff.
    assert (¬ duplicate_link w1 user_id request) as Hnodup1.
    { intros (u & k & c & [= <-] & _ & Hk & Ho & r & Hr & Hu).
      destruct (decide (k = uuid4 (draws w))) as [->|Hk'].
      - rewrite Hc1 in Hk. injection Hk as <-.
        rewrite Hrepo1 in Hr. injection Hr as <-. done.
      - rewrite Hframe1 in Hk by done. apply Hnodup.
        exists repo_url, k, c. split; [done|]. split; [done|].
        split; [done|]. split; [done|]. eauto. }
    destruct (create_context_route_run w1 request user_id user_login
                github_service Hnodup1)
      as (c2 & w2 & Hrun2 & Hc2 & Hframe2 & _ & Hid2 & Ho2 & Hrepo2 & _).
    rewrite Henrich in Hrepo2. rewrite Hdraws1 in Hc2, Hframe2, Hid2.
    exists c2, w2. split; [exact Hrun2|].
    rewrite Hid1, Hid2. split; [done|].
    split; [by rewrite Hframe2, Hc1|]. split; [done|].
    split; (split; [done|]); eauto.
Qed.
End CreateRoute.

Lemma create_context_route_example :
  sample_create_route "https://github.com/alice/foo" world_linked
  = (inl (HTTPException.mk 400 "Context already exists for repository: Foo"),
     world_linked) ∧
  ∃ context' w',
    sample_create_route "https://github.com/alice/foo" init_world
    = (inr (Some context'), w') ∧
    Context.github_repo context'
    = Some (sample_repo "https://github.com/alice/foo") ∧
    Context.contributors context' = [bob] ∧
    ContextFile.name <$> Context.files context'
    = ["stack.md"; "business.md"; "people.md"; "guidelines.md"].
Proof.
  split.
  - apply (proj1 (create_context_route_spec sample_clock sample_uuid4
                    sample_fetched_repo (λ _ _, [bob]) world_linked
                    (CreateContextRequest.make "Foo" None
                       (Some "https://github.com/alice/foo") None)
                    1 "alice" (GitHubService.mk "token"))).
    exists "https://github.com/alice/foo", "ctx-0". eexists.
    split; [reflexivity|]. split; [discriminate|].
    split; [vm_compute; reflexivity|].
    split; [reflexivity|]. eexists. split; reflexivity.
  - destruct (proj2 (create_context_route_spec sample_clock sample_uuid4
                       sample_fetched_repo (λ _ _, [bob]) init_world
                       (CreateContextRequest.make "Foo" None
                          (Some "https://github.com/alice/foo") None)
                       1 "alice" (GitHubService.mk "token")))
      as (c & w' & Hrun & _ & _ & _ & _ & Hrepo & Hcs & Hfiles).
    + intros (u & k & c & _ & _ & Hk & _). simpl in Hk.
      by rewrite lookup_empty in Hk.
    + exists c, w'. split; [exact Hrun|]. split; [exact Hrepo|].
      split; [exact Hcs|].
      apply (f_equal (fmap fst)) in Hfiles.
      rewrite <- list_fmap_compose in Hfiles. exact Hfiles.
Defined.

Lemma create_context_route_twice_example :
  ∃ context1 w1 context2 w2,
    sample_create_route "https://github.com/alice/foo.git" init_world
    = (inr (Some context1), w1) ∧
    sample_create_route "https://github.com/alice/foo.git" w1
    = (inr (Some context2), w2) ∧
    Context.id context1 ≠ Context.id context2 ∧
    contexts w2 !! Context.id context1 = Some context1 ∧
    contexts w2 !! Context.id context2 = Some context2 ∧
    linked_to 1 "https://github.com/alice/foo" context1 ∧
    linked_to 1 "https://github.com/alice/foo" context2.
Proof.
  destruct (create_context_route_twice sample_clock sample_uuid4
              sample_fetched_repo (λ _ _, [bob]) init_world "Foo" None
              "https://github.com/alice/foo.git" None 1 "alice"
              (GitHubService.mk "token")
              (sample_repo "https://github.com/alice/foo"))
    as (c1 & w1 & Hrun1 & _ & Htwice).
  - discriminate.
  - reflexivity.
  - intros (u & k & c & _ & _ & Hk & _). simpl in Hk.
    by rewrite lookup_empty in Hk.
  - vm_compute. discriminate.
  - destruct Htwice as (c2 & w2 & Hrun2 & Hrest); [simpl; discriminate|].
    exists c1, w1, c2, w2. split; [exact Hrun1|]. split; [exact Hrun2|].
    exact Hrest.
Defined.
